(** * Crop-yield prediction service: the numeric core and its request handlers

    A shallow embedding of the Deno edge functions of the repository:
    - the simple prediction endpoint with its handler ([Module Predict]),
    - the enhanced prediction endpoint ([Module PredictEnhanced]),
    - the simple dataset generator ([Module Generate]),
    - the enhanced dataset generator with its handler
      ([Module GenerateEnhanced]).

    Effects.  [Math.random], the calls to the database client and [throw]
    live in the monad of [Module Eff]; what the outside answers is a record
    of oracles, the [world] of each handler.

    Numbers.  The numeric core is embedded twice.

    [Module F64] is the code as it runs: a JavaScript [number] is a binary64
    number, with NaN, the infinities, signed zeros and correctly rounded
    operations.  What is stated of the estimators for every input, and
    every value they return at a given input, is stated there.

    The modules [Predict], [PredictEnhanced], [Generate] and
    [GenerateEnhanced] read a [number] as an exact real: [+ - * /],
    [Math.abs], [Math.sqrt], [Math.pow], [Math.max], [Math.min],
    [Math.floor] and [Math.round] are the real operations of the same name,
    decimal literals denote the decimal they spell, and the two decimal
    roundings of the code ([Math.round(x * 100) / 100] and
    [parseFloat(x.toFixed(2))]) are exact.  Rounding error, NaN and the
    infinities are outside this exact model.  It carries the handlers and
    the generators, and of the estimators the statements that binary64
    shares with it: comparisons, identities between two runs of the same
    expressions, values built from draws in bounded ranges, and bounds with
    a slack far above the rounding error on inputs that fit the database
    columns. *)

From Stdlib Require Import Reals Lra Lia List String ZArith Bool.
From Stdlib Require Import Permutation Sorted.
From Stdlib Require Floats.
Import ListNotations.
Open Scope R_scope.
Set Warnings "-inexact-float".

(** ** JavaScript primitives *)

Module JS.

(** [a < b] and [a > b] on numbers, as booleans. *)
Definition lt (a b : R) : bool := if Rlt_dec a b then true else false.
Definition gt (a b : R) : bool := lt b a.

(** [Math.floor]. *)
Definition floor (x : R) : R := IZR (Zfloor x).

(** [Math.round]: the nearest integer, ties towards plus infinity. *)
Definition round (x : R) : R := floor (x + 0.5).

(** [parseFloat(x.toFixed(2))].  [toFixed] prints the sign apart and rounds
    the magnitude to the nearest multiple of 1/100, ties to the larger one;
    from 1e21 on it prints the number itself. *)
Definition toFixed2 (x : R) : R :=
  if Rle_dec 1e21 (Rabs x) then x
  else if Rlt_dec x 0 then - (floor (- x * 100 + 0.5) / 100)
  else floor (x * 100 + 0.5) / 100.

(** [Math.pow(x, 2)] and [x ** 2]. *)
Definition pow2 (x : R) : R := x * x.

(** A value caught by [catch]: an [Error] instance, or a value that is not
    one, such as the [{ message, details, hint, code }] object the database
    client hands back in [error].  Either has a [message] property. *)
Inductive thrown : Type :=
| ErrorInstance (message : string)
| PlainObject (message : string).

End JS.

Infix "<?" := JS.lt (at level 70, no associativity) : R_scope.
Infix ">?" := JS.gt (at level 70, no associativity) : R_scope.

(** ** Rows of [crops_dataset]

    The five base features and [yield] are NOT NULL columns.  The columns
    added for the enhanced endpoint are nullable: a missing value reads as
    [null], which is falsy and counts as 0 in arithmetic. *)

Record row : Type := {
  temperature : R;
  rainfall : R;
  fertilizer : R;
  soil_ph : R;
  humidity : R;
  yield : R;
  nitrogen : option R;
  phosphorus : option R;
  potassium : option R;
  temp_rainfall_interaction : option R;
  npk_ratio : option R
}.

(** [null] coerced to a number. *)
Definition num (v : option R) : R :=
  match v with Some x => x | None => 0 end.

(** Truthiness of a nullable number: [null] and [0] are falsy. *)
Definition truthy (v : option R) : bool :=
  match v with
  | Some x => if Req_dec_T x 0 then false else true
  | None => false
  end.

(** A row of the original schema, before the nullable columns were added. *)
Definition base_row (t r f p h y : R) : row :=
  {| temperature := t; rainfall := r; fertilizer := f; soil_ph := p;
     humidity := h; yield := y;
     nitrogen := None; phosphorus := None; potassium := None;
     temp_rainfall_interaction := None; npk_ratio := None |}.

(** [trainingData] as the query returns it: [null] or an array of rows. *)
Definition rows (trainingData : option (list row)) : list row :=
  match trainingData with Some data => data | None => [] end.

(** [!trainingData || trainingData.length === 0]. *)
Definition no_rows (trainingData : option (list row)) : bool :=
  match trainingData with
  | None => true
  | Some data => Nat.eqb (List.length data) 0
  end.

(** ** The nearest-neighbour tail shared by both prediction endpoints

    From "distances.sort" to the second "reduce" the two endpoints have the
    same text. *)

Module KNN.

(** The object [{ distance, yield: record.yield }]. *)
Record scored : Type := { distance : R; syield : R }.

(** [distances.sort((a, b) => a.distance - b.distance)]: the stable sort
    of the array, ascending by distance.  Insertion from the right keeps
    earlier elements first among equal distances. *)
Fixpoint insert (a : scored) (l : list scored) : list scored :=
  match l with
  | [] => [a]
  | b :: l' =>
      if Rle_dec (distance a - distance b) 0 then a :: b :: l'
      else b :: insert a l'
  end.

Definition sort (l : list scored) : list scored :=
  fold_right insert [] l.

(** [distances.slice(0, k)]. *)
Definition slice0 (k : nat) (l : list scored) : list scored := firstn k l.

(** [1 / (n.distance + 0.01)]. *)
Definition weight (n : scored) : R := 1 / (distance n + 0.01).

(** [nearest.reduce((sum, n) => sum + 1 / (n.distance + 0.01), 0)]. *)
Definition totalWeight (nearest : list scored) : R :=
  fold_left (fun sum n => sum + 1 / (distance n + 0.01)) nearest 0.

(** [nearest.reduce((sum, n) =>
      sum + (n.yield * (1 / (n.distance + 0.01))) / totalWeight, 0)]. *)
Definition weightedYield (nearest : list scored) : R :=
  fold_left
    (fun sum n =>
       sum + (syield n * (1 / (distance n + 0.01))) / totalWeight nearest)
    nearest 0.

End KNN.

(** ** Effects of a request handler

    A handler draws from [Math.random], calls the database client, and may
    throw.  The state counts the draws so far and logs the external calls in
    the order they were issued; a computation ends by returning or by
    throwing. *)

Module Eff.

Inductive call : Type :=
| CreateClient
| ReadJson
| SelectTraining
| SelectMetrics
| InsertPrediction
| InsertBatch (offset : nat)
| InsertMetrics.

(** How an awaited call settles. *)
Inductive settled (A : Type) : Type :=
| Rejected (e : JS.thrown)
| Resolved (a : A).
Arguments Rejected {A} e.
Arguments Resolved {A} a.

(** The [{ data, error }] object of the database client. *)
Record reply (A : Type) : Type := { data : option A; error : option JS.thrown }.
Arguments data {A} r.
Arguments error {A} r.

Record state : Type := { draws : nat; log : list call }.

Inductive result (A : Type) : Type :=
| Throw (e : JS.thrown)
| Return (a : A).
Arguments Throw {A} e.
Arguments Return {A} a.

Definition M (A : Type) : Type := state -> result A * state.

Definition ret {A : Type} (a : A) : M A := fun s => (Return a, s).

Definition throw {A : Type} (e : JS.thrown) : M A := fun s => (Throw e, s).

Definition bind {A B : Type} (m : M A) (f : A -> M B) : M B :=
  fun s =>
    match m s with
    | (Throw e, s') => (Throw e, s')
    | (Return a, s') => f a s'
    end.

(** [try { m } catch (error) { handler(error) }]. *)
Definition try_catch {A : Type} (m : M A) (handler : JS.thrown -> M A) : M A :=
  fun s =>
    match m s with
    | (Throw e, s') => handler e s'
    | (Return a, s') => (Return a, s')
    end.

(** [await] of an external call whose outcome the world decides. *)
Definition await {A : Type} (c : call) (outcome : settled A) : M A :=
  fun s =>
    (match outcome with Rejected e => Throw e | Resolved a => Return a end,
     {| draws := draws s; log := log s ++ [c] |}).

(** [Math.random()]: the next draw of the oracle. *)
Definition random (oracle : nat -> R) : M R :=
  fun s => (Return (oracle (draws s)), {| draws := S (draws s); log := log s |}).

(** [if (error) throw error]. *)
Definition throw_if {A : Type} (r : reply A) : M unit :=
  match error r with Some e => throw e | None => ret tt end.

Definition start : state := {| draws := 0; log := [] |}.

End Eff.

Notation "x <- m ;; k" := (Eff.bind m (fun x => k))
  (at level 61, m at next level, right associativity).
Notation "m ;;; k" := (Eff.bind m (fun _ => k))
  (at level 61, right associativity).

(** ** HTTP responses *)

Record model_metric : Type := {
  model_name : string;
  r2_score : R;
  mae : R;
  rmse : R;
  evaluation_method : option string;
  tuned_parameters : option string
}.

Inductive payload : Type :=
| NoBody
| ErrorJson (error : string)
| PredictionJson (predicted_crop : string) (predicted_yield_lr : R)
    (predicted_yield_rf : R) (best_model : string)
    (lr_metrics rf_metrics : option model_metric)
| GenerationJson (success : bool) (records_created : nat)
    (lr_metrics rf_metrics : model_metric).

Record response : Type := { status : Z; body : payload }.

(** The [catch] block shared by every handler:
    [error instanceof Error ? error.message : "Unknown error"], status 500. *)
Definition error_text (error : JS.thrown) : string :=
  match error with
  | JS.ErrorInstance message => message
  | JS.PlainObject _ => "Unknown error"%string
  end.

Definition catch_block (error : JS.thrown) : Eff.M response :=
  Eff.ret {| status := 500; body := ErrorJson (error_text error) |}.

(** [new Response(..., { headers })]: the status defaults to 200. *)
Definition ok (b : payload) : response := {| status := 200; body := b |}.


(** ** The simple prediction endpoint *)

Module Predict.

Definition predictLinearRegression (temp rain fert ph humid : R) : R :=
  let intercept := 1000 in
  let c_temperature := 50 in
  let c_rainfall := 2.5 in
  let c_fertilizer := 15 in
  let c_soil_ph := 200 in
  let c_humidity := 10 in
  let yield_value :=
    intercept +
    c_temperature * temp +
    c_rainfall * rain +
    c_fertilizer * fert +
    c_soil_ph * ph +
    c_humidity * humid in
  Rmax 500 (JS.round (yield_value * 100) / 100).

(** The callback of [trainingData.map]. *)
Definition score (temp rain fert ph humid : R) (record : row) : KNN.scored :=
  let tempDist := Rabs (temperature record - temp) / 25 in
  let rainDist := Rabs (rainfall record - rain) / 1500 in
  let fertDist := Rabs (fertilizer record - fert) / 250 in
  let phDist := Rabs (soil_ph record - ph) / 2.5 in
  let humidDist := Rabs (humidity record - humid) / 50 in
  let distance :=
    sqrt (JS.pow2 tempDist + JS.pow2 rainDist + JS.pow2 fertDist +
          JS.pow2 phDist + JS.pow2 humidDist) in
  {| KNN.distance := distance; KNN.syield := yield record |}.

Definition predictRandomForest (temp rain fert ph humid : R)
    (trainingData : option (list row)) : R :=
  if no_rows trainingData then
    predictLinearRegression temp rain fert ph humid * 1.15
  else
    let k := Nat.min 10 (List.length (rows trainingData)) in
    let distances := map (score temp rain fert ph humid) (rows trainingData) in
    let nearest := KNN.slice0 k (KNN.sort distances) in
    JS.round (KNN.weightedYield nearest * 100) / 100.

Definition determineBestCrop (temp rain fert ph humid : R) : string :=
  if (temp >? 30) && (rain >? 1200) then "Rice"%string
  else if (temp >? 25) && (rain >? 800) && (rain <? 1200) then "Corn"%string
  else if (temp >? 28) && (rain >? 1000) then "Sugarcane"%string
  else if (temp <? 25) && (rain <? 800) then "Wheat"%string
  else if (temp >? 25) && (rain <? 700) then "Cotton"%string
  else if (temp <? 28) && (rain >? 600) && (rain <? 1000) then "Soybean"%string
  else "Barley"%string.

(** The JSON body of a request. *)
Record input : Type := {
  in_temperature : R;
  in_rainfall : R;
  in_fertilizer : R;
  in_soil_ph : R;
  in_humidity : R
}.

(** The row inserted into [predictions]. *)
Record prediction : Type := {
  features : input;
  predicted_crop : string;
  predicted_yield_lr : R;
  predicted_yield_rf : R;
  best_model : string
}.

(** What the world answers: whether [createClient] throws, what
    [req.json()] yields, and how each database call settles. *)
Record world : Type := {
  method : string;
  create_client : Eff.settled unit;
  request_json : Eff.settled input;
  select_training : Eff.settled (Eff.reply (list row));
  select_metrics : Eff.settled (Eff.reply (list model_metric));
  insert_prediction : prediction -> Eff.settled (Eff.reply unit)
}.

(** [metrics?.find((m) => m.model_name === wanted)]. *)
Definition find_metric (metrics : option (list model_metric)) (wanted : string)
  : option model_metric :=
  match metrics with
  | Some found => find (fun m => String.eqb (model_name m) wanted) found
  | None => None
  end.

(** [m?.r2_score || 0]. *)
Definition r2_or_0 (m : option model_metric) : R :=
  match m with Some found => r2_score found | None => 0 end.

Section Handler.

Variable w : world.

(** The body of [try]. *)
Definition try_block : Eff.M response :=
  Eff.await Eff.CreateClient (create_client w) ;;;
  q <- Eff.await Eff.ReadJson (request_json w) ;;
  fetched <- Eff.await Eff.SelectTraining (select_training w) ;;
  Eff.throw_if fetched ;;;
  let trainingData := Eff.data fetched in
  let lrYield :=
    predictLinearRegression (in_temperature q) (in_rainfall q)
      (in_fertilizer q) (in_soil_ph q) (in_humidity q) in
  let rfYield :=
    predictRandomForest (in_temperature q) (in_rainfall q)
      (in_fertilizer q) (in_soil_ph q) (in_humidity q) trainingData in
  let predictedCrop :=
    determineBestCrop (in_temperature q) (in_rainfall q)
      (in_fertilizer q) (in_soil_ph q) (in_humidity q) in
  answered <- Eff.await Eff.SelectMetrics (select_metrics w) ;;
  let metrics := Eff.data answered in
  let lrMetrics := find_metric metrics "Linear Regression" in
  let rfMetrics := find_metric metrics "Random Forest" in
  let bestModel :=
    if r2_or_0 rfMetrics >? r2_or_0 lrMetrics
    then "Random Forest"%string else "Linear Regression"%string in
  inserted <-
    Eff.await Eff.InsertPrediction
      (insert_prediction w
         {| features := q;
            predicted_crop := predictedCrop;
            predicted_yield_lr := lrYield;
            predicted_yield_rf := rfYield;
            best_model := bestModel |}) ;;
  Eff.throw_if inserted ;;;
  Eff.ret (ok (PredictionJson predictedCrop lrYield rfYield bestModel
                 lrMetrics rfMetrics)).

Definition handler : Eff.M response :=
  if String.eqb (method w) "OPTIONS" then Eff.ret (ok NoBody)
  else Eff.try_catch try_block catch_block.

End Handler.

End Predict.

(** ** The enhanced prediction endpoint *)

Module PredictEnhanced.

Definition predictLinearRegression
    (temp rain fert ph humid n p k tr_int pf_int t_sq npk_r : R) : R :=
  let intercept := 800 in
  let c_temperature := 45 in
  let c_rainfall := 2.2 in
  let c_fertilizer := 14 in
  let c_soil_ph := 180 in
  let c_humidity := 9 in
  let c_nitrogen := 2 in
  let c_phosphorus := 1 in
  let c_potassium := 1.5 in
  let c_temp_rainfall_interaction := 5 in
  let c_ph_fertilizer_interaction := 3 in
  let c_temp_squared := -0.5 in
  let c_npk_ratio := 10 in
  let yield_value :=
    intercept +
    c_temperature * temp + c_rainfall * rain +
    c_fertilizer * fert + c_soil_ph * ph +
    c_humidity * humid +
    c_nitrogen * n + c_phosphorus * p + c_potassium * k +
    c_temp_rainfall_interaction * tr_int +
    c_ph_fertilizer_interaction * pf_int +
    c_temp_squared * t_sq + c_npk_ratio * npk_r in
  Rmax 500 (JS.toFixed2 yield_value).

(** The callback of [trainingData.map].  [fert] and [ph] are parameters of
    the enclosing function and do not occur in it. *)
Definition score (temp rain fert ph humid : R) (record : row) : KNN.scored :=
  let baseDistSq :=
    JS.pow2 ((temperature record - temp) / 25) +
    JS.pow2 ((rainfall record - rain) / 1500) +
    JS.pow2 ((humidity record - humid) / 50) in
  let engineeredDistSq :=
    (if truthy (temp_rainfall_interaction record)
     then JS.pow2 ((num (temp_rainfall_interaction record)
                    - (temp * rain / 1000)) / 10)
     else 0) +
    (if truthy (npk_ratio record)
     then JS.pow2 ((num (npk_ratio record)
                    - (num (nitrogen record)
                       / (num (phosphorus record)
                          + num (potassium record) + 1))) / 0.5)
     else 0) in
  let distance := sqrt (baseDistSq + engineeredDistSq) in
  {| KNN.distance := distance; KNN.syield := yield record |}.

Definition predictRandomForest (temp rain fert ph humid : R)
    (trainingData : option (list row)) : R :=
  if no_rows trainingData then
    predictLinearRegression temp rain fert ph humid 0 0 0 0 0 0 0 * 1.10
  else
    let k := Nat.min 10 (List.length (rows trainingData)) in
    let distances := map (score temp rain fert ph humid) (rows trainingData) in
    let nearest := KNN.slice0 k (KNN.sort distances) in
    JS.toFixed2 (KNN.weightedYield nearest).

Definition determineBestCrop (temp rain fert ph humid : R) : string :=
  if (temp >? 30) && (rain >? 1200) then "Rice"%string
  else if (temp >? 25) && (rain >? 800) && (rain <? 1200) then "Corn"%string
  else if (temp >? 28) && (rain >? 1000) then "Sugarcane"%string
  else if (temp <? 25) && (rain <? 800) then "Wheat"%string
  else if (temp >? 25) && (rain <? 700) then "Cotton"%string
  else if (temp <? 28) && (rain >? 600) && (rain <? 1000) then "Soybean"%string
  else "Barley"%string.

(** The JSON body of a request to the enhanced endpoint. *)
Record input : Type := {
  in_temperature : R;
  in_rainfall : R;
  in_fertilizer : R;
  in_soil_ph : R;
  in_humidity : R;
  in_nitrogen : R;
  in_phosphorus : R;
  in_potassium : R
}.

(** [Math.max(10, Math.min(45, temperature))] and its rainfall twin. *)
Definition capped_temp (q : input) : R := Rmax 10 (Rmin 45 (in_temperature q)).
Definition capped_rainfall (q : input) : R :=
  Rmax 100 (Rmin 2500 (in_rainfall q)).

(** [lrYield] of the handler. *)
Definition lrYield (q : input) : R :=
  let temp_rainfall_interaction := capped_temp q * capped_rainfall q / 1000 in
  let ph_fertilizer_interaction := in_soil_ph q * in_fertilizer q / 100 in
  let temp_squared := JS.pow2 (capped_temp q / 10) in
  let npk_ratio :=
    in_nitrogen q / (in_phosphorus q + in_potassium q + 1) in
  predictLinearRegression
    (capped_temp q) (capped_rainfall q) (in_fertilizer q) (in_soil_ph q)
    (in_humidity q)
    (in_nitrogen q) (in_phosphorus q) (in_potassium q)
    temp_rainfall_interaction ph_fertilizer_interaction temp_squared
    npk_ratio.

(** [rfYield] of the handler. *)
Definition rfYield (q : input) (trainingData : option (list row)) : R :=
  predictRandomForest
    (capped_temp q) (capped_rainfall q) (in_fertilizer q) (in_soil_ph q)
    (in_humidity q) trainingData.

End PredictEnhanced.

(** ** The dataset generators *)

Record crop_type : Type := { name : string; minYield : R; maxYield : R }.

Definition cropTypes : list crop_type :=
  [ {| name := "Wheat"; minYield := 2000; maxYield := 5000 |};
    {| name := "Rice"; minYield := 3000; maxYield := 7000 |};
    {| name := "Corn"; minYield := 4000; maxYield := 9000 |};
    {| name := "Cotton"; minYield := 1000; maxYield := 3000 |};
    {| name := "Sugarcane"; minYield := 40000; maxYield := 80000 |};
    {| name := "Soybean"; minYield := 1500; maxYield := 4000 |};
    {| name := "Barley"; minYield := 2000; maxYield := 5500 |} ].

(** [cropTypes[Math.floor(u * cropTypes.length)]]; [None] is [undefined]. *)
Definition pick_crop (u : R) : option crop_type :=
  match Zfloor (u * INR (List.length cropTypes)) with
  | Z.neg _ => None
  | index => nth_error cropTypes (Z.to_nat index)
  end.

(** Reading [crop.minYield] of [undefined] throws a [TypeError]. *)
Definition defined_crop (crop : option crop_type) : Eff.M crop_type :=
  match crop with
  | Some c => Eff.ret c
  | None =>
      Eff.throw (JS.ErrorInstance
                   "Cannot read properties of undefined (reading 'minYield')")
  end.

Definition targetRecords : nat := 5000.

(** The simple generator. *)
Module Generate.

Record record : Type := {
  temperature : R;
  rainfall : R;
  fertilizer : R;
  soil_ph : R;
  humidity : R;
  crop : string;
  yield : R
}.

Section Loop.

Variable oracle : nat -> R.

(** One turn of the [for] loop: the record pushed. *)
Definition iteration : Eff.M record :=
  u_crop <- Eff.random oracle ;;
  let crop := pick_crop u_crop in
  u_temperature <- Eff.random oracle ;;
  let temperature := 15 + u_temperature * 25 in
  u_rainfall <- Eff.random oracle ;;
  let rainfall := 300 + u_rainfall * 1500 in
  u_fertilizer <- Eff.random oracle ;;
  let fertilizer := 50 + u_fertilizer * 250 in
  u_soil_ph <- Eff.random oracle ;;
  let soil_ph := 5.5 + u_soil_ph * 2.5 in
  u_humidity <- Eff.random oracle ;;
  let humidity := 40 + u_humidity * 50 in
  let tempFactor := 1 - Rabs (temperature - 25) / 40 in
  let rainFactor := Rmin (rainfall / 1000) 1.5 in
  let fertFactor := Rmin (fertilizer / 200) 1.3 in
  let phFactor := 1 - Rabs (soil_ph - 6.8) / 3 in
  let humidityFactor := Rmin (humidity / 70) 1.2 in
  let baseFactor :=
    (tempFactor + rainFactor + fertFactor + phFactor + humidityFactor) / 5 in
  u_variation <- Eff.random oracle ;;
  let randomVariation := 0.8 + u_variation * 0.4 in
  crop <- defined_crop crop ;;
  let yieldValue :=
    minYield crop
    + (maxYield crop - minYield crop) * baseFactor * randomVariation in
  Eff.ret
    {| temperature := JS.round (temperature * 100) / 100;
       rainfall := JS.round (rainfall * 100) / 100;
       fertilizer := JS.round (fertilizer * 100) / 100;
       soil_ph := JS.round (soil_ph * 100) / 100;
       humidity := JS.round (humidity * 100) / 100;
       crop := name crop;
       yield := JS.round (yieldValue * 100) / 100 |}.

(** [for (let i = 0; i < n; i++) records.push(...)]. *)
Fixpoint generate (n : nat) : Eff.M (list record) :=
  match n with
  | O => Eff.ret []
  | S n' =>
      first <- iteration ;;
      rest <- generate n' ;;
      Eff.ret (first :: rest)
  end.

End Loop.

End Generate.

(** The enhanced generator, with its request handler. *)
Module GenerateEnhanced.

Record record : Type := {
  temperature : R;
  rainfall : R;
  fertilizer : R;
  soil_ph : R;
  humidity : R;
  nitrogen : R;
  phosphorus : R;
  potassium : R;
  temp_rainfall_interaction : R;
  ph_fertilizer_interaction : R;
  temp_squared : R;
  npk_ratio : R;
  crop : string;
  yield : R
}.

(** What the world answers: the draws of [Math.random], whether
    [createClient] throws, and how each insert settles. *)
Record world : Type := {
  method : string;
  oracle : nat -> R;
  create_client : Eff.settled unit;
  insert_batch : nat -> list record -> Eff.settled (Eff.reply unit);
  insert_metrics : model_metric -> model_metric -> Eff.settled (Eff.reply unit)
}.

Section Handler.

Variable w : world.

(** One turn of the [for] loop: the record pushed. *)
Definition iteration : Eff.M record :=
  u_crop <- Eff.random (oracle w) ;;
  let crop := pick_crop u_crop in
  u_temperature <- Eff.random (oracle w) ;;
  let temperature := 15 + u_temperature * 25 in
  u_rainfall <- Eff.random (oracle w) ;;
  let rainfall := 300 + u_rainfall * 1500 in
  u_fertilizer <- Eff.random (oracle w) ;;
  let fertilizer := 50 + u_fertilizer * 250 in
  u_soil_ph <- Eff.random (oracle w) ;;
  let soil_ph := 5.5 + u_soil_ph * 2.5 in
  u_humidity <- Eff.random (oracle w) ;;
  let humidity := 40 + u_humidity * 50 in
  u_nitrogen <- Eff.random (oracle w) ;;
  let nitrogen := 50 + u_nitrogen * 150 in
  u_phosphorus <- Eff.random (oracle w) ;;
  let phosphorus := 20 + u_phosphorus * 80 in
  u_potassium <- Eff.random (oracle w) ;;
  let potassium := 30 + u_potassium * 120 in
  let capped_temp := Rmax 10 (Rmin 45 temperature) in
  let capped_rainfall := Rmax 100 (Rmin 2500 rainfall) in
  let temp_rainfall_interaction := capped_temp * capped_rainfall / 1000 in
  let ph_fertilizer_interaction := soil_ph * fertilizer / 100 in
  let temp_squared := JS.pow2 (capped_temp / 10) in
  let npk_ratio := nitrogen / (phosphorus + potassium + 1) in
  let tempFactor := 1 - Rabs (capped_temp - 25) / 40 in
  let rainFactor := Rmin (capped_rainfall / 1000) 1.5 in
  let fertFactor := Rmin (fertilizer / 200) 1.3 in
  let phFactor := 1 - Rabs (soil_ph - 6.8) / 3 in
  let humidityFactor := Rmin (humidity / 70) 1.2 in
  let baseFactor :=
    (tempFactor + rainFactor + fertFactor + phFactor + humidityFactor) / 5 in
  let engineeredFactor :=
    0.1 * temp_rainfall_interaction
    + 0.05 * ph_fertilizer_interaction
    - 0.02 * temp_squared
    + 0.03 * npk_ratio in
  u_variation <- Eff.random (oracle w) ;;
  let randomVariation := 0.8 + u_variation * 0.4 in
  crop <- defined_crop crop ;;
  let yieldValue :=
    minYield crop
    + (maxYield crop - minYield crop) * baseFactor * (1 + engineeredFactor)
      * randomVariation in
  Eff.ret
    {| temperature := JS.toFixed2 capped_temp;
       rainfall := JS.toFixed2 capped_rainfall;
       fertilizer := JS.toFixed2 fertilizer;
       soil_ph := JS.toFixed2 soil_ph;
       humidity := JS.toFixed2 humidity;
       nitrogen := JS.toFixed2 nitrogen;
       phosphorus := JS.toFixed2 phosphorus;
       potassium := JS.toFixed2 potassium;
       temp_rainfall_interaction := JS.toFixed2 temp_rainfall_interaction;
       ph_fertilizer_interaction := JS.toFixed2 ph_fertilizer_interaction;
       temp_squared := JS.toFixed2 temp_squared;
       npk_ratio := JS.toFixed2 npk_ratio;
       crop := name crop;
       yield := Rmax 0 (JS.toFixed2 yieldValue) |}.

(** [for (let i = 0; i < n; i++) records.push(...)]. *)
Fixpoint generate (n : nat) : Eff.M (list record) :=
  match n with
  | O => Eff.ret []
  | S n' =>
      first <- iteration ;;
      rest <- generate n' ;;
      Eff.ret (first :: rest)
  end.

Definition batchSize : nat := 1000.

(** [for (let i = 0; i < records.length; i += batchSize)], from offset [i].
    Every turn moves [i] forward, so [turns = records.length] turns are
    enough to leave the loop. *)
Fixpoint insert_batches (turns i : nat) (records : list record) : Eff.M unit :=
  match turns with
  | O => Eff.ret tt
  | S turns' =>
      if Nat.ltb i (List.length records) then
        let batch := firstn batchSize (skipn i records) in
        inserted <- Eff.await (Eff.InsertBatch i) (insert_batch w i batch) ;;
        Eff.throw_if inserted ;;;
        insert_batches turns' (i + batchSize) records
      else Eff.ret tt
  end.

(** The body of [try]. *)
Definition try_block : Eff.M response :=
  Eff.await Eff.CreateClient (create_client w) ;;;
  records <- generate targetRecords ;;
  insert_batches (List.length records) 0 records ;;;
  u1 <- Eff.random (oracle w) ;;
  u2 <- Eff.random (oracle w) ;;
  u3 <- Eff.random (oracle w) ;;
  let lrMetrics :=
    {| model_name := "Linear Regression";
       r2_score := 0.78 + u1 * 0.07;
       mae := 180 + u2 * 100;
       rmse := 280 + u3 * 150;
       evaluation_method :=
         Some "Simulated Train/Val/Test Split (80/20 -> 75/25)"%string;
       tuned_parameters := None |} in
  u4 <- Eff.random (oracle w) ;;
  u5 <- Eff.random (oracle w) ;;
  u6 <- Eff.random (oracle w) ;;
  let rfMetrics :=
    {| model_name := "Random Forest";
       r2_score := 0.88 + u4 * 0.05;
       mae := 120 + u5 * 80;
       rmse := 200 + u6 * 100;
       evaluation_method :=
         Some "Simulated 5-Fold Cross-Validation on Train/Val, Final Eval on Test"%string;
       tuned_parameters :=
         Some "{'n_estimators': 200, 'max_depth': 20, 'min_samples_leaf': 2}"%string
    |} in
  Eff.await Eff.InsertMetrics (insert_metrics w lrMetrics rfMetrics) ;;;
  Eff.ret (ok (GenerationJson true (List.length records) lrMetrics rfMetrics)).

Definition handler : Eff.M response :=
  if String.eqb (method w) "OPTIONS" then Eff.ret (ok NoBody)
  else Eff.try_catch try_block catch_block.

End Handler.

End GenerateEnhanced.

(** * Specification-side definitions

    What the specification says in its own words, to be compared with the
    code above. *)

(** ** The nearest-neighbour estimate *)

Module KNNSpec.
Import KNN.

(** Sum of a list of reals. *)
Definition Rsum (l : list R) : R := fold_right Rplus 0 l.

(** The order of the comparator. *)
Definition closer (a b : scored) : Prop := distance a <= distance b.


(** The weight-normalized average of the yields of [l], as the
    specification words it. *)
Definition mean (l : list scored) : R :=
  Rsum (map (fun n => syield n * weight n) l) / Rsum (map weight l).

End KNNSpec.

Section EstimateSpec.
Import KNN KNNSpec.

(** [result] is the estimate the specification describes for the scored
    records [ds]: sort ascending by distance, keep the [min 10 N] closest,
    average their yields with weights [1 / (distance + 0.01)], and round
    with [round2]. *)
Definition knn_estimate (round2 : R -> R) (ds : list scored) (result : R)
  : Prop :=
  exists nearest rest : list scored,
    Permutation ds (nearest ++ rest) /\
    StronglySorted closer (nearest ++ rest) /\
    List.length nearest = Nat.min 10 (List.length ds) /\
    (List.length ds < 10 -> rest = [])%nat /\
    result = round2 (mean nearest).


End EstimateSpec.

(** ** The crop decision table *)

(** The decision table of the specification: rules in order, each a test on
    temperature and rainfall with its label. *)
Definition rice_rule (temp rain : R) : bool := (temp >? 30) && (rain >? 1200).
Definition corn_rule (temp rain : R) : bool :=
  (temp >? 25) && (rain >? 800) && (rain <? 1200).
Definition sugarcane_rule (temp rain : R) : bool :=
  (temp >? 28) && (rain >? 1000).
Definition wheat_rule (temp rain : R) : bool := (temp <? 25) && (rain <? 800).
Definition cotton_rule (temp rain : R) : bool := (temp >? 25) && (rain <? 700).
Definition soybean_rule (temp rain : R) : bool :=
  (temp <? 28) && (rain >? 600) && (rain <? 1000).

Definition crop_rules : list ((R -> R -> bool) * string) :=
  [ (rice_rule, "Rice"%string);
    (corn_rule, "Corn"%string);
    (sugarcane_rule, "Sugarcane"%string);
    (wheat_rule, "Wheat"%string);
    (cotton_rule, "Cotton"%string);
    (soybean_rule, "Soybean"%string) ].

(** First matching rule wins; [default] when none matches. *)
Fixpoint first_match (rules : list ((R -> R -> bool) * string))
    (temp rain : R) (default : string) : string :=
  match rules with
  | [] => default
  | (test, label) :: rest =>
      if test temp rain then label else first_match rest temp rain default
  end.

Definition no_rule_matches (temp rain : R) : Prop :=
  Forall (fun rule => fst rule temp rain = false) crop_rules.

(** ** Sample inputs *)

(** Two rows, at distances 0 and 0.99 from the query, with yields 0 and 1. *)
Definition two_rows : list row :=
  [base_row 0 0 0 0 0 0; base_row 24.75 0 0 0 0 1].

(** Two requests that differ in fertilizer only. *)
Definition unfertilized : PredictEnhanced.input :=
  {| PredictEnhanced.in_temperature := 20;
     PredictEnhanced.in_rainfall := 500;
     PredictEnhanced.in_fertilizer := 0;
     PredictEnhanced.in_soil_ph := 6.5;
     PredictEnhanced.in_humidity := 60;
     PredictEnhanced.in_nitrogen := 0;
     PredictEnhanced.in_phosphorus := 0;
     PredictEnhanced.in_potassium := 0 |}.

Definition fertilized : PredictEnhanced.input :=
  {| PredictEnhanced.in_temperature := 20;
     PredictEnhanced.in_rainfall := 500;
     PredictEnhanced.in_fertilizer := 100;
     PredictEnhanced.in_soil_ph := 6.5;
     PredictEnhanced.in_humidity := 60;
     PredictEnhanced.in_nitrogen := 0;
     PredictEnhanced.in_phosphorus := 0;
     PredictEnhanced.in_potassium := 0 |}.


(** A world in which every draw is one half and every call succeeds. *)
Definition calm_generation : GenerateEnhanced.world :=
  {| GenerateEnhanced.method := "POST";
     GenerateEnhanced.oracle := fun _ => 0.5;
     GenerateEnhanced.create_client := Eff.Resolved tt;
     GenerateEnhanced.insert_batch :=
       fun _ _ => Eff.Resolved {| Eff.data := None; Eff.error := None |};
     GenerateEnhanced.insert_metrics :=
       fun _ _ => Eff.Resolved {| Eff.data := None; Eff.error := None |} |}.

(** A world in which the query for the training rows comes back with the
    error object of the database client. *)
Definition refused_select : Predict.world :=
  {| Predict.method := "POST";
     Predict.create_client := Eff.Resolved tt;
     Predict.request_json :=
       Eff.Resolved
         {| Predict.in_temperature := 20; Predict.in_rainfall := 500;
            Predict.in_fertilizer := 100; Predict.in_soil_ph := 6.5;
            Predict.in_humidity := 60 |};
     Predict.select_training :=
       Eff.Resolved
         {| Eff.data := None;
            Eff.error :=
              Some (JS.PlainObject
                      "permission denied for table crops_dataset") |};
     Predict.select_metrics :=
       Eff.Resolved {| Eff.data := None; Eff.error := None |};
     Predict.insert_prediction :=
       fun _ => Eff.Resolved {| Eff.data := None; Eff.error := None |} |}.

(** ** Error handling of a handler *)

(** The [message] property of a thrown value. *)
Definition message_of (error : JS.thrown) : string :=
  match error with
  | JS.ErrorInstance message => message
  | JS.PlainObject message => message
  end.

(** [handler] catches whatever [try_block] throws and answers 500 with the
    text of the [catch] block; otherwise it answers what [try_block]
    returned, with status 200.  It never throws itself. *)
Definition catches_all (try_block handler : Eff.M response) : Prop :=
  forall s : Eff.state,
    match try_block s with
    | (Eff.Throw e, s') =>
        handler s
        = (Eff.Return {| status := 500; body := ErrorJson (error_text e) |}, s')
    | (Eff.Return r, s') =>
        handler s = (Eff.Return r, s') /\ status r = 200%Z
    end.

(** No retry: run from the start, [handler] issues no external call
    twice. *)
Definition calls_once (handler : Eff.M response) : Prop :=
  NoDup (Eff.log (snd (handler Eff.start))).

(** * Further definitions for the properties of the code *)

(** [Math.round(x * 100) / 100], the rounding of the simple endpoint and of
    the simple generator. *)
Definition round2 (x : R) : R := JS.round (x * 100) / 100.

(** [n] lies at distance [d]. *)
Definition at_distance (d : R) (n : KNN.scored) : bool :=
  if Req_dec_T (KNN.distance n) d then true else false.

(** [x] has at most two decimals. *)
Definition hundredth (x : R) : Prop := exists z : Z, x = IZR z / 100.

(** ** The handler of the enhanced prediction endpoint *)

Module EnhancedHandler.

(** The row inserted into [predictions]; [feature_importances] holds the
    object that [JSON.stringify] receives. *)
Record prediction : Type := {
  features : PredictEnhanced.input;
  predicted_crop : string;
  predicted_yield_lr : R;
  predicted_yield_rf : R;
  best_model : string;
  feature_importances : list (string * R)
}.

Inductive payload : Type :=
| NoBody
| ErrorJson (error : string)
| PredictionJson (predicted_crop : string) (predicted_yield_lr : R)
    (predicted_yield_rf : R) (best_model : string)
    (lr_metrics rf_metrics : option model_metric)
    (feature_importances : list (string * R)).

Record response : Type := { status : Z; body : payload }.

Definition ok (b : payload) : response := {| status := 200; body := b |}.

Definition catch_block (error : JS.thrown) : Eff.M response :=
  Eff.ret {| status := 500; body := ErrorJson (error_text error) |}.

Record world : Type := {
  method : string;
  create_client : Eff.settled unit;
  request_json : Eff.settled PredictEnhanced.input;
  select_training : Eff.settled (Eff.reply (list row));
  select_metrics : Eff.settled (Eff.reply (list model_metric));
  insert_prediction : prediction -> Eff.settled (Eff.reply unit)
}.

Definition simulatedImportances : list (string * R) :=
  [ ("temperature"%string, 0.20);
    ("rainfall"%string, 0.25);
    ("fertilizer"%string, 0.15);
    ("temp_rainfall_interaction"%string, 0.12);
    ("humidity"%string, 0.10);
    ("soil_ph"%string, 0.08);
    ("nitrogen"%string, 0.04);
    ("phosphorus"%string, 0.02);
    ("potassium"%string, 0.02);
    ("npk_ratio"%string, 0.02) ].

(** [predictedCrop] of the handler. *)
Definition predictedCrop (q : PredictEnhanced.input) : string :=
  PredictEnhanced.determineBestCrop
    (PredictEnhanced.capped_temp q) (PredictEnhanced.capped_rainfall q)
    (PredictEnhanced.in_fertilizer q) (PredictEnhanced.in_soil_ph q)
    (PredictEnhanced.in_humidity q).

(** [bestModel] of the handler. *)
Definition bestModel (lrMetrics rfMetrics : option model_metric) : string :=
  if Predict.r2_or_0 rfMetrics >? Predict.r2_or_0 lrMetrics
  then "Random Forest"%string else "Linear Regression"%string.

Section Handler.

Variable w : world.

(** The body of [try]. *)
Definition try_block : Eff.M response :=
  Eff.await Eff.CreateClient (create_client w) ;;;
  q <- Eff.await Eff.ReadJson (request_json w) ;;
  fetched <- Eff.await Eff.SelectTraining (select_training w) ;;
  Eff.throw_if fetched ;;;
  let trainingData := Eff.data fetched in
  let lrYield := PredictEnhanced.lrYield q in
  let rfYield := PredictEnhanced.rfYield q trainingData in
  let predictedCrop := predictedCrop q in
  answered <- Eff.await Eff.SelectMetrics (select_metrics w) ;;
  let metrics := Eff.data answered in
  let lrMetrics := Predict.find_metric metrics "Linear Regression" in
  let rfMetrics := Predict.find_metric metrics "Random Forest" in
  let bestModel := bestModel lrMetrics rfMetrics in
  inserted <-
    Eff.await Eff.InsertPrediction
      (insert_prediction w
         {| features := q;
            predicted_crop := predictedCrop;
            predicted_yield_lr := lrYield;
            predicted_yield_rf := rfYield;
            best_model := bestModel;
            feature_importances := simulatedImportances |}) ;;
  Eff.throw_if inserted ;;;
  Eff.ret (ok (PredictionJson predictedCrop lrYield rfYield bestModel
                 lrMetrics rfMetrics simulatedImportances)).

Definition handler : Eff.M response :=
  if String.eqb (method w) "OPTIONS" then Eff.ret (ok NoBody)
  else Eff.try_catch try_block catch_block.

End Handler.

End EnhancedHandler.

(** ** The handler of the simple generator *)

Module SimpleGeneratorHandler.

Record world : Type := {
  method : string;
  oracle : nat -> R;
  create_client : Eff.settled unit;
  insert_batch : nat -> list Generate.record -> Eff.settled (Eff.reply unit);
  insert_metrics : model_metric -> model_metric -> Eff.settled (Eff.reply unit)
}.

Section Handler.

Variable w : world.

Definition batchSize : nat := 1000.

(** [for (let i = 0; i < records.length; i += batchSize)], from offset [i];
    [turns = records.length] turns are enough to leave the loop. *)
Fixpoint insert_batches (turns i : nat) (records : list Generate.record)
  : Eff.M unit :=
  match turns with
  | O => Eff.ret tt
  | S turns' =>
      if Nat.ltb i (List.length records) then
        let batch := firstn batchSize (skipn i records) in
        inserted <- Eff.await (Eff.InsertBatch i) (insert_batch w i batch) ;;
        Eff.throw_if inserted ;;;
        insert_batches turns' (i + batchSize) records
      else Eff.ret tt
  end.

(** The body of [try]. *)
Definition try_block : Eff.M response :=
  Eff.await Eff.CreateClient (create_client w) ;;;
  records <- Generate.generate (oracle w) targetRecords ;;
  insert_batches (List.length records) 0 records ;;;
  u1 <- Eff.random (oracle w) ;;
  u2 <- Eff.random (oracle w) ;;
  u3 <- Eff.random (oracle w) ;;
  let lrMetrics :=
    {| model_name := "Linear Regression";
       r2_score := 0.75 + u1 * 0.1;
       mae := 200 + u2 * 150;
       rmse := 300 + u3 * 200;
       evaluation_method := None;
       tuned_parameters := None |} in
  u4 <- Eff.random (oracle w) ;;
  u5 <- Eff.random (oracle w) ;;
  u6 <- Eff.random (oracle w) ;;
  let rfMetrics :=
    {| model_name := "Random Forest";
       r2_score := 0.82 + u4 * 0.1;
       mae := 150 + u5 * 100;
       rmse := 250 + u6 * 150;
       evaluation_method := None;
       tuned_parameters := None |} in
  Eff.await Eff.InsertMetrics (insert_metrics w lrMetrics rfMetrics) ;;;
  Eff.ret (ok (GenerationJson true (List.length records) lrMetrics rfMetrics)).

Definition handler : Eff.M response :=
  if String.eqb (method w) "OPTIONS" then Eff.ret (ok NoBody)
  else Eff.try_catch try_block catch_block.

End Handler.

End SimpleGeneratorHandler.

(** ** Further specification-side definitions *)

(** The offsets the batch loop visits for [n] records, starting at [i]:
    [i], [i + size], ... while below [n]; [turns] bounds their number. *)
Fixpoint batch_offsets (turns i size n : nat) : list nat :=
  match turns with
  | O => []
  | S turns' =>
      if Nat.ltb i n then i :: batch_offsets turns' (i + size) size n else []
  end.

(** What every record of the simple generator satisfies: a crop of the
    table, features inside the ranges the generator draws from, and a yield
    between the crop's [minYield] and [minYield] plus 1.44 times the span
    to [maxYield]. *)
Definition simple_record_in_range (r : Generate.record) : Prop :=
  exists c : crop_type,
    In c cropTypes /\
    Generate.crop r = name c /\
    15 <= Generate.temperature r <= 40 /\
    300 <= Generate.rainfall r <= 1800 /\
    50 <= Generate.fertilizer r <= 300 /\
    5.5 <= Generate.soil_ph r <= 8 /\
    40 <= Generate.humidity r <= 90 /\
    minYield c <= Generate.yield r
      <= minYield c + 1.44 * (maxYield c - minYield c).

(** What every record of the enhanced generator satisfies. *)
Definition enhanced_record_in_range (r : GenerateEnhanced.record) : Prop :=
  exists c : crop_type,
    In c cropTypes /\
    GenerateEnhanced.crop r = name c /\
    15 <= GenerateEnhanced.temperature r <= 40 /\
    300 <= GenerateEnhanced.rainfall r <= 1800 /\
    50 <= GenerateEnhanced.fertilizer r <= 300 /\
    5.5 <= GenerateEnhanced.soil_ph r <= 8 /\
    40 <= GenerateEnhanced.humidity r <= 90 /\
    50 <= GenerateEnhanced.nitrogen r <= 200 /\
    20 <= GenerateEnhanced.phosphorus r <= 100 /\
    30 <= GenerateEnhanced.potassium r <= 150 /\
    minYield c <= GenerateEnhanced.yield r.

(** A settled database call that reports no error. *)
Definition succeeds (x : Eff.settled (Eff.reply unit)) : Prop :=
  exists r, x = Eff.Resolved r /\ Eff.error r = None.

(** A database call that fails with [e]: it rejects, or it settles with
    [e] in [error]. *)
Definition fails (x : Eff.settled (Eff.reply unit)) (e : JS.thrown) : Prop :=
  x = Eff.Rejected e \/ exists r, x = Eff.Resolved r /\ Eff.error r = Some e.

(** [records.slice(i, i + size)]. *)
Definition batch_at {A : Type} (size : nat) (records : list A) (i : nat)
  : list A :=
  firstn size (skipn i records).

(** A record as the enhanced generator builds it, and one of the simple
    generator. *)
Definition sample_enhanced_record : GenerateEnhanced.record :=
  {| GenerateEnhanced.temperature := 27.5;
     GenerateEnhanced.rainfall := 1050;
     GenerateEnhanced.fertilizer := 175;
     GenerateEnhanced.soil_ph := 6.75;
     GenerateEnhanced.humidity := 65;
     GenerateEnhanced.nitrogen := 125;
     GenerateEnhanced.phosphorus := 60;
     GenerateEnhanced.potassium := 90;
     GenerateEnhanced.temp_rainfall_interaction := 28.88;
     GenerateEnhanced.ph_fertilizer_interaction := 11.81;
     GenerateEnhanced.temp_squared := 7.56;
     GenerateEnhanced.npk_ratio := 0.83;
     GenerateEnhanced.crop := "Wheat";
     GenerateEnhanced.yield := 60000 |}.

Definition sample_simple_record : Generate.record :=
  {| Generate.temperature := 27.5;
     Generate.rainfall := 1050;
     Generate.fertilizer := 175;
     Generate.soil_ph := 6.75;
     Generate.humidity := 65;
     Generate.crop := "Wheat";
     Generate.yield := 4800 |}.

(** A world of the simple generator in which every draw is one half and
    every call succeeds. *)
Definition calm_simple_generation : SimpleGeneratorHandler.world :=
  {| SimpleGeneratorHandler.method := "POST";
     SimpleGeneratorHandler.oracle := fun _ => 0.5;
     SimpleGeneratorHandler.create_client := Eff.Resolved tt;
     SimpleGeneratorHandler.insert_batch :=
       fun _ _ => Eff.Resolved {| Eff.data := None; Eff.error := None |};
     SimpleGeneratorHandler.insert_metrics :=
       fun _ _ => Eff.Resolved {| Eff.data := None; Eff.error := None |} |}.

(** A world of the enhanced generator in which the third batch is refused
    by the database. *)
Definition third_batch_refused : GenerateEnhanced.world :=
  {| GenerateEnhanced.method := "POST";
     GenerateEnhanced.oracle := fun _ => 0.5;
     GenerateEnhanced.create_client := Eff.Resolved tt;
     GenerateEnhanced.insert_batch :=
       fun offset _ =>
         if Nat.eqb offset 2000
         then Eff.Resolved
                {| Eff.data := None;
                   Eff.error := Some (JS.PlainObject "statement timeout") |}
         else Eff.Resolved {| Eff.data := None; Eff.error := None |};
     GenerateEnhanced.insert_metrics :=
       fun _ _ => Eff.Resolved {| Eff.data := None; Eff.error := None |} |}.

(** Two metrics rows as a generator stores them. *)
Definition sample_metrics : list model_metric :=
  [ {| model_name := "Random Forest"; r2_score := 0.9; mae := 150;
       rmse := 250; evaluation_method := None; tuned_parameters := None |};
    {| model_name := "Linear Regression"; r2_score := 0.8; mae := 200;
       rmse := 300; evaluation_method := None; tuned_parameters := None |} ].

(** A world of the simple prediction handler in which every call
    succeeds. *)
Definition calm_prediction : Predict.world :=
  {| Predict.method := "POST";
     Predict.create_client := Eff.Resolved tt;
     Predict.request_json :=
       Eff.Resolved
         {| Predict.in_temperature := 20; Predict.in_rainfall := 500;
            Predict.in_fertilizer := 100; Predict.in_soil_ph := 6.5;
            Predict.in_humidity := 60 |};
     Predict.select_training :=
       Eff.Resolved
         {| Eff.data := Some [base_row 21 510 90 6.4 55 3000];
            Eff.error := None |};
     Predict.select_metrics :=
       Eff.Resolved {| Eff.data := Some sample_metrics; Eff.error := None |};
     Predict.insert_prediction :=
       fun _ => Eff.Resolved {| Eff.data := None; Eff.error := None |} |}.

(** The same for the enhanced prediction handler. *)
Definition calm_enhanced_prediction : EnhancedHandler.world :=
  {| EnhancedHandler.method := "POST";
     EnhancedHandler.create_client := Eff.Resolved tt;
     EnhancedHandler.request_json :=
       Eff.Resolved
         {| PredictEnhanced.in_temperature := 20;
            PredictEnhanced.in_rainfall := 500;
            PredictEnhanced.in_fertilizer := 100;
            PredictEnhanced.in_soil_ph := 6.5;
            PredictEnhanced.in_humidity := 60;
            PredictEnhanced.in_nitrogen := 80;
            PredictEnhanced.in_phosphorus := 40;
            PredictEnhanced.in_potassium := 60 |};
     EnhancedHandler.select_training :=
       Eff.Resolved
         {| Eff.data := Some [base_row 21 510 90 6.4 55 3000];
            Eff.error := None |};
     EnhancedHandler.select_metrics :=
       Eff.Resolved {| Eff.data := Some sample_metrics; Eff.error := None |};
     EnhancedHandler.insert_prediction :=
       fun _ => Eff.Resolved {| Eff.data := None; Eff.error := None |} |}.

(** * The numeric core in binary64

    The estimators once more, over IEEE 754 binary64 numbers as the code
    runs them: [PrimFloat.float] with its correctly rounded [+ - * /] and
    [sqrt], its comparisons that are false on NaN, and the decimal literals
    read to the nearest double.  Every definition of [Module F64] evaluates
    on concrete inputs.

    An argument the caller left out is [undefined], which the arithmetic of
    these functions turns into NaN at its first use; it is passed here as
    NaN. *)

Module F64.
Import PrimFloat.
Local Open Scope float_scope.

Definition NaN : float := nan.

(** [Number.isNaN]. *)
Definition isNaN (x : float) : bool := is_nan x.

Definition is_neg_zero (x : float) : bool := (x =? 0) && (1 / x <? 0).

(** [Math.max(a, b)]: NaN if either argument is NaN, else the larger one,
    [+0] counting as larger than [-0]. *)
Definition max (a b : float) : float :=
  if isNaN a || isNaN b then NaN
  else if b <? a then a
  else if a <? b then b
  else if is_neg_zero a then b else a.

(** [Math.min(a, b)]: NaN if either argument is NaN, else the smaller one,
    [-0] counting as smaller than [+0]. *)
Definition min (a b : float) : float :=
  if isNaN a || isNaN b then NaN
  else if a <? b then a
  else if b <? a then b
  else if is_neg_zero a then a else b.

(** From [2^52] on every double is an integer; so are the infinities for
    what follows. *)
Definition two52 : float := 4503599627370496.
Definition integral (x : float) : bool := two52 <=? abs x.

(** The integer nearest to [x], for [0 <= x < 2^52]: adding [2^52] rounds
    to a double with unit spacing and subtracting it again is exact. *)
Definition rint (x : float) : float := (x + two52) - two52.

(** [Math.floor]. *)
Definition floor (x : float) : float :=
  if isNaN x || integral x || (x =? 0) then x
  else if x <? 0 then let t := rint (- x) in - (if t <? - x then t + 1 else t)
  else let t := rint x in if x <? t then t - 1 else t.

(** [Math.round]: NaN, the infinities and integers are returned as they
    are; otherwise the nearest integer, the one towards plus infinity on a
    tie, and [-0] for an argument in [[-0.5, 0)]. *)
Definition round (x : float) : float :=
  if isNaN x || integral x then x
  else let f := floor x in
       if x =? f then x
       else let r := if x - f <? 0.5 then f else f + 1 in
            if (r =? 0) && (x <? 0) then neg_zero else r.

(** [Math.round(v * 100) / 100]. *)
Definition round2 (v : float) : float := round (v * 100) / 100.

(** The integer [n] that [toFixed(2)] prints for the magnitude
    [m * 2^e]: the one nearest to [100 * m * 2^e] in exact arithmetic, the
    larger one on a tie. *)
Definition hundredths (m : positive) (e : Z) : Z :=
  match e with
  | Z.neg k => (200 * Z.pos m + 2 ^ Z.pos k) / 2 ^ (Z.pos k + 1)
  | _ => 100 * Z.pos m * 2 ^ e
  end%Z.

(** [parseFloat] of the digits of [n] with a point before the last two and
    a minus sign if [s]: the double nearest to [n / 100]. *)
Definition parse_hundredths (s : bool) (n : Z) : float :=
  match n with
  | Z.pos p =>
      FloatOps.SF2Prim
        (SpecFloat.SFdiv FloatOps.prec FloatOps.emax
           (SpecFloat.S754_finite s p 0) (SpecFloat.S754_finite false 100 0))
  | _ => if s then neg_zero else 0
  end.

(** [parseFloat(x.toFixed(2))].  [toFixed] prints "NaN" for NaN and the
    number itself from [1e21] on, the infinities included; [parseFloat]
    reads either back. *)
Definition toFixed2 (x : float) : float :=
  if isNaN x then NaN
  else if 1e21 <=? abs x then x
  else match FloatOps.Prim2SF x with
       | SpecFloat.S754_finite s m e => parse_hundredths s (hundredths m e)
       | _ => 0
       end.

(** [Math.pow(x, 2)] and [x ** 2]: the correctly rounded square. *)
Definition pow2 (x : float) : float := x * x.

(** A row of [crops_dataset]; a nullable column reads as [null]. *)
Record row : Type := {
  temperature : float;
  rainfall : float;
  fertilizer : float;
  soil_ph : float;
  humidity : float;
  yield : float;
  nitrogen : option float;
  phosphorus : option float;
  potassium : option float;
  temp_rainfall_interaction : option float;
  npk_ratio : option float
}.

(** [null] coerced to a number. *)
Definition num (v : option float) : float :=
  match v with Some x => x | None => 0 end.

(** Truthiness of a nullable number: [null], [0], [-0] and NaN are
    falsy. *)
Definition truthy (v : option float) : bool :=
  match v with
  | Some x => negb (isNaN x || (x =? 0))
  | None => false
  end.

Definition base_row (t r f p h y : float) : row :=
  {| temperature := t; rainfall := r; fertilizer := f; soil_ph := p;
     humidity := h; yield := y;
     nitrogen := None; phosphorus := None; potassium := None;
     temp_rainfall_interaction := None; npk_ratio := None |}.

(** The object [{ distance, yield: record.yield }]. *)
Record scored : Type := { distance : float; syield : float }.

(** [(a, b) => a.distance - b.distance]. *)
Definition comparator (a b : scored) : float := distance a - distance b.

(** [distances.sort(comparator)]: the stable sort.  An element moves behind
    its right neighbour when the comparator is positive; a NaN from the
    comparator counts as 0, as the language has it. *)
Fixpoint insert (a : scored) (l : list scored) : list scored :=
  match l with
  | [] => [a]
  | b :: l' =>
      if 0 <? comparator a b then b :: insert a l'
      else a :: b :: l'
  end.

Definition sort (l : list scored) : list scored := fold_right insert [] l.

(** [distances.slice(0, k)]. *)
Definition slice0 (k : nat) (l : list scored) : list scored := firstn k l.

(** [nearest.reduce((sum, n) => sum + 1 / (n.distance + 0.01), 0)]. *)
Definition totalWeight (nearest : list scored) : float :=
  fold_left (fun sum n => sum + 1 / (distance n + 0.01)) nearest 0.

(** [nearest.reduce((sum, n) =>
      sum + (n.yield * (1 / (n.distance + 0.01))) / totalWeight, 0)]. *)
Definition weightedYield (nearest : list scored) : float :=
  fold_left
    (fun sum n =>
       sum + (syield n * (1 / (distance n + 0.01))) / totalWeight nearest)
    nearest 0.

(** *** The simple prediction endpoint *)

Module Predict.

Definition predictLinearRegression (temp rain fert ph humid : float) : float :=
  let intercept := 1000 in
  let c_temperature := 50 in
  let c_rainfall := 2.5 in
  let c_fertilizer := 15 in
  let c_soil_ph := 200 in
  let c_humidity := 10 in
  let yield_value :=
    intercept +
    c_temperature * temp +
    c_rainfall * rain +
    c_fertilizer * fert +
    c_soil_ph * ph +
    c_humidity * humid in
  max 500 (round (yield_value * 100) / 100).

Definition score (temp rain fert ph humid : float) (record : row) : scored :=
  let tempDist := abs (temperature record - temp) / 25 in
  let rainDist := abs (rainfall record - rain) / 1500 in
  let fertDist := abs (fertilizer record - fert) / 250 in
  let phDist := abs (soil_ph record - ph) / 2.5 in
  let humidDist := abs (humidity record - humid) / 50 in
  let distance :=
    sqrt (pow2 tempDist + pow2 rainDist + pow2 fertDist +
          pow2 phDist + pow2 humidDist) in
  {| distance := distance; syield := yield record |}.

Definition predictRandomForest (temp rain fert ph humid : float)
    (trainingData : option (list row)) : float :=
  match trainingData with
  | None | Some [] => predictLinearRegression temp rain fert ph humid * 1.15
  | Some data =>
      let k := Nat.min 10 (List.length data) in
      let distances := map (score temp rain fert ph humid) data in
      let nearest := slice0 k (sort distances) in
      round (weightedYield nearest * 100) / 100
  end.

End Predict.

(** *** The enhanced prediction endpoint *)

Module PredictEnhanced.

Definition predictLinearRegression
    (temp rain fert ph humid n p k tr_int pf_int t_sq npk_r : float) : float :=
  let intercept := 800 in
  let c_temperature := 45 in
  let c_rainfall := 2.2 in
  let c_fertilizer := 14 in
  let c_soil_ph := 180 in
  let c_humidity := 9 in
  let c_nitrogen := 2 in
  let c_phosphorus := 1 in
  let c_potassium := 1.5 in
  let c_temp_rainfall_interaction := 5 in
  let c_ph_fertilizer_interaction := 3 in
  let c_temp_squared := -0.5 in
  let c_npk_ratio := 10 in
  let yield_value :=
    intercept +
    c_temperature * temp + c_rainfall * rain +
    c_fertilizer * fert + c_soil_ph * ph +
    c_humidity * humid +
    c_nitrogen * n + c_phosphorus * p + c_potassium * k +
    c_temp_rainfall_interaction * tr_int +
    c_ph_fertilizer_interaction * pf_int +
    c_temp_squared * t_sq + c_npk_ratio * npk_r in
  max 500 (toFixed2 yield_value).

Definition score (temp rain fert ph humid : float) (record : row) : scored :=
  let baseDistSq :=
    pow2 ((temperature record - temp) / 25) +
    pow2 ((rainfall record - rain) / 1500) +
    pow2 ((humidity record - humid) / 50) in
  let engineeredDistSq :=
    (if truthy (temp_rainfall_interaction record)
     then pow2 ((num (temp_rainfall_interaction record)
                 - (temp * rain / 1000)) / 10)
     else 0) +
    (if truthy (npk_ratio record)
     then pow2 ((num (npk_ratio record)
                 - (num (nitrogen record)
                    / (num (phosphorus record)
                       + num (potassium record) + 1))) / 0.5)
     else 0) in
  let distance := sqrt (baseDistSq + engineeredDistSq) in
  {| distance := distance; syield := yield record |}.

Definition predictRandomForest (temp rain fert ph humid : float)
    (trainingData : option (list row)) : float :=
  match trainingData with
  | None | Some [] =>
      predictLinearRegression temp rain fert ph humid 0 0 0 0 0 0 0 * 1.10
  | Some data =>
      let k := Nat.min 10 (List.length data) in
      let distances := map (score temp rain fert ph humid) data in
      let nearest := slice0 k (sort distances) in
      toFixed2 (weightedYield nearest)
  end.

(** [Math.max(10, Math.min(45, temperature))] and its rainfall twin. *)
Definition capped_temp (temperature : float) : float :=
  max 10 (min 45 temperature).
Definition capped_rainfall (rainfall : float) : float :=
  max 100 (min 2500 rainfall).

End PredictEnhanced.

(** *** What the specification says of the estimate, in binary64 *)

(** The weight of a scored record. *)
Definition weight (n : scored) : float := 1 / (distance n + 0.01).

(** The sum of a list, from the left and from 0. *)
Definition sum (l : list float) : float := fold_left add l 0.

(** The weight-normalized average of the yields of [l]: the sum of
    [yield * weight / total weight] over [l], in the order of [l]. *)
Definition average (l : list scored) : float :=
  sum (map (fun n => (syield n * weight n) / sum (map weight l)) l).

(** Ascending by distance. *)
Definition ascending (a b : scored) : Prop :=
  (distance a <=? distance b) = true.

(** No distance of [ds] is NaN, and on every pair the comparator is
    positive exactly when the first record lies farther and negative
    exactly when it lies closer: the comparator orders [ds] by distance,
    as the language asks of the argument of [sort]. *)
Definition comparable (ds : list scored) : bool :=
  forallb
    (fun a =>
       negb (isNaN (distance a)) &&
       forallb
         (fun b =>
            Bool.eqb (0 <? comparator a b) (distance b <? distance a) &&
            Bool.eqb (comparator a b <? 0) (distance a <? distance b))
         ds)
    ds.

(** What [comparable] says of a pair. *)
Definition ordered_pair (a b : scored) : Prop :=
  isNaN (distance a) = false /\
  isNaN (distance b) = false /\
  (0 <? comparator a b) = (distance b <? distance a) /\
  (comparator a b <? 0) = (distance a <? distance b).

(** [result] is the estimate the specification describes for the scored
    records [ds]: sort ascending by distance, keep the [min 10 N] closest,
    average their yields with weights [1 / (distance + 0.01)], and round
    with [round2]. *)
Definition knn_estimate (round2 : float -> float) (ds : list scored)
    (result : float) : Prop :=
  exists nearest rest : list scored,
    Permutation ds (nearest ++ rest) /\
    StronglySorted ascending (nearest ++ rest) /\
    List.length nearest = Nat.min 10 (List.length ds) /\
    (List.length ds < 10 -> rest = [])%nat /\
    result = round2 (average nearest).

(** *** Sample inputs *)

(** Twelve rows, two of them equal to the query (20, 500, 100, 6.5, 60)
    and two far from it. *)
Definition twelve_rows : list row :=
  [ base_row 24 640 120 6.6 70 4100.25;
    base_row 35 1500 200 7.2 85 9100.5;
    base_row 21 510 90 6.4 55 3000;
    base_row 20 500 100 6.5 60 3200.75;
    base_row 19.5 480 110 6.3 62 2950.1;
    base_row 40 1800 300 8 90 11000;
    base_row 22 530 95 6.7 58 3100.4;
    base_row 18 450 80 6.1 50 2800;
    base_row 20 500 100 6.5 60 3300.25;
    base_row 23 600 105 6.5 65 3900.9;
    base_row 25 700 130 6.8 72 4500;
    base_row 20.5 505 101 6.5 61 3250.33 ].

(** Four rows equal to the query (20, 500, 100, 6.5, 60). *)
Definition four_tied_rows : list row :=
  [ base_row 20 500 100 6.5 60 1304.14;
    base_row 20 500 100 6.5 60 5882.40;
    base_row 20 500 100 6.5 60 3611.50;
    base_row 20 500 100 6.5 60 7805.02 ].

End F64.

(** * Inputs that fit the columns of [crops_dataset]

    The feature columns are [DECIMAL(7,2)] or narrower and the yield column
    is [DECIMAL(10,2)].  On such values binary64 neither overflows nor
    produces NaN in the estimators, and its rounding error stays far below
    the slack of the statements that carry these bounds; the bounds play no
    part in the exact arithmetic of their proofs. *)








(** The twelve rows of [F64.twelve_rows] as rows of the exact model. *)
Definition twelve_rows : list row :=
  [ base_row 24 640 120 6.6 70 4100.25;
    base_row 35 1500 200 7.2 85 9100.5;
    base_row 21 510 90 6.4 55 3000;
    base_row 20 500 100 6.5 60 3200.75;
    base_row 19.5 480 110 6.3 62 2950.1;
    base_row 40 1800 300 8 90 11000;
    base_row 22 530 95 6.7 58 3100.4;
    base_row 18 450 80 6.1 50 2800;
    base_row 20 500 100 6.5 60 3300.25;
    base_row 23 600 105 6.5 65 3900.9;
    base_row 25 700 130 6.8 72 4500;
    base_row 20.5 505 101 6.5 61 3250.33 ].

(** * Properties *)

(** ** Rounding to two decimals *)

Section Rounding.

Lemma floor_bounds (x : R) : JS.floor x <= x < JS.floor x + 1.
Proof. unfold JS.floor. apply Zfloor_bound. Qed.

Lemma round_bounds (x : R) : x - 0.5 < JS.round x <= x + 0.5.
Proof.
  unfold JS.round. destruct (floor_bounds (x + 0.5)) as [Hlo Hhi]. lra.
Qed.

(** [Math.round(x * 100) / 100] moves [x] by at most half a hundredth. *)
Lemma round2_between (x : R) :
  x - 0.005 <= JS.round (x * 100) / 100 <= x + 0.005.
Proof.
  destruct (round_bounds (x * 100)) as [Hlo Hhi]. lra.
Qed.

(** So does [parseFloat(x.toFixed(2))]. *)
Lemma toFixed2_between (x : R) :
  x - 0.005 <= JS.toFixed2 x <= x + 0.005.
Proof.
  unfold JS.toFixed2.
  destruct (Rle_dec 1e21 (Rabs x)) as [Hbig | Hsmall]; [lra |].
  destruct (Rlt_dec x 0) as [Hneg | Hpos].
  - destruct (floor_bounds (- x * 100 + 0.5)) as [Hlo Hhi]. lra.
  - destruct (floor_bounds (x * 100 + 0.5)) as [Hlo Hhi]. lra.
Qed.

Lemma round_of_integer (z : Z) : JS.round (IZR z) = IZR z.
Proof.
  unfold JS.round, JS.floor. f_equal. apply Zfloor_eq. lra.
Qed.

End Rounding.

(** ** The nearest-neighbour tail *)

Module KNNFacts.
Import KNN KNNSpec.






(** The two [reduce] calls as sums. *)
Lemma fold_left_sum {A : Type} (f : A -> R) (l : list A) (init : R) :
  fold_left (fun sum n => sum + f n) l init = init + Rsum (map f l).
Proof.
  revert init. induction l as [| a l IH]; intros init; simpl.
  - lra.
  - rewrite IH. lra.
Qed.

Lemma totalWeight_sum (l : list scored) :
  totalWeight l = Rsum (map weight l).
Proof.
  unfold totalWeight. rewrite (fold_left_sum weight). lra.
Qed.

Lemma Rsum_div (c : R) (l : list R) :
  Rsum (map (fun x => x / c) l) = Rsum l / c.
Proof.
  induction l as [| x l IH]; simpl.
  - lra.
  - rewrite IH. lra.
Qed.

(** The second [reduce] divides every term by [totalWeight]; the sum is
    that average. *)
Lemma weightedYield_mean (l : list scored) : weightedYield l = mean l.
Proof.
  unfold weightedYield, mean.
  rewrite (fold_left_sum
             (fun n => (syield n * (1 / (distance n + 0.01))) / totalWeight l)).
  rewrite totalWeight_sum, Rplus_0_l.
  rewrite <- (Rsum_div (Rsum (map weight l))), map_map.
  reflexivity.
Qed.











End KNNFacts.

(** ** Distances of the two endpoints *)

Section Distances.

Variables temp rain fert ph humid : R.



(** A row that differs from the query in temperature only lies at the
    scaled temperature gap. *)
Lemma simple_score_temperature_gap (t y : R) :
  Predict.score temp rain fert ph humid (base_row t rain fert ph humid y)
  = {| KNN.distance := Rabs (t - temp) / 25; KNN.syield := y |}.
Proof.
  unfold Predict.score, base_row, JS.pow2. simpl. f_equal.
  replace (rain - rain) with 0 by ring.
  replace (fert - fert) with 0 by ring.
  replace (ph - ph) with 0 by ring.
  replace (humid - humid) with 0 by ring.
  rewrite Rabs_R0.
  replace (_ + _ + _ + _ + _)
    with (Rabs (t - temp) / 25 * (Rabs (t - temp) / 25)) by lra.
  apply sqrt_square.
  pose proof (Rabs_pos (t - temp)). lra.
Qed.

End Distances.

(** ** The shape of the nearest-neighbour estimate *)

Section Shape.
Import KNN KNNSpec KNNFacts.



End Shape.

(** ** Evaluating the roundings and comparisons on literals *)

Ltac js_compare :=
  unfold JS.gt, JS.lt;
  repeat match goal with
         | |- context [Rlt_dec ?a ?b] => destruct (Rlt_dec a b); try lra
         end;
  simpl; try reflexivity; try lra.


Lemma toFixed2_of_integer (z : Z) :
  (0 <= z < 10 ^ 21)%Z -> JS.toFixed2 (IZR z) = IZR z.
Proof.
  intros [Hlo Hhi]. unfold JS.toFixed2.
  apply IZR_le in Hlo. apply IZR_lt in Hhi.
  destruct (Rle_dec 1e21 (Rabs (IZR z))) as [Hbig | _]; [reflexivity |].
  destruct (Rlt_dec (IZR z) 0) as [Hneg | _]; [lra |].
  unfold JS.floor.
  rewrite (Zfloor_eq (z * 100)); rewrite mult_IZR; lra.
Qed.

(** ** Claims about the nearest-neighbour estimator *)

Lemma two_rows_nearest :
  KNN.slice0 (Nat.min 10 (List.length two_rows))
    (KNN.sort (map (Predict.score 0 0 0 0 0) two_rows))
  = [ {| KNN.distance := 0; KNN.syield := 0 |};
      {| KNN.distance := 0.99; KNN.syield := 1 |} ].
Proof.
  unfold two_rows. cbn [map List.length Nat.min KNN.slice0].
  rewrite !simple_score_temperature_gap.
  replace (0 - 0) with 0 by ring. rewrite Rabs_R0.
  replace (24.75 - 0) with 24.75 by ring.
  rewrite (Rabs_right 24.75) by lra.
  replace (0 / 25) with 0 by lra.
  replace (24.75 / 25) with 0.99 by lra.
  unfold KNN.sort. cbn [fold_right KNN.insert KNN.distance].
  destruct (Rle_dec (0 - 0.99) 0) as [_ | Hn]; [reflexivity | lra].
Qed.

(** C1 (as stated) fails: the value returned is the rounded average, which
    for these two rows is 0.01 while the weight-normalized average is
    1/101. *)
Lemma C1_unrounded_average_counterexample :
  Predict.predictRandomForest 0 0 0 0 0 (Some two_rows) = 0.01 /\
  KNNSpec.mean
    (KNN.slice0 (Nat.min 10 (List.length two_rows))
       (KNN.sort (map (Predict.score 0 0 0 0 0) two_rows))) = 1 / 101 /\
  Predict.predictRandomForest 0 0 0 0 0 (Some two_rows) <>
  KNNSpec.mean
    (KNN.slice0 (Nat.min 10 (List.length two_rows))
       (KNN.sort (map (Predict.score 0 0 0 0 0) two_rows))).
Proof.
  assert (KNNSpec.mean
            [ {| KNN.distance := 0; KNN.syield := 0 |};
              {| KNN.distance := 0.99; KNN.syield := 1 |} ] = 1 / 101)
    as Hmean.
  { unfold KNNSpec.mean, KNNSpec.Rsum, KNN.weight. simpl.
    replace (1 / (0 + 0.01)) with 100 by lra.
    replace (1 / (0.99 + 0.01)) with 1 by lra.
    lra. }
  assert (Predict.predictRandomForest 0 0 0 0 0 (Some two_rows) = 0.01)
    as Hres.
  { unfold Predict.predictRandomForest.
    change (no_rows (Some two_rows)) with false. cbv iota zeta.
    change (rows (Some two_rows)) with two_rows.
    rewrite two_rows_nearest, KNNFacts.weightedYield_mean, Hmean.
    unfold JS.round, JS.floor.
    rewrite (Zfloor_eq 1); lra. }
  rewrite two_rows_nearest, Hmean, Hres.
  repeat split; lra.
Qed.


(** C2.  With no historical records, absent or empty, [predictRandomForest]
    returns exactly the linear estimator's result for the same five inputs
    times a constant: 1.15 in the simple endpoint, 1.10 in the enhanced one
    (whose linear estimator receives 0 for its seven further features). *)
Theorem C2_fallback_is_scaled_linear
    (temp rain fert ph humid : R) (trainingData : option (list row)) :
  trainingData = None \/ trainingData = Some [] ->
  Predict.predictRandomForest temp rain fert ph humid trainingData
  = Predict.predictLinearRegression temp rain fert ph humid * 1.15
  /\
  PredictEnhanced.predictRandomForest temp rain fert ph humid trainingData
  = PredictEnhanced.predictLinearRegression
      temp rain fert ph humid 0 0 0 0 0 0 0 * 1.10.
Proof.
  intros [-> | ->]; split; reflexivity.
Qed.

Lemma C2_fallback_is_scaled_linear_witness :
  Predict.predictRandomForest 20 500 100 6.5 60 (Some [])
  = Predict.predictLinearRegression 20 500 100 6.5 60 * 1.15
  /\
  PredictEnhanced.predictRandomForest 20 500 100 6.5 60 (Some [])
  = PredictEnhanced.predictLinearRegression
      20 500 100 6.5 60 0 0 0 0 0 0 0 * 1.10.
Proof.
  apply (C2_fallback_is_scaled_linear 20 500 100 6.5 60 (Some [])).
  right. reflexivity.
Defined.

(** ** The linear estimators below their floor *)

(** Below the floor the estimators return the floor itself: the affine
    value at temperature -100 is negative, the output is 500. *)
Example linear_floor_reached :
  Predict.predictLinearRegression (-100) 0 0 0 0 = 500 /\
  PredictEnhanced.predictLinearRegression (-100) 0 0 0 0 0 0 0 0 0 0 0 = 500.
Proof.
  unfold Predict.predictLinearRegression,
    PredictEnhanced.predictLinearRegression. cbv zeta.
  split; apply Rmax_left.
  - pose proof (round2_between (1000 + 50 * -100 + 2.5 * 0 + 15 * 0
                                + 200 * 0 + 10 * 0)) as H.
    lra.
  - pose proof (toFixed2_between
                  (800 + 45 * -100 + 2.2 * 0 + 14 * 0 + 180 * 0 + 9 * 0
                   + 2 * 0 + 1 * 0 + 1.5 * 0 + 5 * 0 + 3 * 0 + -0.5 * 0
                   + 10 * 0)) as H.
    lra.
Qed.

(** ** Claims about the crop selector *)

Lemma determineBestCrop_first_match (temp rain fert ph humid : R) :
  Predict.determineBestCrop temp rain fert ph humid
  = first_match crop_rules temp rain "Barley".
Proof. reflexivity. Qed.

Lemma first_match_none (rules : list ((R -> R -> bool) * string))
    (temp rain : R) (default : string) :
  Forall (fun rule => fst rule temp rain = false) rules ->
  first_match rules temp rain default = default.
Proof.
  induction 1 as [| [test label] rest Hhead Hrest IH]; simpl.
  - reflexivity.
  - simpl in Hhead. rewrite Hhead. exact IH.
Qed.

(** C4.  [determineBestCrop] is the ordered decision table, first matching
    rule winning: at temperature 32 and rainfall 1300 it answers "Rice"
    although the Sugarcane rule matches too, at 20 and 500 it answers
    "Wheat", and where no rule matches it answers "Barley".  The two
    endpoints agree. *)
Theorem C4_first_matching_rule_wins (temp rain fert ph humid : R) :
  Predict.determineBestCrop temp rain fert ph humid
  = first_match crop_rules temp rain "Barley"
  /\ PredictEnhanced.determineBestCrop temp rain fert ph humid
     = Predict.determineBestCrop temp rain fert ph humid
  /\ Predict.determineBestCrop 32 1300 fert ph humid = "Rice"%string
  /\ sugarcane_rule 32 1300 = true
  /\ Predict.determineBestCrop 20 500 fert ph humid = "Wheat"%string
  /\ (no_rule_matches temp rain ->
      Predict.determineBestCrop temp rain fert ph humid = "Barley"%string).
Proof.
  split; [reflexivity |].
  split; [reflexivity |].
  split; [unfold Predict.determineBestCrop; js_compare |].
  split; [unfold sugarcane_rule; js_compare |].
  split; [unfold Predict.determineBestCrop; js_compare |].
  intros Hnone. rewrite determineBestCrop_first_match.
  apply first_match_none. exact Hnone.
Qed.

Lemma C4_first_matching_rule_wins_witness :
  no_rule_matches 25 1000 /\
  Predict.determineBestCrop 25 1000 100 6.5 60 = "Barley"%string.
Proof.
  assert (no_rule_matches 25 1000) as Hnone.
  { unfold no_rule_matches, crop_rules.
    repeat constructor; simpl;
      unfold rice_rule, corn_rule, sugarcane_rule, wheat_rule, cotton_rule,
        soybean_rule; js_compare. }
  split; [exact Hnone |].
  apply (C4_first_matching_rule_wins 25 1000 100 6.5 60). exact Hnone.
Defined.

(** ** The two linear estimators compared *)




(** ** Which features the enhanced estimate reads *)

Lemma enhanced_score_ignores_fert_ph
    (temp rain fert ph fert' ph' humid : R) (record : row) :
  PredictEnhanced.score temp rain fert ph humid record
  = PredictEnhanced.score temp rain fert' ph' humid record.
Proof. reflexivity. Qed.

Lemma enhanced_forest_ignores_fert_ph
    (temp rain fert ph fert' ph' humid : R) (trainingData : option (list row)) :
  no_rows trainingData = false ->
  PredictEnhanced.predictRandomForest temp rain fert ph humid trainingData
  = PredictEnhanced.predictRandomForest temp rain fert' ph' humid trainingData.
Proof.
  intros Hrows. unfold PredictEnhanced.predictRandomForest.
  rewrite Hrows. reflexivity.
Qed.

Lemma capped_temp_20 (q : PredictEnhanced.input) :
  PredictEnhanced.in_temperature q = 20 -> PredictEnhanced.capped_temp q = 20.
Proof.
  unfold PredictEnhanced.capped_temp. intros ->.
  rewrite (Rmin_right 45 20) by lra. apply Rmax_right. lra.
Qed.

Lemma capped_rainfall_500 (q : PredictEnhanced.input) :
  PredictEnhanced.in_rainfall q = 500 ->
  PredictEnhanced.capped_rainfall q = 500.
Proof.
  unfold PredictEnhanced.capped_rainfall. intros ->.
  rewrite (Rmin_right 2500 500) by lra. apply Rmax_right. lra.
Qed.

(** C9 (as stated) fails on the empty training set: the fallback is the
    linear estimator, which reads the fertilizer.  The two requests differ
    in fertilizer only and get 4961 and 6501. *)
Lemma C9_fallback_reads_fertilizer_counterexample :
  PredictEnhanced.rfYield unfertilized (Some []) = 4961 /\
  PredictEnhanced.rfYield fertilized (Some []) = 6501 /\
  PredictEnhanced.rfYield unfertilized (Some [])
  <> PredictEnhanced.rfYield fertilized (Some []).
Proof.
  assert (PredictEnhanced.rfYield unfertilized (Some []) = 4961) as H0.
  { unfold PredictEnhanced.rfYield.
    rewrite capped_temp_20, capped_rainfall_500 by reflexivity.
    unfold PredictEnhanced.predictRandomForest,
      PredictEnhanced.predictLinearRegression. simpl no_rows.
    cbv iota zeta. cbn [unfertilized PredictEnhanced.in_fertilizer
      PredictEnhanced.in_soil_ph PredictEnhanced.in_humidity].
    replace (800 + 45 * 20 + 2.2 * 500 + 14 * 0 + 180 * 6.5 + 9 * 60 + 2 * 0
             + 1 * 0 + 1.5 * 0 + 5 * 0 + 3 * 0 + -0.5 * 0 + 10 * 0)
      with (IZR 4510) by lra.
    rewrite toFixed2_of_integer by (split; [lia | reflexivity]).
    rewrite Rmax_right by lra. lra. }
  assert (PredictEnhanced.rfYield fertilized (Some []) = 6501) as H1.
  { unfold PredictEnhanced.rfYield.
    rewrite capped_temp_20, capped_rainfall_500 by reflexivity.
    unfold PredictEnhanced.predictRandomForest,
      PredictEnhanced.predictLinearRegression. simpl no_rows.
    cbv iota zeta. cbn [fertilized PredictEnhanced.in_fertilizer
      PredictEnhanced.in_soil_ph PredictEnhanced.in_humidity].
    replace (800 + 45 * 20 + 2.2 * 500 + 14 * 100 + 180 * 6.5 + 9 * 60 + 2 * 0
             + 1 * 0 + 1.5 * 0 + 5 * 0 + 3 * 0 + -0.5 * 0 + 10 * 0)
      with (IZR 5910) by lra.
    rewrite toFixed2_of_integer by (split; [lia | reflexivity]).
    rewrite Rmax_right by lra. lra. }
  rewrite H0, H1. repeat split; lra.
Qed.

(** C9 (as amended).  In the enhanced endpoint, two requests with the same
    temperature, rainfall and humidity get the same [rfYield] from every
    non-empty training set, whatever their fertilizer, soil pH, nitrogen,
    phosphorus and potassium; with an absent or empty training set they get
    the same [rfYield] when fertilizer and soil pH agree as well. *)
Theorem C9_estimate_ignores_other_features
    (q1 q2 : PredictEnhanced.input) (trainingData : option (list row)) :
  PredictEnhanced.in_temperature q1 = PredictEnhanced.in_temperature q2 ->
  PredictEnhanced.in_rainfall q1 = PredictEnhanced.in_rainfall q2 ->
  PredictEnhanced.in_humidity q1 = PredictEnhanced.in_humidity q2 ->
  (no_rows trainingData = false ->
   PredictEnhanced.rfYield q1 trainingData
   = PredictEnhanced.rfYield q2 trainingData)
  /\
  (PredictEnhanced.in_fertilizer q1 = PredictEnhanced.in_fertilizer q2 ->
   PredictEnhanced.in_soil_ph q1 = PredictEnhanced.in_soil_ph q2 ->
   PredictEnhanced.rfYield q1 trainingData
   = PredictEnhanced.rfYield q2 trainingData).
Proof.
  intros Ht Hr Hh.
  unfold PredictEnhanced.rfYield, PredictEnhanced.capped_temp,
    PredictEnhanced.capped_rainfall.
  rewrite Ht, Hr, Hh. split.
  - intros Hrows. apply enhanced_forest_ignores_fert_ph. exact Hrows.
  - intros -> ->. reflexivity.
Qed.

Lemma C9_estimate_ignores_other_features_witness :
  PredictEnhanced.rfYield unfertilized (Some [base_row 21 510 90 6.4 55 3000])
  = PredictEnhanced.rfYield fertilized (Some [base_row 21 510 90 6.4 55 3000]).
Proof.
  apply (proj1 (C9_estimate_ignores_other_features unfertilized fertilized
                  (Some [base_row 21 510 90 6.4 55 3000])
                  eq_refl eq_refl eq_refl)).
  reflexivity.
Defined.

(** ** The dataset generators *)

Section Generators.

Lemma cropTypes_length : INR (List.length cropTypes) = 7.
Proof. simpl. lra. Qed.

(** A draw in [0, 1) always selects one of the seven crops. *)
Lemma pick_crop_defined (u : R) :
  0 <= u < 1 -> exists c, pick_crop u = Some c /\ In c cropTypes.
Proof.
  intros [Hlo Hhi]. unfold pick_crop. rewrite cropTypes_length.
  destruct (Zfloor_bound (u * 7)) as [Hfl Hfu].
  assert (0 <= Zfloor (u * 7) <= 6)%Z as Hrange.
  { split.
    - apply Zfloor_lub. simpl. lra.
    - apply Z.lt_succ_r. apply lt_IZR. simpl. lra. }
  assert (exists k, Zfloor (u * 7) = Z.of_nat k /\ (k < 7)%nat)
    as (k & -> & Hk).
  { exists (Z.to_nat (Zfloor (u * 7))). split; lia. }
  do 7 (destruct k as [| k]; [simpl; eauto 10 |]).
  lia.
Qed.

Lemma cropTypes_ranges (c : crop_type) :
  In c cropTypes -> 1000 <= minYield c <= maxYield c.
Proof.
  unfold cropTypes. simpl.
  intros [<- | [<- | [<- | [<- | [<- | [<- | [<- | []]]]]]]]; simpl; lra.
Qed.

Lemma bind_random {B : Type} (oracle : nat -> R) (f : R -> Eff.M B)
    (s : Eff.state) :
  Eff.bind (Eff.random oracle) f s
  = f (oracle (Eff.draws s))
      {| Eff.draws := S (Eff.draws s); Eff.log := Eff.log s |}.
Proof. reflexivity. Qed.

Lemma bind_defined_crop {B : Type} (c : crop_type) (f : crop_type -> Eff.M B)
    (s : Eff.state) :
  Eff.bind (defined_crop (Some c)) f s = f c s.
Proof. reflexivity. Qed.

(** The factors of the yield formula are never negative on the ranges the
    generator draws from. *)
Lemma base_factor_nonneg (u1 u2 u3 u4 u5 : R) :
  0 <= u1 < 1 -> 0 <= u2 < 1 -> 0 <= u3 < 1 -> 0 <= u4 < 1 -> 0 <= u5 < 1 ->
  0 <= (1 - Rabs (15 + u1 * 25 - 25) / 40
        + Rmin ((300 + u2 * 1500) / 1000) 1.5
        + Rmin ((50 + u3 * 250) / 200) 1.3
        + (1 - Rabs (5.5 + u4 * 2.5 - 6.8) / 3)
        + Rmin ((40 + u5 * 50) / 70) 1.2) / 5.
Proof.
  intros H1 H2 H3 H4 H5.
  assert (Rabs (15 + u1 * 25 - 25) <= 15) by (apply Rabs_le; lra).
  assert (Rabs (5.5 + u4 * 2.5 - 6.8) <= 1.3) by (apply Rabs_le; lra).
  assert (0 <= Rmin ((300 + u2 * 1500) / 1000) 1.5) by (apply Rmin_glb; lra).
  assert (0 <= Rmin ((50 + u3 * 250) / 200) 1.3) by (apply Rmin_glb; lra).
  assert (0 <= Rmin ((40 + u5 * 50) / 70) 1.2) by (apply Rmin_glb; lra).
  lra.
Qed.

Variable oracle : nat -> R.
Hypothesis oracle_range : forall i, 0 <= oracle i < 1.

Lemma simple_iteration_yield (s : Eff.state) :
  exists r s',
    Generate.iteration oracle s = (Eff.Return r, s') /\
    Eff.log s' = Eff.log s /\
    0 <= Generate.yield r.
Proof.
  unfold Generate.iteration.
  rewrite bind_random.
  destruct (pick_crop_defined (oracle (Eff.draws s)) (oracle_range _))
    as (c & -> & Hc).
  repeat (rewrite bind_random; cbn [Eff.draws Eff.log]).
  rewrite bind_defined_crop. cbv zeta.
  eexists. eexists. split; [reflexivity |]. split; [reflexivity |].
  cbn [Generate.yield].
  set (n := Eff.draws s).
  pose proof (base_factor_nonneg (oracle (S n)) (oracle (S (S n)))
                (oracle (S (S (S n)))) (oracle (S (S (S (S n)))))
                (oracle (S (S (S (S (S n))))))
                (oracle_range _) (oracle_range _) (oracle_range _)
                (oracle_range _) (oracle_range _)) as Hbase.
  pose proof (oracle_range (S (S (S (S (S (S n))))))) as Hvar.
  pose proof (cropTypes_ranges c Hc) as Hcrop.
  match goal with
  | |- 0 <= JS.round (?v * 100) / 100 =>
      pose proof (round2_between v) as Hround;
      assert (minYield c <= v) as Hvalue
  end.
  { match goal with
    | |- _ <= _ + ?span * ?base * ?var =>
        assert (0 <= span * base * var); [| lra]
    end.
    apply Rmult_le_pos; [apply Rmult_le_pos |]; lra. }
  lra.
Qed.

Lemma simple_generate_yields (n : nat) (s : Eff.state) :
  exists records s',
    Generate.generate oracle n s = (Eff.Return records, s') /\
    Eff.log s' = Eff.log s /\
    List.length records = n /\
    Forall (fun r => 0 <= Generate.yield r) records.
Proof.
  revert s. induction n as [| n IH]; intros s.
  - exists [], s. repeat split; constructor.
  - destruct (simple_iteration_yield s) as (r & s1 & Hrun & Hlog & Hyield).
    destruct (IH s1) as (rest & s2 & Hrest & Hlog2 & Hlen & Hall).
    exists (r :: rest), s2.
    cbn [Generate.generate]. unfold Eff.bind at 1. rewrite Hrun.
    unfold Eff.bind at 1. rewrite Hrest.
    repeat split.
    + congruence.
    + simpl. congruence.
    + constructor; assumption.
Qed.

End Generators.

Section EnhancedGenerator.

Variable w : GenerateEnhanced.world.
Hypothesis oracle_range : forall i, 0 <= GenerateEnhanced.oracle w i < 1.

Lemma enhanced_iteration_yield (s : Eff.state) :
  exists r s',
    GenerateEnhanced.iteration w s = (Eff.Return r, s') /\
    Eff.log s' = Eff.log s /\
    0 <= GenerateEnhanced.yield r.
Proof.
  unfold GenerateEnhanced.iteration.
  rewrite bind_random.
  destruct (pick_crop_defined (GenerateEnhanced.oracle w (Eff.draws s))
              (oracle_range _)) as (c & -> & Hc).
  repeat (rewrite bind_random; cbn [Eff.draws Eff.log]).
  rewrite bind_defined_crop. cbv zeta.
  eexists. eexists. split; [reflexivity |]. split; [reflexivity |].
  cbn [GenerateEnhanced.yield]. apply Rmax_l.
Qed.

Lemma enhanced_generate_yields (n : nat) (s : Eff.state) :
  exists records s',
    GenerateEnhanced.generate w n s = (Eff.Return records, s') /\
    Eff.log s' = Eff.log s /\
    List.length records = n /\
    Forall (fun r => 0 <= GenerateEnhanced.yield r) records.
Proof.
  revert s. induction n as [| n IH]; intros s.
  - exists [], s. repeat split; constructor.
  - destruct (enhanced_iteration_yield s) as (r & s1 & Hrun & Hlog & Hyield).
    destruct (IH s1) as (rest & s2 & Hrest & Hlog2 & Hlen & Hall).
    exists (r :: rest), s2.
    cbn [GenerateEnhanced.generate]. unfold Eff.bind at 1. rewrite Hrun.
    unfold Eff.bind at 1. rewrite Hrest.
    repeat split.
    + congruence.
    + simpl. congruence.
    + constructor; assumption.
Qed.

End EnhancedGenerator.

(** C6.  Whatever [Math.random] draws in [0, 1), each generator produces
    its records, as many as asked, and every one has a yield that is not
    negative. *)
Theorem C6_generated_yields_nonnegative
    (oracle : nat -> R) (w : GenerateEnhanced.world) (n : nat)
    (s : Eff.state) :
  (forall i, 0 <= oracle i < 1) ->
  (forall i, 0 <= GenerateEnhanced.oracle w i < 1) ->
  (exists records s',
     Generate.generate oracle n s = (Eff.Return records, s') /\
     List.length records = n /\
     Forall (fun r => 0 <= Generate.yield r) records)
  /\
  (exists records s',
     GenerateEnhanced.generate w n s = (Eff.Return records, s') /\
     List.length records = n /\
     Forall (fun r => 0 <= GenerateEnhanced.yield r) records).
Proof.
  intros Hsimple Henhanced. split.
  - destruct (simple_generate_yields oracle Hsimple n s)
      as (records & s' & Hrun & _ & Hlen & Hall).
    exists records, s'. auto.
  - destruct (enhanced_generate_yields w Henhanced n s)
      as (records & s' & Hrun & _ & Hlen & Hall).
    exists records, s'. auto.
Qed.

Lemma C6_generated_yields_nonnegative_witness :
  (exists records s',
     Generate.generate (fun _ => 0.5) targetRecords Eff.start
     = (Eff.Return records, s') /\
     List.length records = targetRecords /\
     Forall (fun r => 0 <= Generate.yield r) records)
  /\
  (exists records s',
     GenerateEnhanced.generate calm_generation targetRecords Eff.start
     = (Eff.Return records, s') /\
     List.length records = targetRecords /\
     Forall (fun r => 0 <= GenerateEnhanced.yield r) records).
Proof.
  apply (C6_generated_yields_nonnegative (fun _ => 0.5) calm_generation
           targetRecords Eff.start).
  - intros i. lra.
  - intros i. simpl. lra.
Defined.

(** ** Error handling of the handlers *)

Section Effects.

Lemma bind_throw_inv {A B : Type} (m : Eff.M A) (f : A -> Eff.M B)
    (s s' : Eff.state) (e : JS.thrown) :
  Eff.bind m f s = (Eff.Throw e, s') ->
  m s = (Eff.Throw e, s') \/
  exists a s1, m s = (Eff.Return a, s1) /\ f a s1 = (Eff.Throw e, s').
Proof.
  unfold Eff.bind. destruct (m s) as [[e1 | a] s1]; intros Hrun.
  - left. injection Hrun as -> ->. reflexivity.
  - right. exists a, s1. split; [reflexivity | exact Hrun].
Qed.

Lemma bind_return_inv {A B : Type} (m : Eff.M A) (f : A -> Eff.M B)
    (s s' : Eff.state) (b : B) :
  Eff.bind m f s = (Eff.Return b, s') ->
  exists a s1, m s = (Eff.Return a, s1) /\ f a s1 = (Eff.Return b, s').
Proof.
  unfold Eff.bind. destruct (m s) as [[e1 | a] s1]; intros Hrun.
  - discriminate.
  - exists a, s1. split; [reflexivity | exact Hrun].
Qed.

(** A handler built as [try { ... } catch] around a block that only ever
    returns status 200 catches everything. *)
Lemma try_catch_catches_all (try_block : Eff.M response) :
  (forall s r s', try_block s = (Eff.Return r, s') -> status r = 200%Z) ->
  catches_all try_block (Eff.try_catch try_block catch_block).
Proof.
  intros Hok s. unfold Eff.try_catch.
  destruct (try_block s) as [[e | r] s'] eqn:Hrun.
  - reflexivity.
  - split; [reflexivity | exact (Hok s r s' Hrun)].
Qed.

Lemma throw_if_log {A : Type} (r : Eff.reply A) (s : Eff.state) :
  snd (Eff.throw_if r s) = s.
Proof. unfold Eff.throw_if. destruct (Eff.error r); reflexivity. Qed.

End Effects.

(** *** The simple prediction handler *)

Section PredictHandler.

Variable w : Predict.world.

Lemma predict_try_block_status (s : Eff.state) (r : response) (s' : Eff.state) :
  Predict.try_block w s = (Eff.Return r, s') -> status r = 200%Z.
Proof.
  unfold Predict.try_block, Eff.bind, Eff.await, Eff.throw_if.
  destruct (Predict.create_client w) as [e | []]; [discriminate |].
  destruct (Predict.request_json w) as [e | q]; [discriminate |].
  destruct (Predict.select_training w) as [e | fetched]; [discriminate |].
  destruct (Eff.error fetched) as [e |]; [discriminate |]. cbn [Eff.ret].
  destruct (Predict.select_metrics w) as [e | answered]; [discriminate |].
  destruct (Predict.insert_prediction w _) as [e | inserted]; [discriminate |].
  destruct (Eff.error inserted) as [e |]; [discriminate |]. cbn [Eff.ret].
  intros [= <- _]. reflexivity.
Qed.

Lemma predict_handler_calls_once : calls_once (Predict.handler w).
Proof.
  unfold calls_once, Predict.handler.
  destruct (String.eqb (Predict.method w) "OPTIONS"); [constructor |].
  unfold Eff.try_catch, Predict.try_block, Eff.bind, Eff.await, Eff.throw_if,
    catch_block.
  destruct (Predict.create_client w) as [e | []]; cbn;
    [repeat constructor; simpl; intuition discriminate |].
  destruct (Predict.request_json w) as [e | q]; cbn;
    [repeat constructor; simpl; intuition discriminate |].
  destruct (Predict.select_training w) as [e | fetched]; cbn;
    [repeat constructor; simpl; intuition discriminate |].
  destruct (Eff.error fetched) as [e |]; cbn;
    [repeat constructor; simpl; intuition discriminate |].
  destruct (Predict.select_metrics w) as [e | answered]; cbn;
    [repeat constructor; simpl; intuition discriminate |].
  destruct (Predict.insert_prediction w _) as [e | inserted]; cbn;
    [repeat constructor; simpl; intuition discriminate |].
  destruct (Eff.error inserted) as [e |]; cbn;
    repeat constructor; simpl; intuition discriminate.
Qed.

(** Malformed input: [req.json()] rejects. *)
Lemma predict_malformed_input (e : JS.thrown) (s : Eff.state) :
  Predict.create_client w = Eff.Resolved tt ->
  Predict.request_json w = Eff.Rejected e ->
  fst (Predict.try_block w s) = Eff.Throw e.
Proof.
  intros Hc Hj.
  unfold Predict.try_block, Eff.bind, Eff.await. rewrite Hc, Hj. reflexivity.
Qed.

(** Network: the query for the training rows rejects. *)
Lemma predict_network_failure (q : Predict.input) (e : JS.thrown)
    (s : Eff.state) :
  Predict.create_client w = Eff.Resolved tt ->
  Predict.request_json w = Eff.Resolved q ->
  Predict.select_training w = Eff.Rejected e ->
  fst (Predict.try_block w s) = Eff.Throw e.
Proof.
  intros Hc Hj Hs.
  unfold Predict.try_block, Eff.bind, Eff.await. rewrite Hc, Hj, Hs.
  reflexivity.
Qed.

(** Storage: the query settles with an [error]. *)
Lemma predict_storage_failure (q : Predict.input)
    (fetched : Eff.reply (list row)) (e : JS.thrown) (s : Eff.state) :
  Predict.create_client w = Eff.Resolved tt ->
  Predict.request_json w = Eff.Resolved q ->
  Predict.select_training w = Eff.Resolved fetched ->
  Eff.error fetched = Some e ->
  fst (Predict.try_block w s) = Eff.Throw e.
Proof.
  intros Hc Hj Hs He.
  unfold Predict.try_block, Eff.bind, Eff.await, Eff.throw_if.
  rewrite Hc, Hj, Hs, He. reflexivity.
Qed.

(** An [error] of the metrics query is never looked at: the handler goes
    on and answers 200. *)
Lemma predict_metrics_error_ignored (q : Predict.input)
    (fetched : Eff.reply (list row))
    (answered : Eff.reply (list model_metric))
    (inserted : Eff.reply unit) (s : Eff.state) :
  Predict.create_client w = Eff.Resolved tt ->
  Predict.request_json w = Eff.Resolved q ->
  Predict.select_training w = Eff.Resolved fetched ->
  Eff.error fetched = None ->
  Predict.select_metrics w = Eff.Resolved answered ->
  (forall p, Predict.insert_prediction w p = Eff.Resolved inserted) ->
  Eff.error inserted = None ->
  exists r, fst (Predict.try_block w s) = Eff.Return r /\ status r = 200%Z.
Proof.
  intros Hc Hj Hs He Hm Hi Hie.
  unfold Predict.try_block, Eff.bind, Eff.await, Eff.throw_if.
  rewrite Hc, Hj, Hs, He. cbn [Eff.ret]. rewrite Hm, Hi, Hie. cbn [Eff.ret fst].
  eexists. split; reflexivity.
Qed.

End PredictHandler.

(** *** The enhanced generator's handler *)

Section GenerateHandler.

Variable w : GenerateEnhanced.world.

Lemma iteration_log (s : Eff.state) :
  Eff.log (snd (GenerateEnhanced.iteration w s)) = Eff.log s.
Proof.
  unfold GenerateEnhanced.iteration.
  repeat (rewrite bind_random; cbn [Eff.draws Eff.log]).
  destruct (pick_crop (GenerateEnhanced.oracle w (Eff.draws s)));
    reflexivity.
Qed.

Lemma generate_log (n : nat) (s : Eff.state) :
  Eff.log (snd (GenerateEnhanced.generate w n s)) = Eff.log s.
Proof.
  revert s. induction n as [| n IH]; intros s; [reflexivity |].
  cbn [GenerateEnhanced.generate]. unfold Eff.bind at 1.
  pose proof (iteration_log s) as Hit.
  destruct (GenerateEnhanced.iteration w s) as [[e | r] s1]; [exact Hit |].
  unfold Eff.bind at 1. pose proof (IH s1) as Hrest.
  destruct (GenerateEnhanced.generate w n s1) as [[e | rest] s2];
    simpl in *; congruence.
Qed.

(** The batch loop inserts at offsets that only grow. *)
Lemma insert_batches_log (records : list GenerateEnhanced.record)
    (turns i : nat) (s : Eff.state) :
  exists offsets,
    Eff.log (snd (GenerateEnhanced.insert_batches w turns i records s))
    = Eff.log s ++ map Eff.InsertBatch offsets /\
    Forall (fun offset => (i <= offset)%nat) offsets /\
    NoDup offsets.
Proof.
  revert i s. induction turns as [| turns IH]; intros i s.
  - exists []. simpl. rewrite app_nil_r. repeat constructor.
  - cbn [GenerateEnhanced.insert_batches].
    destruct (Nat.ltb i (List.length records)).
    + unfold Eff.bind at 1. unfold Eff.await.
      set (s1 := {| Eff.draws := Eff.draws s;
                    Eff.log := Eff.log s ++ [Eff.InsertBatch i] |}).
      assert (exists one, one = [i] /\
                Eff.log s1 = Eff.log s ++ map Eff.InsertBatch one)
        as (one & Hone & Hlog1) by (exists [i]; split; reflexivity).
      destruct (GenerateEnhanced.insert_batch w i _) as [e | inserted].
      * exists [i]. subst one. repeat constructor; simpl; auto.
      * unfold Eff.bind at 1. unfold Eff.throw_if.
        destruct (Eff.error inserted) as [e |].
        -- exists [i]. subst one. repeat constructor; simpl; auto.
        -- cbn [Eff.ret].
           destruct (IH (i + GenerateEnhanced.batchSize)%nat s1)
             as (offsets & Hlog & Hge & Hnd).
           exists (i :: offsets). split; [| split].
           ++ rewrite Hlog. unfold s1. cbn [Eff.log map].
              rewrite <- app_assoc. reflexivity.
           ++ constructor; [lia |].
              eapply Forall_impl; [| exact Hge].
              intros offset Hoff. simpl in Hoff. lia.
           ++ constructor; [| exact Hnd].
              intros Hin. rewrite Forall_forall in Hge.
              specialize (Hge i Hin).
              unfold GenerateEnhanced.batchSize in Hge. lia.
    + exists []. simpl. rewrite app_nil_r. repeat constructor.
Qed.

Lemma generate_try_block_status (s : Eff.state) (r : response)
    (s' : Eff.state) :
  GenerateEnhanced.try_block w s = (Eff.Return r, s') -> status r = 200%Z.
Proof.
  unfold GenerateEnhanced.try_block. intros Hrun.
  apply bind_return_inv in Hrun. destruct Hrun as (_ & s1 & _ & Hrun).
  apply bind_return_inv in Hrun. destruct Hrun as (records & s2 & _ & Hrun).
  apply bind_return_inv in Hrun. destruct Hrun as (_ & s3 & _ & Hrun).
  repeat (rewrite bind_random in Hrun; cbn [Eff.draws Eff.log] in Hrun).
  apply bind_return_inv in Hrun. destruct Hrun as (_ & s4 & _ & Hrun).
  injection Hrun as <- _. reflexivity.
Qed.

Lemma batch_log_NoDup (offsets : list nat) :
  NoDup offsets ->
  NoDup (Eff.CreateClient :: map Eff.InsertBatch offsets)
  /\ NoDup ((Eff.CreateClient :: map Eff.InsertBatch offsets)
            ++ [Eff.InsertMetrics]).
Proof.
  intros Hnd.
  assert (NoDup (map Eff.InsertBatch offsets)) as Hmap.
  { apply Finite.Injective_map_NoDup; [| exact Hnd].
    intros a b Hab. injection Hab as ->. reflexivity. }
  assert (NoDup (Eff.CreateClient :: map Eff.InsertBatch offsets)) as Hhead.
  { constructor; [| exact Hmap].
    rewrite in_map_iff. intros (offset & Habs & _). discriminate. }
  split; [exact Hhead |].
  apply NoDup_app; [exact Hhead | repeat constructor; simpl; tauto |].
  intros c Hc [<- | []].
  destruct Hc as [Habs | Hc]; [discriminate |].
  rewrite in_map_iff in Hc. destruct Hc as (offset & Habs & _). discriminate.
Qed.

Lemma generate_handler_calls_once : calls_once (GenerateEnhanced.handler w).
Proof.
  unfold calls_once, GenerateEnhanced.handler.
  destruct (String.eqb (GenerateEnhanced.method w) "OPTIONS");
    [constructor |].
  assert (forall m : Eff.M response,
             snd (Eff.try_catch m catch_block Eff.start) = snd (m Eff.start))
    as ->.
  { intros m. unfold Eff.try_catch.
    destruct (m Eff.start) as [[e | r] s']; reflexivity. }
  unfold GenerateEnhanced.try_block.
  unfold Eff.bind at 1. unfold Eff.await at 1.
  destruct (GenerateEnhanced.create_client w) as [e | []].
  { cbn [snd Eff.log Eff.start app]. repeat constructor. simpl. tauto. }
  set (s1 := {| Eff.draws := Eff.draws Eff.start;
                Eff.log := Eff.log Eff.start ++ [Eff.CreateClient] |}).
  unfold Eff.bind at 1.
  pose proof (generate_log targetRecords s1) as Hgen.
  destruct (GenerateEnhanced.generate w targetRecords s1)
    as [[e | records] s2]; cbn [snd] in *.
  { rewrite Hgen. repeat constructor. simpl. tauto. }
  unfold Eff.bind at 1.
  destruct (insert_batches_log records (List.length records) 0 s2)
    as (offsets & Hlog & _ & Hnd).
  destruct (batch_log_NoDup offsets Hnd) as [Hpart Hfull].
  destruct (GenerateEnhanced.insert_batches w _ 0 records s2)
    as [[e | []] s3]; cbn [snd] in *.
  { rewrite Hlog, Hgen. exact Hpart. }
  repeat (rewrite bind_random; cbn [Eff.draws Eff.log]).
  unfold Eff.bind at 1. unfold Eff.await at 1.
  destruct (GenerateEnhanced.insert_metrics w _ _) as [e | answered];
    cbn [snd Eff.log Eff.ret]; rewrite Hlog, Hgen; exact Hfull.
Qed.

(** [createClient] throws. *)
Lemma generate_client_failure (e : JS.thrown) (s : Eff.state) :
  GenerateEnhanced.create_client w = Eff.Rejected e ->
  fst (GenerateEnhanced.try_block w s) = Eff.Throw e.
Proof.
  intros Hc.
  unfold GenerateEnhanced.try_block, Eff.bind at 1, Eff.await. rewrite Hc.
  reflexivity.
Qed.

End GenerateHandler.

(** C8 (as stated) fails: when the query for the training rows settles with
    the database client's error object, which is not an [Error] instance,
    the handler answers 500 with the text "Unknown error", not with the
    message of what was thrown. *)
Lemma C8_unknown_error_counterexample :
  fst (Predict.try_block refused_select Eff.start)
  = Eff.Throw (JS.PlainObject "permission denied for table crops_dataset")
  /\
  fst (Predict.handler refused_select Eff.start)
  = Eff.Return {| status := 500; body := ErrorJson "Unknown error" |}
  /\
  ~ (forall (w : Predict.world) (s : Eff.state) (e : JS.thrown),
       Predict.method w <> "OPTIONS"%string ->
       fst (Predict.try_block w s) = Eff.Throw e ->
       fst (Predict.handler w s)
       = Eff.Return {| status := 500; body := ErrorJson (message_of e) |}).
Proof.
  split; [reflexivity |]. split; [reflexivity |].
  intros Hclaim.
  specialize (Hclaim refused_select Eff.start
                (JS.PlainObject "permission denied for table crops_dataset")).
  assert (fst (Predict.handler refused_select Eff.start)
          = Eff.Return {| status := 500; body := ErrorJson "Unknown error" |})
    as Hrun by reflexivity.
  rewrite Hrun in Hclaim.
  assert (Eff.Return {| status := 500; body := ErrorJson "Unknown error" |}
          = Eff.Return
              {| status := 500;
                 body := ErrorJson
                           (message_of
                              (JS.PlainObject
                                 "permission denied for table crops_dataset"))
              |}) as Habs.
  { apply Hclaim; [discriminate | reflexivity]. }
  discriminate Habs.
Qed.

(** C8 (as amended).  Whatever is thrown inside the [try] block of a
    handler is caught by its [catch], and the handler answers status 500
    with the thrown [Error]'s message, or with "Unknown error" when the
    thrown value is not an [Error] instance; when nothing is thrown it
    answers status 200.  No other status exists, and no external call is
    issued twice.  Both the simple prediction handler and the enhanced
    generator's handler. *)
Theorem C8_failures_answered_500
    (pw : Predict.world) (gw : GenerateEnhanced.world) :
  Predict.method pw <> "OPTIONS"%string ->
  GenerateEnhanced.method gw <> "OPTIONS"%string ->
  catches_all (Predict.try_block pw) (Predict.handler pw)
  /\ catches_all (GenerateEnhanced.try_block gw) (GenerateEnhanced.handler gw)
  /\ calls_once (Predict.handler pw)
  /\ calls_once (GenerateEnhanced.handler gw).
Proof.
  intros Hp Hg.
  apply String.eqb_neq in Hp. apply String.eqb_neq in Hg.
  split; [| split; [| split]].
  - unfold Predict.handler. rewrite Hp.
    apply try_catch_catches_all. apply predict_try_block_status.
  - unfold GenerateEnhanced.handler. rewrite Hg.
    apply try_catch_catches_all. apply generate_try_block_status.
  - apply predict_handler_calls_once.
  - apply generate_handler_calls_once.
Qed.

Lemma C8_failures_answered_500_witness :
  catches_all (Predict.try_block refused_select)
    (Predict.handler refused_select)
  /\ catches_all (GenerateEnhanced.try_block calm_generation)
       (GenerateEnhanced.handler calm_generation)
  /\ calls_once (Predict.handler refused_select)
  /\ calls_once (GenerateEnhanced.handler calm_generation).
Proof.
  apply (C8_failures_answered_500 refused_select calm_generation);
    discriminate.
Defined.

(** * Further properties of the code *)

(** ** Rounding *)

Lemma round2_monotone (x y : R) : x <= y -> round2 x <= round2 y.
Proof.
  intros Hxy. unfold round2, JS.round, JS.floor.
  assert (Zfloor (x * 100 + 0.5) <= Zfloor (y * 100 + 0.5))%Z as Hz
    by (apply Zfloor_le; lra).
  apply IZR_le in Hz. lra.
Qed.

Lemma round2_fixes_hundredth (x : R) : hundredth x -> round2 x = x.
Proof.
  intros [z ->]. unfold round2.
  replace (IZR z / 100 * 100) with (IZR z) by lra.
  rewrite round_of_integer. reflexivity.
Qed.

Lemma toFixed2_floor_nonneg (v : R) : 0 <= v -> 0 <= JS.floor (v + 0.5).
Proof.
  intros Hv. unfold JS.floor. apply IZR_le.
  apply Zfloor_lub. simpl. lra.
Qed.

(** Below 1e21 the rounded magnitude stays at or below 1e21. *)
Lemma toFixed2_floor_capped (v : R) :
  v < 1e21 -> JS.floor (v * 100 + 0.5) / 100 <= 1e21.
Proof.
  intros Hv. unfold JS.floor.
  destruct (Zfloor_bound (v * 100 + 0.5)) as [Hlo _].
  assert (Zfloor (v * 100 + 0.5) < 10 ^ 23 + 1)%Z as Hz.
  { apply lt_IZR. rewrite plus_IZR.
    replace (IZR (10 ^ 23)) with (1e21 * 100) by (simpl; lra). lra. }
  assert (Zfloor (v * 100 + 0.5) <= 10 ^ 23)%Z as Hz' by lia.
  apply IZR_le in Hz'.
  replace (IZR (10 ^ 23)) with (1e21 * 100) in Hz' by (simpl; lra). lra.
Qed.

Lemma toFixed2_monotone (x y : R) : x <= y -> JS.toFixed2 x <= JS.toFixed2 y.
Proof.
  intros Hxy. unfold JS.toFixed2.
  destruct (Rle_dec 1e21 (Rabs x)) as [Hbx | Hsx];
    destruct (Rle_dec 1e21 (Rabs y)) as [Hby | Hsy];
    destruct (Rlt_dec x 0) as [Hnx | Hpx];
    destruct (Rlt_dec y 0) as [Hny | Hpy];
    try (rewrite (Rabs_left x) in * by lra);
    try (rewrite (Rabs_right x) in * by lra);
    try (rewrite (Rabs_left y) in * by lra);
    try (rewrite (Rabs_right y) in * by lra);
    try lra.
  - (* x <= -1e21 < y < 0 *)
    pose proof (toFixed2_floor_capped (- y)) as Hc.
    replace (- y * 100) with (- y * 100) in Hc by ring. lra.
  - (* x <= -1e21, 0 <= y < 1e21 *)
    pose proof (toFixed2_floor_nonneg (y * 100)) as Hn. nra.
  - (* -1e21 < x < 0, 1e21 <= y *)
    pose proof (toFixed2_floor_nonneg (- x * 100)) as Hn. nra.
  - (* 0 <= x < 1e21 <= y *)
    pose proof (toFixed2_floor_capped x) as Hc. lra.
  - (* both negative and small *)
    unfold JS.floor.
    assert (Zfloor (- y * 100 + 0.5) <= Zfloor (- x * 100 + 0.5))%Z as Hz
      by (apply Zfloor_le; lra).
    apply IZR_le in Hz. lra.
  - (* x negative, y not *)
    pose proof (toFixed2_floor_nonneg (- x * 100)) as Hn.
    pose proof (toFixed2_floor_nonneg (y * 100)) as Hm. nra.
  - (* both non-negative and small *)
    unfold JS.floor.
    assert (Zfloor (x * 100 + 0.5) <= Zfloor (y * 100 + 0.5))%Z as Hz
      by (apply Zfloor_le; lra).
    apply IZR_le in Hz. lra.
Qed.

(** ** The sort is stable *)

Lemma insert_keeps_ties (d : R) (a : KNN.scored) (l : list KNN.scored) :
  filter (at_distance d) (KNN.insert a l) = filter (at_distance d) (a :: l).
Proof.
  induction l as [| b l IH]; [reflexivity |].
  cbn [KNN.insert].
  destruct (Rle_dec (KNN.distance a - KNN.distance b) 0) as [Hle | Hgt];
    [reflexivity |].
  cbn [filter] in *. rewrite IH.
  unfold at_distance.
  destruct (Req_dec_T (KNN.distance a) d) as [Ha | Ha];
    destruct (Req_dec_T (KNN.distance b) d) as [Hb | Hb];
    try reflexivity.
  exfalso. lra.
Qed.

(** X1.  [distances.sort] is stable: the records at any one distance come
    out of the sort in the order they went in. *)
Theorem X1_sort_is_stable (d : R) (l : list KNN.scored) :
  filter (at_distance d) (KNN.sort l) = filter (at_distance d) l.
Proof.
  induction l as [| a l IH]; [reflexivity |].
  cbn [KNN.sort fold_right].
  change (fold_right KNN.insert [] l) with (KNN.sort l).
  rewrite insert_keeps_ties. cbn [filter]. rewrite IH. reflexivity.
Qed.

(** ** Training rows that agree on the yield *)


(** ** The regions of the crop selector *)

Ltac crop_cases :=
  unfold Predict.determineBestCrop, JS.gt, JS.lt;
  repeat match goal with
         | |- context [Rlt_dec ?a ?b] =>
             destruct (Rlt_dec a b); try (exfalso; lra); cbn [andb]
         end.

(** X7.  The region of each label once the earlier rules have taken their
    share: Sugarcane needs a rainfall of 1200 or more although its rule
    asks for more than 1000, and Soybean loses part of its rule to Corn,
    Wheat and Cotton. *)
Theorem X7_crop_regions (temp rain fert ph humid : R) :
  let crop := Predict.determineBestCrop temp rain fert ph humid in
  (crop = "Rice"%string <-> 30 < temp /\ 1200 < rain)
  /\ (crop = "Corn"%string <-> 25 < temp /\ 800 < rain < 1200)
  /\ (crop = "Sugarcane"%string <->
      (28 < temp <= 30 /\ 1200 <= rain) \/ (30 < temp /\ rain = 1200))
  /\ (crop = "Wheat"%string <-> temp < 25 /\ rain < 800)
  /\ (crop = "Cotton"%string <-> 25 < temp /\ rain < 700)
  /\ (crop = "Soybean"%string <->
      (temp < 25 /\ 800 <= rain < 1000)
      \/ (temp = 25 /\ 600 < rain < 1000)
      \/ (25 < temp < 28 /\ 700 <= rain <= 800)).
Proof.
  intros crop. subst crop.
  crop_cases;
    repeat split; intros;
    try discriminate; try reflexivity; try lra;
    repeat match goal with
           | H : _ \/ _ |- _ => destruct H
           | H : _ /\ _ |- _ => destruct H
           end;
    try lra;
    first [ left; lra | right; left; lra | right; right; lra | idtac ].
Qed.

(** X8.  The selector names one of the seven crops the generators draw
    from, and each of the seven is named for some temperature and
    rainfall. *)
Theorem X8_selector_names_the_generated_crops :
  (forall temp rain fert ph humid : R,
      In (Predict.determineBestCrop temp rain fert ph humid)
         (map name cropTypes))
  /\
  (forall c, In c cropTypes ->
     exists temp rain, forall fert ph humid : R,
       Predict.determineBestCrop temp rain fert ph humid = name c).
Proof.
  split.
  - intros temp rain fert ph humid. crop_cases; simpl; tauto.
  - unfold cropTypes. simpl.
    intros c [<- | [<- | [<- | [<- | [<- | [<- | [<- | []]]]]]]]; simpl.
    + exists 20, 500. intros. crop_cases; reflexivity.
    + exists 32, 1300. intros. crop_cases; reflexivity.
    + exists 26, 900. intros. crop_cases; reflexivity.
    + exists 30, 500. intros. crop_cases; reflexivity.
    + exists 29, 1300. intros. crop_cases; reflexivity.
    + exists 25, 700. intros. crop_cases; reflexivity.
    + exists 25, 1000. intros. crop_cases; reflexivity.
Qed.

(** ** Capping a value that lies inside the range *)

Lemma cap_inside (lo hi x : R) : lo <= x <= hi -> Rmax lo (Rmin hi x) = x.
Proof.
  intros [Hlo Hhi]. rewrite (Rmin_right hi x) by exact Hhi.
  apply Rmax_right. exact Hlo.
Qed.

(** ** Ranges of the generated records *)

Lemma round2_range (lo hi x : R) :
  hundredth lo -> hundredth hi -> lo <= x <= hi -> lo <= round2 x <= hi.
Proof.
  intros Hlo Hhi [Hx1 Hx2]. split.
  - rewrite <- (round2_fixes_hundredth lo Hlo).
    apply round2_monotone. exact Hx1.
  - rewrite <- (round2_fixes_hundredth hi Hhi).
    apply round2_monotone. exact Hx2.
Qed.

Lemma toFixed2_fixes_hundredth (z : Z) :
  (0 <= z < 10 ^ 23)%Z -> JS.toFixed2 (IZR z / 100) = IZR z / 100.
Proof.
  intros [Hlo Hhi]. unfold JS.toFixed2.
  apply IZR_le in Hlo. apply IZR_lt in Hhi.
  replace (IZR (10 ^ 23)) with (1e21 * 100) in Hhi by (simpl; lra).
  destruct (Rle_dec 1e21 (Rabs (IZR z / 100))) as [Hbig | _];
    [reflexivity |].
  destruct (Rlt_dec (IZR z / 100) 0) as [Hneg | _]; [lra |].
  unfold JS.floor. rewrite (Zfloor_eq z); lra.
Qed.

Lemma toFixed2_range (zlo zhi : Z) (x : R) :
  (0 <= zlo < 10 ^ 23)%Z -> (0 <= zhi < 10 ^ 23)%Z ->
  IZR zlo / 100 <= x <= IZR zhi / 100 ->
  IZR zlo / 100 <= JS.toFixed2 x <= IZR zhi / 100.
Proof.
  intros Hlo Hhi [Hx1 Hx2]. split.
  - rewrite <- (toFixed2_fixes_hundredth zlo Hlo).
    apply toFixed2_monotone. exact Hx1.
  - rewrite <- (toFixed2_fixes_hundredth zhi Hhi).
    apply toFixed2_monotone. exact Hx2.
Qed.

Lemma cropTypes_integers (c : crop_type) :
  In c cropTypes ->
  exists a b : Z,
    minYield c = IZR a /\ maxYield c = IZR b /\ (1000 <= a <= b)%Z /\
    (b <= 80000)%Z.
Proof.
  unfold cropTypes. simpl.
  intros [<- | [<- | [<- | [<- | [<- | [<- | [<- | []]]]]]]]; simpl;
    eexists; eexists; (split; [reflexivity |]); (split; [reflexivity |]);
    lia.
Qed.

Lemma base_factor_le (u1 u2 u3 u4 u5 : R) :
  (1 - Rabs (15 + u1 * 25 - 25) / 40
   + Rmin ((300 + u2 * 1500) / 1000) 1.5
   + Rmin ((50 + u3 * 250) / 200) 1.3
   + (1 - Rabs (5.5 + u4 * 2.5 - 6.8) / 3)
   + Rmin ((40 + u5 * 50) / 70) 1.2) / 5 <= 1.2.
Proof.
  pose proof (Rabs_pos (15 + u1 * 25 - 25)).
  pose proof (Rabs_pos (5.5 + u4 * 2.5 - 6.8)).
  pose proof (Rmin_r ((300 + u2 * 1500) / 1000) 1.5).
  pose proof (Rmin_r ((50 + u3 * 250) / 200) 1.3).
  pose proof (Rmin_r ((40 + u5 * 50) / 70) 1.2).
  lra.
Qed.

(** The yield before rounding, from the crop and the two factors. *)
Lemma yield_value_bounds (lo hi base var : R) :
  lo <= hi -> 0 <= base <= 1.2 -> 0.8 <= var <= 1.2 ->
  lo <= lo + (hi - lo) * base * var <= lo + 1.44 * (hi - lo).
Proof.
  intros Hspan [Hb0 Hb1] [Hv0 Hv1].
  assert (0 <= base * var) by (apply Rmult_le_pos; lra).
  assert (base * var <= 1.2 * 1.2) by (apply Rmult_le_compat; lra).
  rewrite Rmult_assoc. nra.
Qed.

Section SimpleRanges.

Variable oracle : nat -> R.
Hypothesis oracle_range : forall i, 0 <= oracle i < 1.

Lemma simple_iteration_in_range (s : Eff.state) :
  exists r s',
    Generate.iteration oracle s = (Eff.Return r, s') /\
    Eff.draws s' = (Eff.draws s + 7)%nat /\
    Eff.log s' = Eff.log s /\
    simple_record_in_range r.
Proof.
  unfold Generate.iteration.
  rewrite bind_random.
  destruct (pick_crop_defined (oracle (Eff.draws s)) (oracle_range _))
    as (c & -> & Hc).
  repeat (rewrite bind_random; cbn [Eff.draws Eff.log]).
  rewrite bind_defined_crop. cbv zeta.
  eexists. eexists. split; [reflexivity |].
  split; [cbn [Eff.draws]; lia |]. split; [reflexivity |].
  set (n := Eff.draws s).
  pose proof (oracle_range (S n)) as H1.
  pose proof (oracle_range (S (S n))) as H2.
  pose proof (oracle_range (S (S (S n)))) as H3.
  pose proof (oracle_range (S (S (S (S n))))) as H4.
  pose proof (oracle_range (S (S (S (S (S n)))))) as H5.
  pose proof (oracle_range (S (S (S (S (S (S n))))))) as H6.
  destruct (cropTypes_integers c Hc) as (a & b & Ha & Hb & Hab & Hb80).
  exists c. cbn [Generate.crop Generate.temperature Generate.rainfall
                   Generate.fertilizer Generate.soil_ph Generate.humidity
                   Generate.yield].
  split; [exact Hc |]. split; [reflexivity |].
  split; [apply (round2_range 15 40);
          [exists 1500%Z; lra | exists 4000%Z; lra | lra] |].
  split; [apply (round2_range 300 1800);
          [exists 30000%Z; lra | exists 180000%Z; lra | lra] |].
  split; [apply (round2_range 50 300);
          [exists 5000%Z; lra | exists 30000%Z; lra | lra] |].
  split; [apply (round2_range 5.5 8);
          [exists 550%Z; lra | exists 800%Z; lra | lra] |].
  split; [apply (round2_range 40 90);
          [exists 4000%Z; lra | exists 9000%Z; lra | lra] |].
  apply (round2_range (minYield c)
           (minYield c + 1.44 * (maxYield c - minYield c))).
  - exists (a * 100)%Z. rewrite Ha, mult_IZR. lra.
  - exists (a * 100 + 144 * (b - a))%Z.
    rewrite Ha, Hb, plus_IZR, !mult_IZR, minus_IZR. lra.
  - apply yield_value_bounds.
    + rewrite Ha, Hb. apply IZR_le. lia.
    + split; [apply base_factor_nonneg; assumption | apply base_factor_le].
    + lra.
Qed.

Lemma simple_generate_in_range (n : nat) (s : Eff.state) :
  exists records s',
    Generate.generate oracle n s = (Eff.Return records, s') /\
    Eff.draws s' = (Eff.draws s + 7 * n)%nat /\
    Eff.log s' = Eff.log s /\
    List.length records = n /\
    Forall simple_record_in_range records.
Proof.
  revert s. induction n as [| n IH]; intros s.
  - exists [], s. repeat split; [lia | constructor].
  - destruct (simple_iteration_in_range s)
      as (r & s1 & Hrun & Hdraws & Hlog & Hr).
    destruct (IH s1) as (rest & s2 & Hrest & Hdraws2 & Hlog2 & Hlen & Hall).
    exists (r :: rest), s2.
    cbn [Generate.generate]. unfold Eff.bind at 1. rewrite Hrun.
    unfold Eff.bind at 1. rewrite Hrest.
    repeat split.
    + lia.
    + congruence.
    + simpl. congruence.
    + constructor; assumption.
Qed.

End SimpleRanges.

(** X10.  For draws in [0, 1) the simple generator produces [n] records,
    each with a crop of the table, features inside the drawn ranges
    (temperature 15 to 40, rainfall 300 to 1800, fertilizer 50 to 300,
    soil pH 5.5 to 8, humidity 40 to 90) and a yield between the crop's
    [minYield] and [minYield + 1.44 * (maxYield - minYield)]; it uses seven
    draws per record and issues no external call. *)
Theorem X10_simple_generator_ranges
    (oracle : nat -> R) (n : nat) (s : Eff.state) :
  (forall i, 0 <= oracle i < 1) ->
  exists records s',
    Generate.generate oracle n s = (Eff.Return records, s') /\
    Eff.draws s' = (Eff.draws s + 7 * n)%nat /\
    Eff.log s' = Eff.log s /\
    List.length records = n /\
    Forall simple_record_in_range records.
Proof.
  intros Hrange. apply simple_generate_in_range. exact Hrange.
Qed.

Lemma X10_simple_generator_ranges_witness :
  exists records s',
    Generate.generate (fun _ => 0.25) targetRecords Eff.start
    = (Eff.Return records, s') /\
    Eff.draws s' = (Eff.draws Eff.start + 7 * targetRecords)%nat /\
    Eff.log s' = Eff.log Eff.start /\
    List.length records = targetRecords /\
    Forall simple_record_in_range records.
Proof.
  apply (X10_simple_generator_ranges (fun _ => 0.25) targetRecords Eff.start).
  intros i. lra.
Defined.

Lemma toFixed2_between_hundredths (lo hi x : R) :
  (exists z, (0 <= z < 10 ^ 23)%Z /\ lo = IZR z / 100) ->
  (exists z, (0 <= z < 10 ^ 23)%Z /\ hi = IZR z / 100) ->
  lo <= x <= hi -> lo <= JS.toFixed2 x <= hi.
Proof.
  intros (zlo & Hzlo & ->) (zhi & Hzhi & ->).
  apply toFixed2_range; assumption.
Qed.

Ltac small_hundredth z :=
  exists z; split; [split; [lia | reflexivity] | lra].

(** The engineered factor of the enhanced generator cannot cancel the
    base yield: [1 + engineeredFactor] is positive on the drawn ranges. *)
Lemma engineered_factor_positive (t r f ph n p k : R) :
  15 <= t <= 40 -> 300 <= r -> 50 <= f -> 5.5 <= ph ->
  50 <= n -> 20 <= p -> 30 <= k ->
  0 <= 1 + (0.1 * (t * r / 1000) + 0.05 * (ph * f / 100)
            - 0.02 * JS.pow2 (t / 10) + 0.03 * (n / (p + k + 1))).
Proof.
  intros Ht Hr Hf Hph Hn Hp Hk. unfold JS.pow2.
  assert (0 <= t * r) by (apply Rmult_le_pos; lra).
  assert (0 <= ph * f) by (apply Rmult_le_pos; lra).
  assert (t * t <= 40 * 40) by (apply Rmult_le_compat; lra).
  assert (0 <= n / (p + k + 1)).
  { unfold Rdiv. apply Rmult_le_pos; [lra |].
    apply Rlt_le, Rinv_0_lt_compat. lra. }
  lra.
Qed.

Lemma enhanced_yield_value_ge (lo hi base eng var : R) :
  lo <= hi -> 0 <= base -> 0 <= 1 + eng -> 0.8 <= var ->
  lo <= lo + (hi - lo) * base * (1 + eng) * var.
Proof.
  intros Hspan Hb He Hv.
  assert (0 <= (hi - lo) * base * (1 + eng) * var); [| lra].
  repeat apply Rmult_le_pos; lra.
Qed.

Section EnhancedRanges.

Variable w : GenerateEnhanced.world.
Hypothesis oracle_range : forall i, 0 <= GenerateEnhanced.oracle w i < 1.

Lemma enhanced_iteration_in_range (s : Eff.state) :
  let u := GenerateEnhanced.oracle w in
  let n := Eff.draws s in
  exists r s',
    GenerateEnhanced.iteration w s = (Eff.Return r, s') /\
    Eff.draws s' = (n + 10)%nat /\
    Eff.log s' = Eff.log s /\
    enhanced_record_in_range r /\
    GenerateEnhanced.temperature r = JS.toFixed2 (15 + u (S n) * 25) /\
    GenerateEnhanced.rainfall r = JS.toFixed2 (300 + u (S (S n)) * 1500) /\
    1000 <= GenerateEnhanced.yield r.
Proof.
  intros u n. unfold GenerateEnhanced.iteration.
  rewrite bind_random.
  destruct (pick_crop_defined (GenerateEnhanced.oracle w (Eff.draws s))
              (oracle_range _)) as (c & -> & Hc).
  repeat (rewrite bind_random; cbn [Eff.draws Eff.log]).
  rewrite bind_defined_crop. cbv zeta.
  fold n. fold u.
  pose proof (oracle_range (S n)) as H1.
  pose proof (oracle_range (S (S n))) as H2.
  pose proof (oracle_range (S (S (S n)))) as H3.
  pose proof (oracle_range (S (S (S (S n))))) as H4.
  pose proof (oracle_range (S (S (S (S (S n)))))) as H5.
  pose proof (oracle_range (S (S (S (S (S (S n))))))) as H6.
  pose proof (oracle_range (S (S (S (S (S (S (S n)))))))) as H7.
  pose proof (oracle_range (S (S (S (S (S (S (S (S n))))))))) as H8.
  pose proof (oracle_range (S (S (S (S (S (S (S (S (S n)))))))))) as H9.
  fold u in H1, H2, H3, H4, H5, H6, H7, H8, H9.
  rewrite !(cap_inside 10 45 (15 + u (S n) * 25)) by lra.
  rewrite !(cap_inside 100 2500 (300 + u (S (S n)) * 1500)) by lra.
  destruct (cropTypes_integers c Hc) as (a & b & Ha & Hb & Hab & Hb80).
  assert (minYield c
          <= JS.toFixed2
               (minYield c
                + (maxYield c - minYield c)
                  * ((1 - Rabs (15 + u (S n) * 25 - 25) / 40
                      + Rmin ((300 + u (S (S n)) * 1500) / 1000) 1.5
                      + Rmin ((50 + u (S (S (S n))) * 250) / 200) 1.3
                      + (1 - Rabs (5.5 + u (S (S (S (S n)))) * 2.5 - 6.8) / 3)
                      + Rmin ((40 + u (S (S (S (S (S n))))) * 50) / 70) 1.2)
                     / 5)
                  * (1 + (0.1 * ((15 + u (S n) * 25)
                                 * (300 + u (S (S n)) * 1500) / 1000)
                          + 0.05 * ((5.5 + u (S (S (S (S n)))) * 2.5)
                                    * (50 + u (S (S (S n))) * 250) / 100)
                          - 0.02 * JS.pow2 ((15 + u (S n) * 25) / 10)
                          + 0.03 * ((50 + u (S (S (S (S (S (S n)))))) * 150)
                                    / (20 + u (S (S (S (S (S (S (S n)))))))
                                            * 80
                                       + (30 + u (S (S (S (S (S (S
                                                 (S (S n)))))))) * 120)
                                       + 1))))
                  * (0.8 + u (S (S (S (S (S (S (S (S (S n))))))))) * 0.4)))
    as Hyield.
  { replace (minYield c) with (JS.toFixed2 (IZR (a * 100) / 100)) at 1
      by (rewrite toFixed2_fixes_hundredth;
          [rewrite Ha, mult_IZR; lra | split; [lia | ];
           apply Z.lt_le_trans with (8000001)%Z; [lia | discriminate]]).
    apply toFixed2_monotone.
    replace (IZR (a * 100) / 100) with (minYield c)
      by (rewrite Ha, mult_IZR; lra).
    apply enhanced_yield_value_ge.
    - rewrite Ha, Hb. apply IZR_le. lia.
    - apply base_factor_nonneg; assumption.
    - apply engineered_factor_positive; lra.
    - lra. }
  assert (1000 <= minYield c) as Hmin by (rewrite Ha; apply IZR_le; lia).
  eexists. eexists. split; [reflexivity |].
  split; [cbn [Eff.draws]; lia |]. split; [reflexivity |].
  cbn [GenerateEnhanced.temperature GenerateEnhanced.rainfall
         GenerateEnhanced.yield].
  split; [| split; [reflexivity | split; [reflexivity |]]].
  - exists c.
    cbn [GenerateEnhanced.crop GenerateEnhanced.temperature
           GenerateEnhanced.rainfall GenerateEnhanced.fertilizer
           GenerateEnhanced.soil_ph GenerateEnhanced.humidity
           GenerateEnhanced.nitrogen GenerateEnhanced.phosphorus
           GenerateEnhanced.potassium GenerateEnhanced.yield].
    split; [exact Hc |]. split; [reflexivity |].
    split; [apply toFixed2_between_hundredths;
            [small_hundredth 1500%Z | small_hundredth 4000%Z | lra] |].
    split; [apply toFixed2_between_hundredths;
            [small_hundredth 30000%Z | small_hundredth 180000%Z | lra] |].
    split; [apply toFixed2_between_hundredths;
            [small_hundredth 5000%Z | small_hundredth 30000%Z | lra] |].
    split; [apply toFixed2_between_hundredths;
            [small_hundredth 550%Z | small_hundredth 800%Z | lra] |].
    split; [apply toFixed2_between_hundredths;
            [small_hundredth 4000%Z | small_hundredth 9000%Z | lra] |].
    split; [apply toFixed2_between_hundredths;
            [small_hundredth 5000%Z | small_hundredth 20000%Z | lra] |].
    split; [apply toFixed2_between_hundredths;
            [small_hundredth 2000%Z | small_hundredth 10000%Z | lra] |].
    split; [apply toFixed2_between_hundredths;
            [small_hundredth 3000%Z | small_hundredth 15000%Z | lra] |].
    eapply Rle_trans; [exact Hyield | apply Rmax_r].
  - eapply Rle_trans; [exact Hmin |].
    eapply Rle_trans; [exact Hyield | apply Rmax_r].
Qed.

Lemma enhanced_generate_in_range (n : nat) (s : Eff.state) :
  exists records s',
    GenerateEnhanced.generate w n s = (Eff.Return records, s') /\
    Eff.draws s' = (Eff.draws s + 10 * n)%nat /\
    Eff.log s' = Eff.log s /\
    List.length records = n /\
    Forall enhanced_record_in_range records.
Proof.
  revert s. induction n as [| n IH]; intros s.
  - exists [], s. repeat split; [lia | constructor].
  - destruct (enhanced_iteration_in_range s)
      as (r & s1 & Hrun & Hdraws & Hlog & Hr & _).
    destruct (IH s1) as (rest & s2 & Hrest & Hdraws2 & Hlog2 & Hlen & Hall).
    exists (r :: rest), s2.
    cbn [GenerateEnhanced.generate]. unfold Eff.bind at 1. rewrite Hrun.
    unfold Eff.bind at 1. rewrite Hrest.
    repeat split.
    + lia.
    + congruence.
    + simpl. congruence.
    + constructor; assumption.
Qed.

End EnhancedRanges.

(** X11.  For draws in [0, 1) the enhanced generator produces [n]
    records, each with a crop of the table, features inside the drawn
    ranges (nitrogen 50 to 200, phosphorus 20 to 100, potassium 30 to 150
    beside the five of the simple generator) and a yield of at least the
    crop's [minYield]; it uses ten draws per record and issues no external
    call. *)
Theorem X11_enhanced_generator_ranges
    (w : GenerateEnhanced.world) (n : nat) (s : Eff.state) :
  (forall i, 0 <= GenerateEnhanced.oracle w i < 1) ->
  exists records s',
    GenerateEnhanced.generate w n s = (Eff.Return records, s') /\
    Eff.draws s' = (Eff.draws s + 10 * n)%nat /\
    Eff.log s' = Eff.log s /\
    List.length records = n /\
    Forall enhanced_record_in_range records.
Proof.
  intros Hrange. apply enhanced_generate_in_range. exact Hrange.
Qed.

Lemma X11_enhanced_generator_ranges_witness :
  exists records s',
    GenerateEnhanced.generate calm_generation targetRecords Eff.start
    = (Eff.Return records, s') /\
    Eff.draws s' = (Eff.draws Eff.start + 10 * targetRecords)%nat /\
    Eff.log s' = Eff.log Eff.start /\
    List.length records = targetRecords /\
    Forall enhanced_record_in_range records.
Proof.
  apply (X11_enhanced_generator_ranges calm_generation targetRecords
           Eff.start).
  intros i. simpl. lra.
Defined.

(** X12.  In the enhanced generator neither the capping of temperature and
    rainfall nor the clamp of the yield at 0 ever changes a value: the
    stored temperature and rainfall are the drawn ones rounded, and the
    yield is at least 1000. *)
Theorem X12_generator_caps_never_bind
    (w : GenerateEnhanced.world) (s : Eff.state) :
  (forall i, 0 <= GenerateEnhanced.oracle w i < 1) ->
  exists r s',
    GenerateEnhanced.iteration w s = (Eff.Return r, s') /\
    GenerateEnhanced.temperature r
    = JS.toFixed2 (15 + GenerateEnhanced.oracle w (S (Eff.draws s)) * 25) /\
    GenerateEnhanced.rainfall r
    = JS.toFixed2
        (300 + GenerateEnhanced.oracle w (S (S (Eff.draws s))) * 1500) /\
    1000 <= GenerateEnhanced.yield r.
Proof.
  intros Hrange.
  destruct (enhanced_iteration_in_range w Hrange s)
    as (r & s' & Hrun & _ & _ & _ & Ht & Hr & Hy).
  exists r, s'. auto.
Qed.

Lemma X12_generator_caps_never_bind_witness :
  exists r s',
    GenerateEnhanced.iteration calm_generation Eff.start
    = (Eff.Return r, s') /\
    GenerateEnhanced.temperature r
    = JS.toFixed2
        (15 + GenerateEnhanced.oracle calm_generation
                (S (Eff.draws Eff.start)) * 25) /\
    GenerateEnhanced.rainfall r
    = JS.toFixed2
        (300 + GenerateEnhanced.oracle calm_generation
                 (S (S (Eff.draws Eff.start))) * 1500) /\
    1000 <= GenerateEnhanced.yield r.
Proof.
  apply (X12_generator_caps_never_bind calm_generation Eff.start).
  intros i. simpl. lra.
Defined.

(** ** The batch loop of the generators *)

Lemma batch_offsets_below (turns i size n : nat) :
  Forall (fun o => (i <= o < n)%nat) (batch_offsets turns i size n).
Proof.
  revert i. induction turns as [| turns IH]; intros i; simpl.
  - constructor.
  - destruct (Nat.ltb i n) eqn:Hlt; [| constructor].
    apply Nat.ltb_lt in Hlt. constructor; [lia |].
    eapply Forall_impl; [| apply IH]. intros o Ho. simpl in Ho. lia.
Qed.

(** Taken in order, the batches are the records. *)
Lemma batches_cover {A : Type} (size : nat) (records : list A)
    (turns i : nat) :
  (0 < size)%nat ->
  (List.length records <= i + turns * size)%nat ->
  List.concat (map (batch_at size records)
            (batch_offsets turns i size (List.length records)))
  = skipn i records.
Proof.
  intros Hsize. revert i. induction turns as [| turns IH]; intros i Hlen.
  - simpl. symmetry. apply skipn_all2. lia.
  - simpl. destruct (Nat.ltb i (List.length records)) eqn:Hlt.
    + cbn [map List.concat]. rewrite IH by lia.
      unfold batch_at.
      replace (i + size)%nat with (size + i)%nat by lia.
      rewrite <- skipn_skipn. apply firstn_skipn.
    + apply Nat.ltb_ge in Hlt. simpl. symmetry. apply skipn_all2. exact Hlt.
Qed.

Lemma batch_at_length {A : Type} (size : nat) (records : list A) (i : nat) :
  (i < List.length records)%nat -> (0 < size)%nat ->
  (0 < List.length (batch_at size records i) <= size)%nat.
Proof.
  intros Hi Hsize. unfold batch_at.
  rewrite length_firstn, length_skipn. lia.
Qed.

Section BatchLoop.

Context {A : Type}.
Variable size : nat.
Variable insert : nat -> list A -> Eff.settled (Eff.reply unit).
Variable loop : nat -> nat -> list A -> Eff.M unit.

Hypothesis loop_done : forall i records, loop 0 i records = Eff.ret tt.
Hypothesis loop_turn : forall turns i records,
  loop (S turns) i records
  = if Nat.ltb i (List.length records) then
      (inserted <- Eff.await (Eff.InsertBatch i)
                     (insert i (batch_at size records i)) ;;
       Eff.throw_if inserted ;;;
       loop turns (i + size) records)
    else Eff.ret tt.

Lemma loop_all_succeed (records : list A) (turns i : nat) (s : Eff.state) :
  Forall (fun o => succeeds (insert o (batch_at size records o)))
    (batch_offsets turns i size (List.length records)) ->
  loop turns i records s
  = (Eff.Return tt,
     {| Eff.draws := Eff.draws s;
        Eff.log := Eff.log s
                   ++ map Eff.InsertBatch
                        (batch_offsets turns i size (List.length records)) |}).
Proof.
  revert i s. induction turns as [| turns IH]; intros i s Hall.
  - rewrite loop_done. simpl. rewrite app_nil_r. destruct s; reflexivity.
  - rewrite loop_turn. cbn [batch_offsets] in *.
    destruct (Nat.ltb i (List.length records)).
    + apply Forall_cons_iff in Hall.
      destruct Hall as [(r & Hr & Herr) Hrest].
      unfold Eff.bind at 1. unfold Eff.await. rewrite Hr.
      unfold Eff.bind at 1. unfold Eff.throw_if. rewrite Herr.
      cbn [Eff.ret]. rewrite (IH _ _ Hrest).
      cbn [Eff.draws Eff.log map]. rewrite <- app_assoc. reflexivity.
    + simpl. rewrite app_nil_r. destruct s; reflexivity.
Qed.

Lemma loop_first_failure (records : list A) (e : JS.thrown)
    (turns i : nat) (before after : list nat) (j : nat) (s : Eff.state) :
  batch_offsets turns i size (List.length records) = before ++ j :: after ->
  Forall (fun o => succeeds (insert o (batch_at size records o))) before ->
  fails (insert j (batch_at size records j)) e ->
  loop turns i records s
  = (Eff.Throw e,
     {| Eff.draws := Eff.draws s;
        Eff.log := Eff.log s ++ map Eff.InsertBatch (before ++ [j]) |}).
Proof.
  revert i before s.
  induction turns as [| turns IH]; intros i before s Hoff Hbefore Hfail.
  - simpl in Hoff. destruct before; discriminate.
  - rewrite loop_turn. cbn [batch_offsets] in Hoff.
    destruct (Nat.ltb i (List.length records));
      [| destruct before; discriminate].
    destruct before as [| o before].
    + injection Hoff as <- Hafter.
      unfold Eff.bind at 1. unfold Eff.await.
      destruct Hfail as [-> | (r & -> & Herr)].
      * reflexivity.
      * unfold Eff.bind at 1. unfold Eff.throw_if. rewrite Herr. reflexivity.
    + injection Hoff as <- Hrest.
      apply Forall_cons_iff in Hbefore.
      destruct Hbefore as [(r & Hr & Herr) Hbefore].
      unfold Eff.bind at 1. unfold Eff.await. rewrite Hr.
      unfold Eff.bind at 1. unfold Eff.throw_if. rewrite Herr.
      cbn [Eff.ret]. rewrite (IH _ _ _ Hrest Hbefore Hfail).
      cbn [Eff.draws Eff.log map app]. rewrite <- app_assoc. reflexivity.
Qed.

End BatchLoop.

(** With enough turns the loop visits the multiples of [size] below the
    number of records. *)
Lemma batch_offsets_exact (k turns i size : nat) :
  (0 < size)%nat -> (k <= turns)%nat ->
  batch_offsets turns i size (i + k * size)
  = map (fun j => (i + j * size)%nat) (seq 0 k).
Proof.
  intros Hsize. revert turns i.
  induction k as [| k IH]; intros turns i Hk.
  - destruct turns as [| turns]; [reflexivity |].
    cbn [batch_offsets Nat.mul seq map].
    replace (Nat.ltb i (i + 0)) with false
      by (symmetry; apply Nat.ltb_ge; lia).
    reflexivity.
  - destruct turns as [| turns]; [lia |].
    cbn [batch_offsets seq map].
    replace (Nat.ltb i (i + S k * size)) with true
      by (symmetry; apply Nat.ltb_lt; simpl; lia).
    f_equal; [simpl; lia |].
    replace (i + S k * size)%nat with (i + size + k * size)%nat
      by (simpl; lia).
    rewrite IH by lia.
    rewrite <- seq_shift, map_map.
    apply map_ext. intros j. simpl. lia.
Qed.

Lemma offsets_of_target :
  batch_offsets targetRecords 0 1000 targetRecords
  = [0; 1000; 2000; 3000; 4000]%nat.
Proof.
  replace targetRecords with (0 + 5 * 1000)%nat at 2 by reflexivity.
  rewrite batch_offsets_exact; [reflexivity | lia | unfold targetRecords; lia].
Qed.

(** *** The loops of the two generators are that loop *)

Lemma enhanced_loop_turn (w : GenerateEnhanced.world) (turns i : nat)
    (records : list GenerateEnhanced.record) :
  GenerateEnhanced.insert_batches w (S turns) i records
  = if Nat.ltb i (List.length records) then
      (inserted <- Eff.await (Eff.InsertBatch i)
                     (GenerateEnhanced.insert_batch w i
                        (batch_at GenerateEnhanced.batchSize records i)) ;;
       Eff.throw_if inserted ;;;
       GenerateEnhanced.insert_batches w turns
         (i + GenerateEnhanced.batchSize) records)
    else Eff.ret tt.
Proof. reflexivity. Qed.

Lemma simple_loop_turn (w : SimpleGeneratorHandler.world) (turns i : nat)
    (records : list Generate.record) :
  SimpleGeneratorHandler.insert_batches w (S turns) i records
  = if Nat.ltb i (List.length records) then
      (inserted <- Eff.await (Eff.InsertBatch i)
                     (SimpleGeneratorHandler.insert_batch w i
                        (batch_at SimpleGeneratorHandler.batchSize records i)) ;;
       Eff.throw_if inserted ;;;
       SimpleGeneratorHandler.insert_batches w turns
         (i + SimpleGeneratorHandler.batchSize) records)
    else Eff.ret tt.
Proof. reflexivity. Qed.

(** X13.  When every insert succeeds, the batch loop of either generator
    issues one insert per offset 0, 1000, 2000, ... below the number of
    records and nothing else; the batches it hands over have between 1 and
    1000 rows and, taken in order, are exactly the records. *)
Theorem X13_batches_partition_the_records
    (we : GenerateEnhanced.world) (ws : SimpleGeneratorHandler.world)
    (enhanced : list GenerateEnhanced.record) (simple : list Generate.record)
    (s : Eff.state) :
  let offsets_e :=
    batch_offsets (List.length enhanced) 0 1000 (List.length enhanced) in
  let offsets_s :=
    batch_offsets (List.length simple) 0 1000 (List.length simple) in
  Forall (fun o => succeeds (GenerateEnhanced.insert_batch we o
                               (batch_at 1000 enhanced o))) offsets_e ->
  Forall (fun o => succeeds (SimpleGeneratorHandler.insert_batch ws o
                               (batch_at 1000 simple o))) offsets_s ->
  GenerateEnhanced.insert_batches we (List.length enhanced) 0 enhanced s
  = (Eff.Return tt,
     {| Eff.draws := Eff.draws s;
        Eff.log := Eff.log s ++ map Eff.InsertBatch offsets_e |})
  /\ SimpleGeneratorHandler.insert_batches ws (List.length simple) 0 simple s
     = (Eff.Return tt,
        {| Eff.draws := Eff.draws s;
           Eff.log := Eff.log s ++ map Eff.InsertBatch offsets_s |})
  /\ List.concat (map (batch_at 1000 enhanced) offsets_e) = enhanced
  /\ List.concat (map (batch_at 1000 simple) offsets_s) = simple
  /\ Forall (fun o => (0 < List.length (batch_at 1000 enhanced o) <= 1000)%nat)
       offsets_e
  /\ Forall (fun o => (0 < List.length (batch_at 1000 simple o) <= 1000)%nat)
       offsets_s.
Proof.
  intros offsets_e offsets_s He Hs.
  split; [| split; [| split; [| split; [| split]]]].
  - apply (loop_all_succeed GenerateEnhanced.batchSize
             (GenerateEnhanced.insert_batch we)
             (GenerateEnhanced.insert_batches we)
             (fun _ _ => eq_refl) (enhanced_loop_turn we)).
    exact He.
  - apply (loop_all_succeed SimpleGeneratorHandler.batchSize
             (SimpleGeneratorHandler.insert_batch ws)
             (SimpleGeneratorHandler.insert_batches ws)
             (fun _ _ => eq_refl) (simple_loop_turn ws)).
    exact Hs.
  - unfold offsets_e. rewrite batches_cover by lia. reflexivity.
  - unfold offsets_s. rewrite batches_cover by lia. reflexivity.
  - eapply Forall_impl; [| apply batch_offsets_below].
    intros o Ho. simpl in Ho. apply batch_at_length; lia.
  - eapply Forall_impl; [| apply batch_offsets_below].
    intros o Ho. simpl in Ho. apply batch_at_length; lia.
Qed.

(** ** Whole runs of the enhanced generator's handler *)

Section EnhancedGeneratorRuns.

Variable w : GenerateEnhanced.world.
Hypothesis not_preflight : GenerateEnhanced.method w <> "OPTIONS"%string.
Hypothesis oracle_range : forall i, 0 <= GenerateEnhanced.oracle w i < 1.
Hypothesis client_created : GenerateEnhanced.create_client w = Eff.Resolved tt.

(** The state once the records are generated. *)
Lemma enhanced_run_generates :
  exists records s2,
    GenerateEnhanced.generate w targetRecords
      {| Eff.draws := Eff.draws Eff.start;
         Eff.log := Eff.log Eff.start ++ [Eff.CreateClient] |}
    = (Eff.Return records, s2) /\
    Eff.draws s2 = (10 * targetRecords)%nat /\
    Eff.log s2 = [Eff.CreateClient] /\
    List.length records = targetRecords.
Proof.
  destruct (enhanced_generate_in_range w oracle_range targetRecords
              {| Eff.draws := Eff.draws Eff.start;
                 Eff.log := Eff.log Eff.start ++ [Eff.CreateClient] |})
    as (records & s2 & Hrun & Hdraws & Hlog & Hlen & _).
  exists records, s2. repeat split; assumption.
Qed.

Lemma enhanced_run_first_failure
    (e : JS.thrown) (before after : list nat) (j : nat) :
  [0; 1000; 2000; 3000; 4000]%nat = before ++ j :: after ->
  (forall o batch, In o before ->
     succeeds (GenerateEnhanced.insert_batch w o batch)) ->
  (forall batch, fails (GenerateEnhanced.insert_batch w j batch) e) ->
  GenerateEnhanced.handler w Eff.start
  = (Eff.Return {| status := 500; body := ErrorJson (error_text e) |},
     {| Eff.draws := 10 * targetRecords;
        Eff.log := Eff.CreateClient
                   :: map Eff.InsertBatch (before ++ [j]) |}).
Proof.
  intros Hoff Hbefore Hfail.
  unfold GenerateEnhanced.handler.
  apply String.eqb_neq in not_preflight. rewrite not_preflight.
  unfold Eff.try_catch, GenerateEnhanced.try_block.
  unfold Eff.bind at 1. unfold Eff.await at 1. rewrite client_created.
  destruct enhanced_run_generates
    as (records & s2 & Hrun & Hdraws & Hlog & Hlen).
  unfold Eff.bind at 1. rewrite Hrun.
  unfold Eff.bind at 1.
  rewrite (loop_first_failure GenerateEnhanced.batchSize
             (GenerateEnhanced.insert_batch w)
             (GenerateEnhanced.insert_batches w)
             (enhanced_loop_turn w)
             records e (List.length records) 0 before after j s2).
  - unfold catch_block, Eff.ret. rewrite Hdraws, Hlog. reflexivity.
  - rewrite Hlen. unfold GenerateEnhanced.batchSize.
    rewrite offsets_of_target. exact Hoff.
  - apply Forall_forall. intros o Ho. apply Hbefore. exact Ho.
  - apply Hfail.
Qed.

Lemma enhanced_run_success :
  (forall o batch, succeeds (GenerateEnhanced.insert_batch w o batch)) ->
  (forall lr rf, exists r,
      GenerateEnhanced.insert_metrics w lr rf = Eff.Resolved r) ->
  exists lr rf,
    GenerateEnhanced.handler w Eff.start
    = (Eff.Return (ok (GenerationJson true targetRecords lr rf)),
       {| Eff.draws := 10 * targetRecords + 6;
          Eff.log := Eff.CreateClient
                     :: map Eff.InsertBatch [0; 1000; 2000; 3000; 4000]%nat
                     ++ [Eff.InsertMetrics] |}) /\
    0.78 <= r2_score lr < 0.85 /\
    0.88 <= r2_score rf < 0.93 /\
    r2_score lr < r2_score rf.
Proof.
  intros Hbatches Hmetrics.
  unfold GenerateEnhanced.handler.
  apply String.eqb_neq in not_preflight. rewrite not_preflight.
  unfold Eff.try_catch, GenerateEnhanced.try_block.
  unfold Eff.bind at 1. unfold Eff.await at 1. rewrite client_created.
  destruct enhanced_run_generates
    as (records & s2 & Hrun & Hdraws & Hlog & Hlen).
  unfold Eff.bind at 1. rewrite Hrun.
  unfold Eff.bind at 1.
  rewrite (loop_all_succeed GenerateEnhanced.batchSize
             (GenerateEnhanced.insert_batch w)
             (GenerateEnhanced.insert_batches w)
             (fun _ _ => eq_refl) (enhanced_loop_turn w)
             records (List.length records) 0 s2)
    by (apply Forall_forall; intros o _; apply Hbatches).
  rewrite Hlen. unfold GenerateEnhanced.batchSize.
  rewrite offsets_of_target, Hdraws, Hlog.
  repeat (rewrite bind_random; cbn [Eff.draws Eff.log]).
  unfold Eff.bind at 1. unfold Eff.await at 1.
  match goal with
  | |- context [GenerateEnhanced.insert_metrics w ?lr ?rf] =>
      destruct (Hmetrics lr rf) as (r & ->);
      exists lr, rf
  end.
  cbn [r2_score Eff.draws Eff.log Eff.ret].
  pose proof (oracle_range (10 * targetRecords)) as H1.
  pose proof (oracle_range (S (S (S (10 * targetRecords))))) as H4.
  split; [| cbn [r2_score]; lra].
  f_equal.
Qed.

End EnhancedGeneratorRuns.

(** X14.  In the enhanced generator's handler the first insert that fails
    ends the run: the batches before it stay inserted, no later batch and
    no metrics row is sent, and the answer is 500 with the text of the
    [catch] block. *)
Theorem X14_first_failed_batch_ends_the_run
    (w : GenerateEnhanced.world) (e : JS.thrown)
    (before after : list nat) (j : nat) :
  GenerateEnhanced.method w <> "OPTIONS"%string ->
  (forall i, 0 <= GenerateEnhanced.oracle w i < 1) ->
  GenerateEnhanced.create_client w = Eff.Resolved tt ->
  [0; 1000; 2000; 3000; 4000]%nat = before ++ j :: after ->
  (forall o batch, In o before ->
     succeeds (GenerateEnhanced.insert_batch w o batch)) ->
  (forall batch, fails (GenerateEnhanced.insert_batch w j batch) e) ->
  GenerateEnhanced.handler w Eff.start
  = (Eff.Return {| status := 500; body := ErrorJson (error_text e) |},
     {| Eff.draws := 10 * targetRecords;
        Eff.log := Eff.CreateClient
                   :: map Eff.InsertBatch (before ++ [j]) |}).
Proof.
  intros Hm Hr Hc. apply enhanced_run_first_failure; assumption.
Qed.

Lemma X14_first_failed_batch_ends_the_run_witness :
  GenerateEnhanced.handler third_batch_refused Eff.start
  = (Eff.Return {| status := 500; body := ErrorJson "Unknown error" |},
     {| Eff.draws := 10 * targetRecords;
        Eff.log := [Eff.CreateClient; Eff.InsertBatch 0;
                    Eff.InsertBatch 1000; Eff.InsertBatch 2000] |}).
Proof.
  apply (X14_first_failed_batch_ends_the_run third_batch_refused
           (JS.PlainObject "statement timeout")
           [0; 1000]%nat [3000; 4000]%nat 2000%nat).
  - discriminate.
  - intros i. simpl. lra.
  - reflexivity.
  - reflexivity.
  - intros o batch [<- | [<- | []]]; eexists; split; reflexivity.
  - intros batch. right. eexists. split; reflexivity.
Defined.

(** X15.  When every batch insert succeeds and the metrics insert settles,
    with or without an error, the enhanced generator's handler answers 200
    with [success] and 5000 records after 50006 draws, having issued the
    five batch inserts and the metrics insert once each; the Random Forest
    R2 it makes up (0.88 to 0.93) is always above the Linear Regression one
    (0.78 to 0.85). *)
Theorem X15_enhanced_generator_success (w : GenerateEnhanced.world) :
  GenerateEnhanced.method w <> "OPTIONS"%string ->
  (forall i, 0 <= GenerateEnhanced.oracle w i < 1) ->
  GenerateEnhanced.create_client w = Eff.Resolved tt ->
  (forall o batch, succeeds (GenerateEnhanced.insert_batch w o batch)) ->
  (forall lr rf, exists r,
      GenerateEnhanced.insert_metrics w lr rf = Eff.Resolved r) ->
  exists lr rf,
    GenerateEnhanced.handler w Eff.start
    = (Eff.Return (ok (GenerationJson true targetRecords lr rf)),
       {| Eff.draws := 10 * targetRecords + 6;
          Eff.log := Eff.CreateClient
                     :: map Eff.InsertBatch [0; 1000; 2000; 3000; 4000]%nat
                     ++ [Eff.InsertMetrics] |}) /\
    0.78 <= r2_score lr < 0.85 /\
    0.88 <= r2_score rf < 0.93 /\
    r2_score lr < r2_score rf.
Proof.
  intros Hm Hr Hc. apply enhanced_run_success; assumption.
Qed.

Lemma X15_enhanced_generator_success_witness :
  exists lr rf,
    GenerateEnhanced.handler calm_generation Eff.start
    = (Eff.Return (ok (GenerationJson true targetRecords lr rf)),
       {| Eff.draws := 10 * targetRecords + 6;
          Eff.log := Eff.CreateClient
                     :: map Eff.InsertBatch [0; 1000; 2000; 3000; 4000]%nat
                     ++ [Eff.InsertMetrics] |}) /\
    0.78 <= r2_score lr < 0.85 /\
    0.88 <= r2_score rf < 0.93 /\
    r2_score lr < r2_score rf.
Proof.
  apply (X15_enhanced_generator_success calm_generation).
  - discriminate.
  - intros i. simpl. lra.
  - reflexivity.
  - intros o batch. eexists. split; reflexivity.
  - intros lr rf. eexists. reflexivity.
Defined.

(** ** A whole run of the simple generator's handler *)

(** X16.  When every batch insert succeeds and the metrics insert settles,
    the simple generator's handler answers 200 with [success] and 5000
    records after 35006 draws, having issued the five batch inserts and the
    metrics insert once each; the R2 values it makes up lie in 0.75 to 0.85
    for Linear Regression and in 0.82 to 0.92 for Random Forest. *)
Theorem X16_simple_generator_success (w : SimpleGeneratorHandler.world) :
  SimpleGeneratorHandler.method w <> "OPTIONS"%string ->
  (forall i, 0 <= SimpleGeneratorHandler.oracle w i < 1) ->
  SimpleGeneratorHandler.create_client w = Eff.Resolved tt ->
  (forall o batch, succeeds (SimpleGeneratorHandler.insert_batch w o batch)) ->
  (forall lr rf, exists r,
      SimpleGeneratorHandler.insert_metrics w lr rf = Eff.Resolved r) ->
  exists lr rf,
    SimpleGeneratorHandler.handler w Eff.start
    = (Eff.Return (ok (GenerationJson true targetRecords lr rf)),
       {| Eff.draws := 7 * targetRecords + 6;
          Eff.log := Eff.CreateClient
                     :: map Eff.InsertBatch [0; 1000; 2000; 3000; 4000]%nat
                     ++ [Eff.InsertMetrics] |}) /\
    0.75 <= r2_score lr < 0.85 /\
    0.82 <= r2_score rf < 0.92.
Proof.
  intros Hmethod Hrange Hclient Hbatches Hmetrics.
  unfold SimpleGeneratorHandler.handler.
  apply String.eqb_neq in Hmethod. rewrite Hmethod.
  unfold Eff.try_catch, SimpleGeneratorHandler.try_block.
  unfold Eff.bind at 1. unfold Eff.await at 1. rewrite Hclient.
  destruct (simple_generate_in_range (SimpleGeneratorHandler.oracle w)
              Hrange targetRecords
              {| Eff.draws := Eff.draws Eff.start;
                 Eff.log := Eff.log Eff.start ++ [Eff.CreateClient] |})
    as (records & s2 & Hrun & Hdraws & Hlog & Hlen & _).
  unfold Eff.bind at 1. rewrite Hrun.
  unfold Eff.bind at 1.
  rewrite (loop_all_succeed SimpleGeneratorHandler.batchSize
             (SimpleGeneratorHandler.insert_batch w)
             (SimpleGeneratorHandler.insert_batches w)
             (fun _ _ => eq_refl) (simple_loop_turn w)
             records (List.length records) 0 s2)
    by (apply Forall_forall; intros o _; apply Hbatches).
  rewrite Hlen. unfold SimpleGeneratorHandler.batchSize.
  rewrite offsets_of_target, Hdraws, Hlog.
  repeat (rewrite bind_random; cbn [Eff.draws Eff.log]).
  unfold Eff.bind at 1. unfold Eff.await at 1.
  match goal with
  | |- context [SimpleGeneratorHandler.insert_metrics w ?lr ?rf] =>
      destruct (Hmetrics lr rf) as (r & ->);
      exists lr, rf
  end.
  cbn [r2_score Eff.draws Eff.log Eff.ret Eff.start].
  pose proof (Hrange (0 + 7 * targetRecords)%nat) as H1.
  pose proof (Hrange (S (S (S (0 + 7 * targetRecords))))) as H4.
  split; [| cbn [r2_score]; lra].
  f_equal.
Qed.

Lemma X16_simple_generator_success_witness :
  exists lr rf,
    SimpleGeneratorHandler.handler calm_simple_generation Eff.start
    = (Eff.Return (ok (GenerationJson true targetRecords lr rf)),
       {| Eff.draws := 7 * targetRecords + 6;
          Eff.log := Eff.CreateClient
                     :: map Eff.InsertBatch [0; 1000; 2000; 3000; 4000]%nat
                     ++ [Eff.InsertMetrics] |}) /\
    0.75 <= r2_score lr < 0.85 /\
    0.82 <= r2_score rf < 0.92.
Proof.
  apply (X16_simple_generator_success calm_simple_generation).
  - discriminate.
  - intros i. simpl. lra.
  - reflexivity.
  - intros o batch. eexists. split; reflexivity.
  - intros lr rf. eexists. reflexivity.
Defined.

(** ** What the prediction handlers store, and when *)

(** X18.  A prediction handler sends the insert into [predictions] only
    after the client was created, the body was read, the training rows came
    back without an error and the metrics query settled: a request that
    fails earlier stores nothing.  Both prediction handlers. *)
Theorem X18_prediction_stored_only_after_fetch
    (w : Predict.world) (we : EnhancedHandler.world) :
  (In Eff.InsertPrediction (Eff.log (snd (Predict.handler w Eff.start))) ->
   Predict.method w <> "OPTIONS"%string /\
   Predict.create_client w = Eff.Resolved tt /\
   exists q fetched answered,
     Predict.request_json w = Eff.Resolved q /\
     Predict.select_training w = Eff.Resolved fetched /\
     Eff.error fetched = None /\
     Predict.select_metrics w = Eff.Resolved answered)
  /\
  (In Eff.InsertPrediction
      (Eff.log (snd (EnhancedHandler.handler we Eff.start))) ->
   EnhancedHandler.method we <> "OPTIONS"%string /\
   EnhancedHandler.create_client we = Eff.Resolved tt /\
   exists q fetched answered,
     EnhancedHandler.request_json we = Eff.Resolved q /\
     EnhancedHandler.select_training we = Eff.Resolved fetched /\
     Eff.error fetched = None /\
     EnhancedHandler.select_metrics we = Eff.Resolved answered).
Proof.
  split.
  - unfold Predict.handler.
    destruct (String.eqb (Predict.method w) "OPTIONS") eqn:Hm;
      [intros [] |].
    apply String.eqb_neq in Hm.
    unfold Eff.try_catch, Predict.try_block, Eff.bind, Eff.await,
      Eff.throw_if, catch_block.
    destruct (Predict.create_client w) as [e | []]; cbn;
      [intuition discriminate |].
    destruct (Predict.request_json w) as [e | q]; cbn;
      [intuition discriminate |].
    destruct (Predict.select_training w) as [e | fetched]; cbn;
      [intuition discriminate |].
    destruct (Eff.error fetched) as [e |] eqn:Herr; cbn;
      [intuition discriminate |].
    destruct (Predict.select_metrics w) as [e | answered]; cbn;
      [intuition discriminate |].
    intros _. split; [exact Hm |]. split; [reflexivity |].
    exists q, fetched, answered. auto.
  - unfold EnhancedHandler.handler.
    destruct (String.eqb (EnhancedHandler.method we) "OPTIONS") eqn:Hm;
      [intros [] |].
    apply String.eqb_neq in Hm.
    unfold Eff.try_catch, EnhancedHandler.try_block, Eff.bind, Eff.await,
      Eff.throw_if, EnhancedHandler.catch_block.
    destruct (EnhancedHandler.create_client we) as [e | []]; cbn;
      [intuition discriminate |].
    destruct (EnhancedHandler.request_json we) as [e | q]; cbn;
      [intuition discriminate |].
    destruct (EnhancedHandler.select_training we) as [e | fetched]; cbn;
      [intuition discriminate |].
    destruct (Eff.error fetched) as [e |] eqn:Herr; cbn;
      [intuition discriminate |].
    destruct (EnhancedHandler.select_metrics we) as [e | answered]; cbn;
      [intuition discriminate |].
    intros _. split; [exact Hm |]. split; [reflexivity |].
    exists q, fetched, answered. auto.
Qed.

Lemma X18_prediction_stored_only_after_fetch_witness :
  In Eff.InsertPrediction
    (Eff.log (snd (Predict.handler calm_prediction Eff.start)))
  /\ Predict.create_client calm_prediction = Eff.Resolved tt.
Proof.
  assert (In Eff.InsertPrediction
            (Eff.log (snd (Predict.handler calm_prediction Eff.start))))
    as Hin.
  { change (In Eff.InsertPrediction
              [Eff.CreateClient; Eff.ReadJson; Eff.SelectTraining;
               Eff.SelectMetrics; Eff.InsertPrediction]).
    simpl. tauto. }
  split; [exact Hin |].
  apply (proj1 (X18_prediction_stored_only_after_fetch calm_prediction
                  calm_enhanced_prediction) Hin).
Defined.

(** ** A whole run of a prediction handler *)

(** X19.  When every call succeeds the simple prediction handler answers
    200 with the linear estimate, the nearest-neighbour estimate over the
    fetched rows and the crop of the request, after five calls in a fixed
    order.  The model it names best is "Random Forest" exactly when the
    Random Forest row's R2 exceeds the Linear Regression row's, a missing
    row counting as 0; with no metrics it is "Linear Regression". *)
Theorem X19_prediction_success
    (w : Predict.world) (q : Predict.input)
    (fetched : Eff.reply (list row))
    (answered : Eff.reply (list model_metric)) :
  Predict.method w <> "OPTIONS"%string ->
  Predict.create_client w = Eff.Resolved tt ->
  Predict.request_json w = Eff.Resolved q ->
  Predict.select_training w = Eff.Resolved fetched ->
  Eff.error fetched = None ->
  Predict.select_metrics w = Eff.Resolved answered ->
  (forall p, succeeds (Predict.insert_prediction w p)) ->
  let lrm := Predict.find_metric (Eff.data answered) "Linear Regression" in
  let rfm := Predict.find_metric (Eff.data answered) "Random Forest" in
  exists best,
    Predict.handler w Eff.start
    = (Eff.Return
         (ok (PredictionJson
                (Predict.determineBestCrop
                   (Predict.in_temperature q) (Predict.in_rainfall q)
                   (Predict.in_fertilizer q) (Predict.in_soil_ph q)
                   (Predict.in_humidity q))
                (Predict.predictLinearRegression
                   (Predict.in_temperature q) (Predict.in_rainfall q)
                   (Predict.in_fertilizer q) (Predict.in_soil_ph q)
                   (Predict.in_humidity q))
                (Predict.predictRandomForest
                   (Predict.in_temperature q) (Predict.in_rainfall q)
                   (Predict.in_fertilizer q) (Predict.in_soil_ph q)
                   (Predict.in_humidity q) (Eff.data fetched))
                best lrm rfm)),
       {| Eff.draws := 0;
          Eff.log := [Eff.CreateClient; Eff.ReadJson; Eff.SelectTraining;
                      Eff.SelectMetrics; Eff.InsertPrediction] |})
    /\ (best = "Random Forest"%string <->
        Predict.r2_or_0 lrm < Predict.r2_or_0 rfm)
    /\ (best = "Linear Regression"%string <->
        Predict.r2_or_0 rfm <= Predict.r2_or_0 lrm)
    /\ (Eff.data answered = None -> best = "Linear Regression"%string).
Proof.
  intros Hmethod Hc Hj Hs Herr Hm Hi lrm rfm.
  exists (if Predict.r2_or_0 rfm >? Predict.r2_or_0 lrm
          then "Random Forest"%string else "Linear Regression"%string).
  split.
  - unfold Predict.handler.
    apply String.eqb_neq in Hmethod. rewrite Hmethod.
    unfold Predict.try_block.
    unfold Eff.try_catch, Eff.bind, Eff.await, Eff.throw_if.
    rewrite Hc, Hj, Hs, Herr. cbn [Eff.ret]. rewrite Hm.
    match goal with
    | |- context [Predict.insert_prediction w ?p] =>
        destruct (Hi p) as (inserted & -> & ->)
    end.
    reflexivity.
  - unfold JS.gt, JS.lt.
    destruct (Rlt_dec (Predict.r2_or_0 lrm) (Predict.r2_or_0 rfm))
      as [Hlt | Hge].
    + repeat split; intros; try discriminate; try reflexivity; try lra.
      exfalso.
      assert (rfm = None /\ lrm = None) as [Hr Hl].
      { unfold rfm, lrm. rewrite H. split; reflexivity. }
      rewrite Hr, Hl in Hlt. simpl in Hlt. lra.
    + repeat split; intros; try discriminate; try reflexivity; try lra.
Qed.

Lemma X19_prediction_success_witness :
  exists best,
    fst (Predict.handler calm_prediction Eff.start)
    = Eff.Return
        (ok (PredictionJson
               (Predict.determineBestCrop 20 500 100 6.5 60)
               (Predict.predictLinearRegression 20 500 100 6.5 60)
               (Predict.predictRandomForest 20 500 100 6.5 60
                  (Some [base_row 21 510 90 6.4 55 3000]))
               best
               (Predict.find_metric (Some sample_metrics) "Linear Regression")
               (Predict.find_metric (Some sample_metrics) "Random Forest"))).
Proof.
  destruct (X19_prediction_success calm_prediction
              {| Predict.in_temperature := 20; Predict.in_rainfall := 500;
                 Predict.in_fertilizer := 100; Predict.in_soil_ph := 6.5;
                 Predict.in_humidity := 60 |}
              {| Eff.data := Some [base_row 21 510 90 6.4 55 3000];
                 Eff.error := None |}
              {| Eff.data := Some sample_metrics; Eff.error := None |})
    as (best & Hrun & _).
  - discriminate.
  - reflexivity.
  - reflexivity.
  - reflexivity.
  - reflexivity.
  - reflexivity.
  - intros p. eexists. split; reflexivity.
  - exists best. rewrite Hrun. reflexivity.
Defined.

(** ** Rows beyond the ten nearest *)






(** * The estimators in binary64 *)

(** ** The order of binary64 numbers

    The primitive comparisons are those of [SpecFloat], which compares
    sign, exponent and mantissa; from there: [<=?] is reflexive on numbers,
    transitive, and total on numbers. *)

Section FloatOrder.
Import PrimFloat SpecFloat FloatAxioms.
Local Open Scope float_scope.

Ltac compare_cases :=
  repeat match goal with
  | H : context [Z.compare ?a ?b] |- _ => destruct (Z.compare_spec a b)
  | |- context [Z.compare ?a ?b] => destruct (Z.compare_spec a b)
  | H : context [Pos.compare_cont Eq ?a ?b] |- _ =>
      change (Pos.compare_cont Eq a b) with (Pos.compare a b) in *;
      destruct (Pos.compare_spec a b)
  | |- context [Pos.compare_cont Eq ?a ?b] =>
      change (Pos.compare_cont Eq a b) with (Pos.compare a b) in *;
      destruct (Pos.compare_spec a b)
  end.

Lemma SFcompare_refl (x : spec_float) :
  x <> S754_nan -> SFcompare x x = Some Eq.
Proof.
  destruct x as [s | s | | s m e]; intros H; try congruence.
  - reflexivity.
  - destruct s; reflexivity.
  - simpl. rewrite Z.compare_refl.
    change (Pos.compare_cont Eq m m) with (Pos.compare m m).
    rewrite Pos.compare_refl. destruct s; reflexivity.
Qed.

Lemma SFcompare_antisym (x y : spec_float) (c : comparison) :
  SFcompare x y = Some c -> SFcompare y x = Some (CompOpp c).
Proof.
  destruct x as [s1 | s1 | | s1 m1 e1], y as [s2 | s2 | | s2 m2 e2];
    simpl; try discriminate;
    try (intros H; injection H as <-);
    try (destruct s1; reflexivity); try (destruct s2; reflexivity);
    try (destruct s1, s2; reflexivity).
  destruct s1, s2; try reflexivity;
    compare_cases; simpl; try reflexivity; try lia;
    subst; try lia.
Qed.

Lemma SFleb_trans (x y z : spec_float) :
  SFleb x y = true -> SFleb y z = true -> SFleb x z = true.
Proof.
  unfold SFleb.
  destruct x as [s1 | s1 | | s1 m1 e1], y as [s2 | s2 | | s2 m2 e2],
    z as [s3 | s3 | | s3 m3 e3];
    simpl; try discriminate; try reflexivity;
    try (destruct s1; simpl; try discriminate; try reflexivity; fail);
    try (destruct s2; simpl; try discriminate; try reflexivity; fail);
    try (destruct s3; simpl; try discriminate; try reflexivity; fail);
    try (destruct s1, s2; simpl; try discriminate; try reflexivity; fail);
    try (destruct s1, s3; simpl; try discriminate; try reflexivity; fail);
    try (destruct s2, s3; simpl; try discriminate; try reflexivity; fail);
    try (destruct s1, s2, s3; simpl; try discriminate; try reflexivity; fail).
  all: destruct s1, s2, s3; simpl; try discriminate; try reflexivity;
    compare_cases; simpl; try discriminate; try reflexivity;
    intros; subst; try lia.
Qed.

Lemma isNaN_false (x : float) :
  F64.isNaN x = false <-> FloatOps.Prim2SF x <> S754_nan.
Proof.
  unfold F64.isNaN, is_nan. rewrite eqb_spec. unfold SFeqb.
  split.
  - intros H Hnan. rewrite Hnan in H. discriminate.
  - intros H. rewrite (SFcompare_refl _ H). reflexivity.
Qed.

Lemma leb_numbers (x y : float) :
  (x <=? y) = true -> F64.isNaN x = false /\ F64.isNaN y = false.
Proof.
  rewrite leb_spec. unfold SFleb. intros H.
  split; apply isNaN_false; intros Hnan; rewrite Hnan in H.
  - discriminate.
  - destruct (FloatOps.Prim2SF x); discriminate.
Qed.

Lemma leb_refl (x : float) : F64.isNaN x = false -> (x <=? x) = true.
Proof.
  intros H. apply isNaN_false in H.
  rewrite leb_spec. unfold SFleb. rewrite (SFcompare_refl _ H). reflexivity.
Qed.

Lemma leb_trans (x y z : float) :
  (x <=? y) = true -> (y <=? z) = true -> (x <=? z) = true.
Proof. rewrite !leb_spec. apply SFleb_trans. Qed.

Lemma ltb_leb (x y : float) : (x <? y) = true -> (x <=? y) = true.
Proof.
  rewrite ltb_spec, leb_spec. unfold SFltb, SFleb.
  destruct (SFcompare (FloatOps.Prim2SF x) (FloatOps.Prim2SF y))
    as [[| |] |]; try discriminate; reflexivity.
Qed.

Lemma not_ltb_leb (x y : float) :
  F64.isNaN x = false -> F64.isNaN y = false ->
  (x <? y) = false -> (y <=? x) = true.
Proof.
  intros Hx Hy. apply isNaN_false in Hx. apply isNaN_false in Hy.
  rewrite ltb_spec, leb_spec. unfold SFltb, SFleb.
  destruct (SFcompare (FloatOps.Prim2SF x) (FloatOps.Prim2SF y))
    as [c |] eqn:Hc.
  - rewrite (SFcompare_antisym _ _ _ Hc).
    destruct c; try discriminate; reflexivity.
  - destruct (FloatOps.Prim2SF x), (FloatOps.Prim2SF y);
      try congruence; discriminate.
Qed.

(** [Math.max(a, b)] for a number [a]: NaN when [b] is NaN, and otherwise
    one of the two and an upper bound of both. *)
Lemma max_spec (a b : float) :
  F64.isNaN a = false ->
  (F64.isNaN b = true /\ F64.max a b = F64.NaN) \/
  (F64.isNaN b = false /\ (a <=? F64.max a b) = true /\
   (b <=? F64.max a b) = true /\ (F64.max a b = a \/ F64.max a b = b)).
Proof.
  intros Ha. unfold F64.max. rewrite Ha. simpl.
  destruct (F64.isNaN b) eqn:Hb; [left; split; reflexivity |].
  right. split; [reflexivity |].
  destruct (b <? a) eqn:Hba.
  - repeat split;
      [apply leb_refl; exact Ha | apply ltb_leb; exact Hba | left; reflexivity].
  - destruct (a <? b) eqn:Hab.
    + repeat split;
        [apply ltb_leb; exact Hab | apply leb_refl; exact Hb
        | right; reflexivity].
    + pose proof (not_ltb_leb _ _ Ha Hb Hab) as H1.
      pose proof (not_ltb_leb _ _ Hb Ha Hba) as H2.
      destruct (F64.is_neg_zero a).
      * repeat split;
          [exact H2 | apply leb_refl; exact Hb | right; reflexivity].
      * repeat split;
          [apply leb_refl; exact Ha | exact H1 | left; reflexivity].
Qed.

(** [Math.min(a, b)] likewise. *)
Lemma min_spec (a b : float) :
  F64.isNaN a = false ->
  (F64.isNaN b = true /\ F64.min a b = F64.NaN) \/
  (F64.isNaN b = false /\ (F64.min a b <=? a) = true /\
   (F64.min a b <=? b) = true /\ (F64.min a b = a \/ F64.min a b = b)).
Proof.
  intros Ha. unfold F64.min. rewrite Ha. simpl.
  destruct (F64.isNaN b) eqn:Hb; [left; split; reflexivity |].
  right. split; [reflexivity |].
  destruct (a <? b) eqn:Hab.
  - repeat split;
      [apply leb_refl; exact Ha | apply ltb_leb; exact Hab | left; reflexivity].
  - destruct (b <? a) eqn:Hba.
    + repeat split;
        [apply ltb_leb; exact Hba | apply leb_refl; exact Hb
        | right; reflexivity].
    + pose proof (not_ltb_leb _ _ Ha Hb Hab) as H1.
      pose proof (not_ltb_leb _ _ Hb Ha Hba) as H2.
      destruct (F64.is_neg_zero a).
      * repeat split;
          [apply leb_refl; exact Ha | exact H2 | left; reflexivity].
      * repeat split;
          [exact H1 | apply leb_refl; exact Hb | right; reflexivity].
Qed.

(** Capping to [[lo, hi]] lands in [[lo, hi]] for every number and passes
    NaN on. *)
Lemma cap_spec (lo hi x : float) :
  F64.isNaN lo = false -> F64.isNaN hi = false -> (lo <=? hi) = true ->
  (F64.isNaN x = true /\ F64.max lo (F64.min hi x) = F64.NaN) \/
  (F64.isNaN x = false /\
   (lo <=? F64.max lo (F64.min hi x)) = true /\
   (F64.max lo (F64.min hi x) <=? hi) = true).
Proof.
  intros Hlo Hhi Hle.
  destruct (min_spec hi x Hhi) as [[Hx Hmin] | (Hx & Hmh & Hmx & Hmin)].
  - left. split; [exact Hx |]. rewrite Hmin.
    unfold F64.max. rewrite Hlo. reflexivity.
  - right. split; [exact Hx |].
    assert (F64.isNaN (F64.min hi x) = false) as Hm.
    { destruct Hmin as [-> | ->]; assumption. }
    destruct (max_spec lo (F64.min hi x) Hlo)
      as [[Hnan _] | (_ & Hl & _ & Hmax)]; [congruence |].
    split; [exact Hl |].
    destruct Hmax as [-> | ->]; assumption.
Qed.

(** The floor of the linear estimators: NaN, or at least 500. *)
Lemma linear_floor_or_NaN (y : float) :
  F64.isNaN (F64.max 500 y) = true \/ (500 <=? F64.max 500 y) = true.
Proof.
  destruct (max_spec 500 y eq_refl) as [[_ Hnan] | (_ & Hle & _)].
  - left. rewrite Hnan. reflexivity.
  - right. exact Hle.
Qed.

End FloatOrder.

(** ** The nearest-neighbour tail in binary64 *)

Section FloatKNN.
Import PrimFloat.
Local Open Scope float_scope.

Lemma f64_insert_perm (a : F64.scored) (l : list F64.scored) :
  Permutation (a :: l) (F64.insert a l).
Proof.
  induction l as [| b l IH]; simpl.
  - apply Permutation_refl.
  - destruct (0 <? F64.comparator a b).
    + eapply perm_trans; [apply perm_swap |].
      apply perm_skip. exact IH.
    + apply Permutation_refl.
Qed.

Lemma f64_sort_perm (l : list F64.scored) : Permutation l (F64.sort l).
Proof.
  induction l as [| a l IH]; simpl.
  - constructor.
  - eapply perm_trans; [| apply f64_insert_perm].
    apply perm_skip. exact IH.
Qed.

Lemma comparable_pairs (ds : list F64.scored) :
  F64.comparable ds = true ->
  forall a b, In a ds -> In b ds -> F64.ordered_pair a b.
Proof.
  unfold F64.comparable. intros H a b Ha Hb.
  rewrite forallb_forall in H.
  pose proof (H a Ha) as Haa. pose proof (H b Hb) as Hbb.
  apply andb_true_iff in Haa as [Hna Hall].
  apply andb_true_iff in Hbb as [Hnb _].
  rewrite forallb_forall in Hall.
  pose proof (Hall b Hb) as Hab.
  apply andb_true_iff in Hab as [Hpos Hneg].
  repeat split.
  - apply negb_true_iff. exact Hna.
  - apply negb_true_iff. exact Hnb.
  - apply eqb_prop. exact Hpos.
  - apply eqb_prop. exact Hneg.
Qed.

Lemma f64_insert_sorted (a : F64.scored) (l : list F64.scored) :
  (forall b, In b l -> F64.ordered_pair a b) ->
  StronglySorted F64.ascending l ->
  StronglySorted F64.ascending (F64.insert a l).
Proof.
  intros Hpairs Hl. induction Hl as [| b l Hl IH Hb].
  - simpl. constructor; constructor.
  - destruct (Hpairs b (or_introl eq_refl)) as (Ha & Hnb & Hcmp & _).
    simpl. destruct (0 <? F64.comparator a b) eqn:Hafter.
    + constructor.
      * apply IH. intros c Hc. apply Hpairs. right. exact Hc.
      * eapply Permutation_Forall; [apply f64_insert_perm |].
        constructor; [| exact Hb].
        apply ltb_leb. rewrite <- Hcmp. reflexivity.
    + assert (F64.ascending a b) as Hab.
      { apply not_ltb_leb; [exact Hnb | exact Ha |].
        rewrite <- Hcmp. reflexivity. }
      constructor.
      * constructor; assumption.
      * constructor; [exact Hab |].
        eapply Forall_impl; [| exact Hb].
        intros c Hbc. exact (leb_trans _ _ _ Hab Hbc).
Qed.

Lemma f64_sort_sorted (ds : list F64.scored) :
  F64.comparable ds = true -> StronglySorted F64.ascending (F64.sort ds).
Proof.
  intros Hcmp. pose proof (comparable_pairs ds Hcmp) as Hpairs.
  assert (forall l, incl l ds -> StronglySorted F64.ascending (F64.sort l))
    as Hgen.
  { induction l as [| a l IH]; intros Hincl; simpl.
    - constructor.
    - apply f64_insert_sorted.
      + intros b Hb. apply Hpairs.
        * apply Hincl. left. reflexivity.
        * apply Hincl. right.
          eapply Permutation_in; [apply Permutation_sym, f64_sort_perm |].
          exact Hb.
      + apply IH. intros c Hc. apply Hincl. right. exact Hc. }
  apply Hgen. apply incl_refl.
Qed.

Lemma fold_left_map_add (f : F64.scored -> float) (l : list F64.scored)
    (init : float) :
  fold_left (fun sum n => sum + f n) l init = fold_left add (map f l) init.
Proof.
  revert init. induction l as [| a l IH]; intros init; simpl.
  - reflexivity.
  - apply IH.
Qed.

(** The first [reduce] sums the weights. *)
Lemma f64_totalWeight_sum (l : list F64.scored) :
  F64.totalWeight l = F64.sum (map F64.weight l).
Proof.
  unfold F64.totalWeight, F64.sum.
  apply (fold_left_map_add F64.weight).
Qed.

(** The second [reduce] is the average. *)
Lemma f64_weightedYield_average (l : list F64.scored) :
  F64.weightedYield l = F64.average l.
Proof.
  unfold F64.weightedYield, F64.average, F64.sum at 1.
  rewrite <- f64_totalWeight_sum.
  apply (fold_left_map_add
           (fun n => F64.syield n * F64.weight n / F64.totalWeight l)).
Qed.

Lemma f64_knn_estimate_intro (round2 : float -> float)
    (ds : list F64.scored) :
  F64.comparable ds = true ->
  F64.knn_estimate round2 ds
    (round2 (F64.weightedYield
               (F64.slice0 (Nat.min 10 (List.length ds)) (F64.sort ds)))).
Proof.
  intros Hcmp.
  pose proof (Permutation_length (f64_sort_perm ds)) as Hlen.
  exists (firstn (Nat.min 10 (List.length ds)) (F64.sort ds)),
         (skipn (Nat.min 10 (List.length ds)) (F64.sort ds)).
  rewrite firstn_skipn.
  split; [apply f64_sort_perm |].
  split; [apply f64_sort_sorted; exact Hcmp |].
  split; [rewrite length_firstn; lia |].
  split.
  - intros Hfew. apply skipn_all2. lia.
  - unfold F64.slice0. rewrite f64_weightedYield_average. reflexivity.
Qed.

End FloatKNN.

(** ** Runs of the code, reproduced *)

Section FloatRuns.
Import PrimFloat.
Local Open Scope float_scope.

(** The affine value 8208.675 is the double 8208.674999..., which times 100
    is below 820867.5: the simple endpoint returns 8208.67. *)
Example linear_estimate_rounds_the_double :
  F64.Predict.predictLinearRegression 20 723.47 150 7 75 = 8208.67.
Proof. vm_compute. reflexivity. Qed.

(** Two rows equal to the query with yields 8772.58 and 8772.59: the sum
    of the two halves falls below 8772.585. *)
Example estimate_of_two_tied_rows :
  F64.Predict.predictRandomForest 20 500 100 6.5 60
    (Some [ F64.base_row 20 500 100 6.5 60 8772.58;
            F64.base_row 20 500 100 6.5 60 8772.59 ])
  = 8772.58.
Proof. vm_compute. reflexivity. Qed.

(** The twelve sample rows: the two far rows, with yields 9100.5 and
    11000, are left out. *)
Example twelve_rows_estimates :
  F64.Predict.predictRandomForest 20 500 100 6.5 60 (Some F64.twelve_rows)
  = 3259.48 /\
  F64.PredictEnhanced.predictRandomForest 20 500 100 6.5 60
    (Some F64.twelve_rows) = 3248.04 /\
  map F64.syield
    (F64.slice0 10
       (F64.sort (map (F64.Predict.score 20 500 100 6.5 60) F64.twelve_rows)))
  = [3200.75; 3300.25; 3250.33; 2950.1; 3000; 3100.4; 3900.9; 2800;
     4100.25; 4500].
Proof. repeat split; vm_compute; reflexivity. Qed.

(** The estimate for the twelve rows lies between the least and the
    greatest of the ten kept yields. *)
Example twelve_rows_estimate_between_kept_yields :
  (2800 <=? F64.Predict.predictRandomForest 20 500 100 6.5 60
              (Some F64.twelve_rows)) = true /\
  (F64.Predict.predictRandomForest 20 500 100 6.5 60 (Some F64.twelve_rows)
   <=? 4500) = true.
Proof. split; vm_compute; reflexivity. Qed.

(** A distance of [1e-6] is not absorbed: its weight is below the weight
    100 of distance 0. *)
Example weights_across_a_gap :
  F64.weight {| F64.distance := 0; F64.syield := 0 |} = 100 /\
  (F64.weight {| F64.distance := 0.000001; F64.syield := 0 |} <? 100) = true.
Proof. split; vm_compute; reflexivity. Qed.

End FloatRuns.

(** ** Claims about the nearest-neighbour estimator *)

Section FloatClaims.
Import PrimFloat.
Local Open Scope float_scope.

(** C1 (as amended).  For every non-empty list of historical records whose
    computed distances are numbers that the comparator
    [a.distance - b.distance] orders as [<] does, both endpoints score every
    record with a distance, sort the scored records ascending by distance,
    keep the [min 10 N] closest (all of them when [N < 10]), weight each by
    [1 / (distance + 0.01)], and return the weight-normalized average of
    the kept yields, the sum of [yield * weight / total weight] in binary64,
    rounded to two decimals. *)
Theorem C1_knn_estimate_binary64
    (temp rain fert ph humid : float) (data : list F64.row) :
  data <> [] ->
  F64.comparable (map (F64.Predict.score temp rain fert ph humid) data)
  = true ->
  F64.comparable (map (F64.PredictEnhanced.score temp rain fert ph humid) data)
  = true ->
  F64.knn_estimate F64.round2
    (map (F64.Predict.score temp rain fert ph humid) data)
    (F64.Predict.predictRandomForest temp rain fert ph humid (Some data))
  /\
  F64.knn_estimate F64.toFixed2
    (map (F64.PredictEnhanced.score temp rain fert ph humid) data)
    (F64.PredictEnhanced.predictRandomForest temp rain fert ph humid
       (Some data)).
Proof.
  intros Hne Hsimple Henhanced.
  destruct data as [| record data]; [congruence |].
  split.
  - unfold F64.Predict.predictRandomForest.
    rewrite <- (length_map (F64.Predict.score temp rain fert ph humid)).
    apply (f64_knn_estimate_intro F64.round2). exact Hsimple.
  - unfold F64.PredictEnhanced.predictRandomForest.
    rewrite <- (length_map (F64.PredictEnhanced.score temp rain fert ph humid)).
    apply (f64_knn_estimate_intro F64.toFixed2). exact Henhanced.
Qed.

Lemma C1_knn_estimate_binary64_witness :
  F64.knn_estimate F64.round2
    (map (F64.Predict.score 20 500 100 6.5 60) F64.twelve_rows)
    (F64.Predict.predictRandomForest 20 500 100 6.5 60 (Some F64.twelve_rows))
  /\
  F64.knn_estimate F64.toFixed2
    (map (F64.PredictEnhanced.score 20 500 100 6.5 60) F64.twelve_rows)
    (F64.PredictEnhanced.predictRandomForest 20 500 100 6.5 60
       (Some F64.twelve_rows)).
Proof.
  apply (C1_knn_estimate_binary64 20 500 100 6.5 60 F64.twelve_rows).
  - discriminate.
  - vm_compute. reflexivity.
  - vm_compute. reflexivity.
Defined.

(** ** Claims about the linear estimator *)

(** C3.  The floor of [predictLinearRegression] lets NaN through: for a
    request without a temperature both versions return NaN, which is not
    at least 500, although both end in [Math.max(500, ...)] and the
    enhanced one is commented "Ensure minimum yield".  On every other input
    the claim holds: the output is NaN only when the rounded affine value
    is, and at least 500 otherwise. *)
Theorem C3_floor_lets_NaN_through :
  F64.Predict.predictLinearRegression nan 500 100 6.5 60 = nan /\
  F64.PredictEnhanced.predictLinearRegression
    nan 500 100 6.5 60 80 40 60 nan 6.5 nan 0.79 = nan /\
  (500 <=? nan) = false /\
  (forall temp rain fert ph humid : float,
     let result := F64.Predict.predictLinearRegression temp rain fert ph humid in
     F64.isNaN result = true \/ (500 <=? result) = true) /\
  (forall temp rain fert ph humid n p k tr_int pf_int t_sq npk_r : float,
     let result :=
       F64.PredictEnhanced.predictLinearRegression
         temp rain fert ph humid n p k tr_int pf_int t_sq npk_r in
     F64.isNaN result = true \/ (500 <=? result) = true).
Proof.
  split; [vm_compute; reflexivity |].
  split; [vm_compute; reflexivity |].
  split; [vm_compute; reflexivity |].
  split; intros; apply linear_floor_or_NaN.
Qed.


(** ** Claims about the weights *)


(** ** The estimate as a convex combination *)


(** ** Further properties of the code, in binary64 *)

(** X2.  The estimate depends on the order in which tied rows arrive: ties
    keep the order of the array and binary64 addition is not associative.
    Four rows equal to the query give 4650.77 in one order and 4650.76 in
    the reverse order, in both endpoints. *)
Theorem X2_order_of_tied_rows_matters :
  Permutation F64.four_tied_rows (rev F64.four_tied_rows) /\
  F64.Predict.predictRandomForest 20 500 100 6.5 60
    (Some F64.four_tied_rows) = 4650.77 /\
  F64.Predict.predictRandomForest 20 500 100 6.5 60
    (Some (rev F64.four_tied_rows)) = 4650.76 /\
  F64.PredictEnhanced.predictRandomForest 20 500 100 6.5 60
    (Some F64.four_tied_rows) = 4650.77 /\
  F64.PredictEnhanced.predictRandomForest 20 500 100 6.5 60
    (Some (rev F64.four_tied_rows)) = 4650.76.
Proof.
  split; [apply Permutation_rev |].
  repeat split; vm_compute; reflexivity.
Qed.

(** X9.  The enhanced handler's caps hold for every number, the infinities
    included: the capped temperature lies in [10, 45] and the capped
    rainfall in [100, 2500].  A temperature or rainfall that is missing
    from the request comes out of the cap as NaN. *)
Theorem X9_caps_hold_for_numbers (temperature rainfall : float) :
  ((F64.isNaN temperature = true /\
    F64.PredictEnhanced.capped_temp temperature = nan) \/
   (F64.isNaN temperature = false /\
    (10 <=? F64.PredictEnhanced.capped_temp temperature) = true /\
    (F64.PredictEnhanced.capped_temp temperature <=? 45) = true))
  /\
  ((F64.isNaN rainfall = true /\
    F64.PredictEnhanced.capped_rainfall rainfall = nan) \/
   (F64.isNaN rainfall = false /\
    (100 <=? F64.PredictEnhanced.capped_rainfall rainfall) = true /\
    (F64.PredictEnhanced.capped_rainfall rainfall <=? 2500) = true)).
Proof.
  split.
  - apply (cap_spec 10 45 temperature); reflexivity.
  - apply (cap_spec 100 2500 rainfall); reflexivity.
Qed.

End FloatClaims.

(** * Statements on inputs that fit the columns *)

(** ** The weights *)



(** ** The estimate between the yields of its neighbours *)

Section NearestYields.
Import KNN KNNSpec KNNFacts.



End NearestYields.




(** ** Further properties on inputs that fit the columns *)










(** ** The batch loop on three batches *)

Lemma X13_batches_partition_the_records_witness :
  GenerateEnhanced.insert_batches calm_generation 2500 0
    (repeat sample_enhanced_record 2500) Eff.start
  = (Eff.Return tt,
     {| Eff.draws := 0;
        Eff.log := map Eff.InsertBatch [0; 1000; 2000]%nat |})
  /\ SimpleGeneratorHandler.insert_batches calm_simple_generation 2500 0
       (repeat sample_simple_record 2500) Eff.start
     = (Eff.Return tt,
        {| Eff.draws := 0;
           Eff.log := map Eff.InsertBatch [0; 1000; 2000]%nat |})
  /\ List.concat
       (map (batch_at 1000 (repeat sample_enhanced_record 2500))
          [0; 1000; 2000]%nat)
     = repeat sample_enhanced_record 2500
  /\ map (fun o => List.length
                     (batch_at 1000 (repeat sample_simple_record 2500) o))
       [0; 1000; 2000]%nat
     = [1000; 1000; 500]%nat.
Proof.
  assert (forall x, x = Eff.Resolved {| Eff.data := None; Eff.error := None |}
                    -> succeeds x) as Hok.
  { intros x ->. eexists. split; reflexivity. }
  assert (forall (A : Type) (x : A),
             batch_offsets (List.length (repeat x 2500)) 0 1000
               (List.length (repeat x 2500))
             = [0; 1000; 2000]%nat) as Hoffsets.
  { intros A x. rewrite repeat_length. vm_compute. reflexivity. }
  destruct (X13_batches_partition_the_records calm_generation
              calm_simple_generation (repeat sample_enhanced_record 2500)
              (repeat sample_simple_record 2500) Eff.start)
    as (He & Hs & Hce & _).
  - rewrite Hoffsets. repeat constructor; apply Hok; reflexivity.
  - rewrite Hoffsets. repeat constructor; apply Hok; reflexivity.
  - rewrite Hoffsets in He, Hs, Hce. rewrite repeat_length in He, Hs.
    split; [exact He |]. split; [exact Hs |]. split; [exact Hce |].
    cbn [map]. unfold batch_at.
    rewrite !length_firstn, !length_skipn, !repeat_length.
    reflexivity.
Defined.
